(** * Saleor storefront smoke tests: page objects, test helpers, runner scripts

    The harness drives a browser through Playwright.  The page objects
    ([BasePage], [HomePage], [ProductPage], [CartPage], [CheckoutPage]) and the
    helpers ([TestHelpers], [GlobalTestUtils]) are embedded as programs of a
    small monad of JavaScript completions; the browser is an interface
    ([Browser]) so that every statement about a page object holds for every
    page state.  A concrete browser over a static document ([StaticBrowser])
    gives executable runs.  The runner scripts are embedded over a small
    model of [sh] with [set -e]. *)

From Stdlib Require Import ZArith List String Ascii Bool Arith Lia Permutation.
Import ListNotations.
Local Open Scope string_scope.
Local Open Scope list_scope.

(* ===================================================================== *)
(** * JavaScript completions and async functions                         *)
(* ===================================================================== *)

Module Js.

(** Values thrown by the harness and by Playwright. *)
Inductive Error : Type :=
| TimeoutError (what : string)          (* a bounded wait ran out *)
| StrictModeViolation (what : string)   (* a locator resolved to several elements *)
| AssertionError (what : string)        (* a failed expect(...) *)
| SyntaxError (what : string)           (* a selector the engine cannot parse *)
| PlainError (message : string).        (* new Error(message) *)

(** How a call ends: [return v] or [throw e]. *)
Inductive Completion (A : Type) : Type :=
| Return (a : A)
| Throw (e : Error).
Arguments Return {A} a.
Arguments Throw {A} e.

Definition isReturn {A} (c : Completion A) : bool :=
  match c with Return _ => true | Throw _ => false end.

(** An async function awaited to completion, over a state [S].  What the
    function did to the state before throwing stays done. *)
Definition Async (S A : Type) : Type := S -> Completion A * S.

Definition ret {S A} (a : A) : Async S A := fun s => (Return a, s).

Definition throw {S A} (e : Error) : Async S A := fun s => (Throw e, s).

Definition bind {S A B} (c : Async S A) (k : A -> Async S B) : Async S B :=
  fun s =>
    match c s with
    | (Return a, s') => k a s'
    | (Throw e, s') => (Throw e, s')
    end.

(** [try { c } catch (e) { h e }] *)
Definition tryCatch {S A} (c : Async S A) (h : Error -> Async S A) : Async S A :=
  fun s =>
    match c s with
    | (Return a, s') => (Return a, s')
    | (Throw e, s') => h e s'
    end.

(** [promise.catch(h)] on a promise whose value is dropped. *)
Definition orElse {S A} (c : Async S A) (h : Async S unit) : Async S unit :=
  fun s =>
    match c s with
    | (Return _, s') => (Return tt, s')
    | (Throw _, s') => h s'
    end.

Definition when {S} (b : bool) (c : Async S unit) : Async S unit :=
  if b then c else ret tt.

End Js.
Import Js.

Declare Scope async_scope.
Delimit Scope async_scope with async.
Notation "x <- c1 ;; c2" := (bind c1 (fun x => c2))
  (at level 61, c1 at next level, right associativity) : async_scope.
Notation "c1 ;; c2" := (bind c1 (fun _ => c2))
  (at level 61, right associativity) : async_scope.
Local Open Scope async_scope.

(* ===================================================================== *)
(** * Selectors and locators                                             *)
(* ===================================================================== *)

Module Selector.

(** One condition of a compound selector. *)
Inductive Simple : Type :=
| Tag (name : string)                    (* button *)
| Class (name : string)                  (* .cart-item *)
| AttrPresent (name : string)            (* [data-variant] *)
| AttrEq (name value : string)           (* [data-testid="logo"] *)
| AttrContains (name value : string)     (* [href*="/products/"] *)
| HasText (text : string).               (* :has-text("Cart"), Playwright only *)

(** [button[data-testid*="variant"]]: all conditions on one element. *)
Definition Compound : Type := list Simple.

(** [header img]: compounds joined by the descendant combinator,
    outermost first. *)
Definition Complex : Type := list Compound.

(** ['a, b, c']: the candidates of one logical element, in the order the
    source lists them. *)
Definition SelectorList : Type := list Complex.

Definition testid (v : string) : Complex := [[AttrEq "data-testid" v]].
Definition class (c : string) : Complex := [[Class c]].
Definition tag (t : string) : Complex := [[Tag t]].
Definition tagText (t text : string) : Complex := [[Tag t; HasText text]].

End Selector.
Import Selector.

(** A Playwright [Locator]: a description of a query, resolved when used. *)
Inductive Locator : Type :=
| Css (candidates : SelectorList)                   (* page.locator('a, b') *)
| First (l : Locator)                               (* l.first() *)
| Nth (l : Locator) (i : nat)                       (* l.nth(i) *)
| Within (l : Locator) (candidates : SelectorList). (* l.locator('a, b') *)

Inductive ElementState : Type := attached | visible.

Inductive LoadState : Type := domcontentloaded | networkidle.

(** The URL patterns of the harness all have the shape [/.*lit.*/], which an
  unanchored match accepts exactly when [lit] occurs in the URL. *)
Inductive UrlPattern : Type := Containing (lit : string).

(** The element [document.querySelector] hands to an in-page function. *)
Record ElementHandle : Type := { handleAttrs : list (string * string) }.

Definition hasAttribute (h : ElementHandle) (name : string) : bool :=
  existsb (fun kv => String.eqb (fst kv) name) (handleAttrs h).

Definition getAttribute (h : ElementHandle) (name : string) : option string :=
  option_map snd (find (fun kv => String.eqb (fst kv) name) (handleAttrs h)).

(** A function shipped to the page by [page.waitForFunction]: a selector it
  queries and what it returns (truthy or not) on the query's result. *)
Record PageFunction : Type := {
  queried : SelectorList;
  truthy : option ElementHandle -> bool
}.

(* ===================================================================== *)
(** * The browser                                                        *)
(* ===================================================================== *)

(** What the harness asks of Playwright.  A page state [W] fixes the outcome
  of every wait and query; only actions (click, fill) move the page to
  another state. *)
Class Browser (W : Type) : Type := {
  waitFor : Locator -> ElementState -> Z -> W -> Completion unit;
  count : Locator -> W -> Completion nat;
  textContent : Locator -> W -> Completion (option string);
  toHaveURL : UrlPattern -> W -> Completion unit;
  toBeVisible : Locator -> W -> Completion unit;
  waitForLoadState : LoadState -> W -> Completion unit;
  waitForSelector : SelectorList -> Z -> W -> Completion unit;
  waitForFunction : PageFunction -> Z -> W -> Completion unit;
  click : Locator -> bool -> W -> Completion unit * W;
  fill : Locator -> string -> W -> Completion unit * W
}.

(** What a test leaves behind besides the page: the actions it issued and
  the lines it printed. *)
Inductive LogLine : Type :=
| Text (line : string)
| SelectedVariant (selector : Complex)
| FailedVariant (selector : Complex) (e : Error).

Inductive Event : Type :=
| Clicked (l : Locator) (force : bool)
| Filled (l : Locator) (text : string)
| ConsoleLog (line : LogLine).

Record Session (W : Type) : Type := mkSession {
  page : W;
  events : list Event
}.
Arguments mkSession {W} page events.
Arguments page {W} s.
Arguments events {W} s.

Section SessionCalls.
Context {W : Type}.

(** A wait or a query: reads the page. *)
Definition observe {A} (f : W -> Completion A) : Async (Session W) A :=
  fun s => (f (page s), s).

(** An action: recorded, and the page moves on. *)
Definition act (ev : Event) (f : W -> Completion unit * W) : Async (Session W) unit :=
  fun s =>
    let (r, w') := f (page s) in
    (r, mkSession w' (events s ++ [ev])).

Definition consoleLog (line : LogLine) : Async (Session W) unit :=
  fun s => (Return tt, mkSession (page s) (events s ++ [ConsoleLog line])).

(** [expect(b).toBe(true)] *)
Definition expectTrue (b : bool) : Async (Session W) unit :=
  if b then ret tt else throw (AssertionError "expected true").

End SessionCalls.

(* ===================================================================== *)
(** * page-objects/BasePage.ts                                           *)
(* ===================================================================== *)

Module BasePage.
Section BasePage.
Context {W : Type} `{Browser W}.

Definition waitForPageLoad : Async (Session W) unit :=
  observe (waitForLoadState domcontentloaded).

(** [waitForElement(locator, timeout = 5000)] *)
Definition waitForElement (locator : Locator) (timeout : option Z) : Async (Session W) unit :=
  observe (waitFor locator visible (match timeout with Some t => t | None => 5000%Z end)).

Definition safeClick (locator : Locator) : Async (Session W) unit :=
  waitForElement locator None ;;
  act (Clicked locator false) (click locator false).

Definition safeFill (locator : Locator) (text : string) : Async (Session W) unit :=
  waitForElement locator None ;;
  act (Filled locator text) (fill locator text).

Definition elementExists (locator : Locator) : Async (Session W) bool :=
  tryCatch
    (observe (waitFor locator attached 2000%Z) ;;
     ret true)
    (fun _ => ret false).

Definition verifyPageLoaded (urlPattern : UrlPattern) : Async (Session W) unit :=
  observe (toHaveURL urlPattern).

End BasePage.
End BasePage.

(* ===================================================================== *)
(** * utils/test-helpers.ts                                              *)
(* ===================================================================== *)

Module TestHelpers.
Section TestHelpers.
Context {W : Type} `{Browser W}.

(** [elementExists(selector, timeout = 5000)] *)
Definition elementExists (selector : SelectorList) (timeout : option Z) : Async (Session W) bool :=
  tryCatch
    (observe (waitFor (Css selector) attached (match timeout with Some t => t | None => 5000%Z end)) ;;
     ret true)
    (fun _ => ret false).

End TestHelpers.
End TestHelpers.

Module GlobalTestUtils.
Section Retry.
Context {S T : Type}.

(** The run of [retry]: the state [fn] works on, the timers awaited so far
    (oldest first) and how often [fn] was invoked. *)
Record Run : Type := mkRun {
  env : S;
  slept : list Z;
  calls : nat
}.

Definition start (s : S) : Run := mkRun s [] 0.

(** [wait(ms)]: a promise resolved by [setTimeout(resolve, ms)]. *)
Definition wait (ms : Z) : Async Run unit :=
  fun r => (Return tt, mkRun (env r) (slept r ++ [ms]) (calls r)).

(** [await fn()] *)
Definition invoke (fn : Async S T) : Async Run T :=
  fun r =>
    let (c, s') := fn (env r) in
    (c, mkRun s' (slept r) (Datatypes.S (calls r))).

(** The [for (let i = 0; i < maxRetries; i++)] loop from index [i] on;
    [remaining] is the number of iterations left, [maxRetries - i]. *)
Fixpoint retryFrom (fn : Async S T) (maxRetries baseDelay : Z)
         (remaining : nat) (i : Z) : Async Run T :=
  match remaining with
  | O => throw (PlainError "Max retries exceeded")
  | Datatypes.S remaining' =>
      tryCatch
        (invoke fn)
        (fun error =>
           if (i =? maxRetries - 1)%Z then throw error
           else
             let delay := (baseDelay * 2 ^ i)%Z in
             wait delay ;;
             retryFrom fn maxRetries baseDelay remaining' (i + 1)%Z)
  end.

(** [retry(fn, maxRetries = 3, baseDelay = 1000)] *)
Definition retry (fn : Async S T) (maxRetries baseDelay : option Z) : Async Run T :=
  let maxRetries := match maxRetries with Some m => m | None => 3%Z end in
  let baseDelay := match baseDelay with Some d => d | None => 1000%Z end in
  retryFrom fn maxRetries baseDelay (Z.to_nat maxRetries) 0%Z.

(** The [j]-th invocation of [fn] (from 0) when each invocation starts in
    the state the previous one left. *)
Fixpoint attempt (fn : Async S T) (s : S) (j : nat) : Completion T * S :=
  match j with
  | O => fn s
  | Datatypes.S j' => fn (snd (attempt fn s j'))
  end.

(** The delays [baseDelay * 2^0, ..., baseDelay * 2^(k-1)]. *)
Definition backoff (baseDelay : Z) (k : nat) : list Z :=
  map (fun i => (baseDelay * 2 ^ Z.of_nat i)%Z) (seq 0 k).

End Retry.
Arguments Run S : clear implicits.
End GlobalTestUtils.

(* ===================================================================== *)
(** * JavaScript strings                                                 *)
(* ===================================================================== *)

Module JsString.

(** [s.includes(t)] *)
Fixpoint includes (s t : string) : bool :=
  if prefix t s then true
  else match s with
       | EmptyString => false
       | String _ s' => includes s' t
       end.

(** White space and line terminators among the ASCII characters. *)
Definition isWhiteSpace (c : ascii) : bool :=
  let n := nat_of_ascii c in
  ((n =? 32) || ((9 <=? n) && (n <=? 13)))%nat.

Fixpoint trimStart (s : string) : string :=
  match s with
  | EmptyString => EmptyString
  | String c s' => if isWhiteSpace c then trimStart s' else s
  end.

(** [trimEnd], right to left: a character is dropped when it is white space
    and everything after it was dropped. *)
Fixpoint trimEnd (s : string) : string :=
  match s with
  | EmptyString => EmptyString
  | String c s' =>
      match trimEnd s' with
      | EmptyString => if isWhiteSpace c then EmptyString else String c EmptyString
      | rest => String c rest
      end
  end.

(** [s.trim()] *)
Definition trim (s : string) : string := trimEnd (trimStart s).

(** A JavaScript number as [parseInt] produces it. *)
Inductive Number : Type := NaN | Int (z : Z).

Definition digitValue (c : ascii) : option Z :=
  let n := nat_of_ascii c in
  if ((48 <=? n) && (n <=? 57))%nat then Some (Z.of_nat (n - 48))
  else if ((97 <=? n) && (n <=? 122))%nat then Some (Z.of_nat (n - 87))
  else if ((65 <=? n) && (n <=? 90))%nat then Some (Z.of_nat (n - 55))
  else None.

(** The longest prefix of digits of the radix, read left to right; [None]
    when there is no digit. *)
Fixpoint readDigits (radix : Z) (acc : option Z) (s : string) : option Z :=
  match s with
  | EmptyString => acc
  | String c s' =>
      match digitValue c with
      | Some d =>
          if (d <? radix)%Z
          then readDigits radix
                 (Some (match acc with Some a => a * radix + d | None => d end)%Z) s'
          else acc
      | None => acc
      end
  end.

(** [parseInt(s)] without a radix: leading white space, a sign, an optional
    [0x]/[0X] for radix 16, then digits up to the first other character. *)
Definition parseInt (s : string) : Number :=
  let s := trimStart s in
  let '(sign, s) :=
    match s with
    | String "-" s' => ((-1)%Z, s')
    | String "+" s' => (1%Z, s')
    | _ => (1%Z, s)
    end in
  let '(radix, s) :=
    match s with
    | String "0" (String "x" s') => (16%Z, s')
    | String "0" (String "X" s') => (16%Z, s')
    | _ => (10%Z, s)
    end in
  match readDigits radix None s with
  | Some n => Int (sign * n)
  | None => NaN
  end.

End JsString.

(* ===================================================================== *)
(** * page-objects/HomePage.ts                                           *)
(* ===================================================================== *)

Module HomePage.
Section HomePage.
Context {W : Type} `{Browser W}.
Import BasePage JsString.

(** '[data-testid="logo"], .logo, header img' *)
Definition logo : Locator :=
  Css [testid "logo"; class "logo"; [[Tag "header"]; [Tag "img"]]].
(** 'nav, [data-testid="navigation"]' *)
Definition navigation : Locator :=
  Css [tag "nav"; testid "navigation"].
(** '[data-testid="product-list"], .product-list, main' *)
Definition productList : Locator :=
  Css [testid "product-list"; class "product-list"; tag "main"].
(** '[data-testid="product-card"], .product-card, [href*="/products/"]' *)
Definition productCards : Locator :=
  Css [testid "product-card"; class "product-card"; [[AttrContains "href" "/products/"]]].
(** 'input[type="search"], [placeholder*="Search"], [data-testid="search"]' *)
Definition searchInput : Locator :=
  Css [[[Tag "input"; AttrEq "type" "search"]]; [[AttrContains "placeholder" "Search"]];
       testid "search"].
(** '[data-testid="cart"], [href*="cart"], .cart' *)
Definition cartIcon : Locator :=
  Css [testid "cart"; [[AttrContains "href" "cart"]]; class "cart"].
(** '[data-testid="cart-badge"], .cart-badge, .cart-count' *)
Definition cartBadge : Locator :=
  Css [testid "cart-badge"; class "cart-badge"; class "cart-count"].
(** 'footer' *)
Definition footer : Locator := Css [tag "footer"].

Definition verifyHomepageLoaded : Async (Session W) unit :=
  observe (toHaveURL (Containing "localhost:3000")) ;;
  observe (toBeVisible productList) ;;
  hasProducts <- elementExists (First productCards) ;;
  hasMainContent <- elementExists productList ;;
  expectTrue (hasProducts || hasMainContent).

Definition getFirstProduct : Locator := First productCards.

(** '[data-testid="product-card"]:has-text("NAME"),
     .product-card:has-text("NAME"), [href*="/products/"]:has-text("NAME")'
    followed by [.first()] *)
Definition getProductByName (productName : string) : Locator :=
  First (Css [[[AttrEq "data-testid" "product-card"; HasText productName]];
              [[Class "product-card"; HasText productName]];
              [[AttrContains "href" "/products/"; HasText productName]]]).

Definition clickProduct (productLocator : Locator) : Async (Session W) unit :=
  safeClick productLocator.

Definition clickFirstProduct : Async (Session W) unit :=
  clickProduct getFirstProduct.

Definition clickProductByName (productName : string) : Async (Session W) unit :=
  clickProduct (getProductByName productName).

Definition getCartBadgeCount : Async (Session W) Number :=
  tryCatch
    (badgeText <- observe (textContent cartBadge) ;;
     ret (match badgeText with
          | Some (String c t) => parseInt (trim (String c t))
          | Some EmptyString => Int 0
          | None => Int 0
          end))
    (fun _ => ret (Int 0)).

End HomePage.
End HomePage.

(* ===================================================================== *)
(** * page-objects/ProductPage.ts                                        *)
(* ===================================================================== *)

Module ProductPage.
Section ProductPage.
Context {W : Type} `{Browser W}.
Import BasePage JsString.

(** '[data-testid="product-title"], .product-title, h1' *)
Definition productTitle : Locator :=
  Css [testid "product-title"; class "product-title"; tag "h1"].
(** '[data-testid="product-price"], .product-price, .price' *)
Definition productPrice : Locator :=
  Css [testid "product-price"; class "product-price"; class "price"].
(** '[data-testid="variant-selector"], .variant-selector, .product-variants' *)
Definition variantSelector : Locator :=
  Css [testid "variant-selector"; class "variant-selector"; class "product-variants"].
(** '[data-testid="size-option"], .size-option, [data-variant-type="size"] button' *)
Definition sizeOptions : Locator :=
  Css [testid "size-option"; class "size-option";
       [[AttrEq "data-variant-type" "size"]; [Tag "button"]]].
(** '[data-testid="add-to-cart"], .add-to-cart, button:has-text("Add to Cart")' *)
Definition addToCartSelectors : SelectorList :=
  [testid "add-to-cart"; class "add-to-cart"; tagText "button" "Add to Cart"].
Definition addToCartButton : Locator := Css addToCartSelectors.
(** '[data-testid="quantity"], .quantity, input[type="number"]' *)
Definition quantitySelector : Locator :=
  Css [testid "quantity"; class "quantity"; [[Tag "input"; AttrEq "type" "number"]]].
(** '[data-testid="product-description"], .product-description, .description' *)
Definition productDescription : Locator :=
  Css [testid "product-description"; class "product-description"; class "description"].
(** '[data-testid="product-image"], .product-image, .gallery img' *)
Definition productImage : Locator :=
  Css [testid "product-image"; class "product-image"; [[Class "gallery"]; [Tag "img"]]].
(** '[data-testid="color-option"], .color-option, [data-variant-type="color"] button' *)
Definition colorOptions : Locator :=
  Css [testid "color-option"; class "color-option";
       [[AttrEq "data-variant-type" "color"]; [Tag "button"]]].
(** '[data-testid="breadcrumb"], .breadcrumb, nav' *)
Definition breadcrumb : Locator :=
  Css [testid "breadcrumb"; class "breadcrumb"; tag "nav"].
(** '[data-testid="back"], .back, button:has-text("Back")' *)
Definition backButton : Locator :=
  Css [testid "back"; class "back"; tagText "button" "Back"].
(** '[data-testid="product-gallery"], .product-gallery, .gallery' *)
Definition productGallery : Locator :=
  Css [testid "product-gallery"; class "product-gallery"; class "gallery"].

Definition verifyProductPageLoaded : Async (Session W) unit :=
  observe (toHaveURL (Containing "/products/")) ;;
  observe (toBeVisible productTitle) ;;
  hasPrice <- elementExists productPrice ;;
  hasPriceOrButton <- (if hasPrice then ret true else elementExists addToCartButton) ;;
  expectTrue hasPriceOrButton.

(** The six patterns of [selectSize], in the order of the source array. *)
Definition sizeSelectors (size : string) : list Complex :=
  [ [[AttrEq "data-testid" "size-option"; HasText size]];
    [[AttrEq "data-variant" "size"; HasText size]];
    [[Class "size-option"; HasText size]];
    [[Tag "button"; HasText size]];
    [[AttrEq "data-size" size]];
    [[AttrEq "value" size]] ].

(** [for (const selector of sizeSelectors)]: click the first pattern whose
    target exists and [break]; the result is [selected]. *)
Fixpoint clickFirstExisting (selectors : list Complex) : Async (Session W) bool :=
  match selectors with
  | [] => ret false
  | selector :: rest =>
      let element := Css [selector] in
      found <- elementExists element ;;
      if found then safeClick element ;; ret true
      else clickFirstExisting rest
  end.

(** [for (let i = 0; i < variantCount; i++)] from index [i] on, with
    [remaining = variantCount - i]; the result is [selected]. *)
Fixpoint clickVariantWithText (variants : Locator) (size : string)
         (remaining i : nat) : Async (Session W) bool :=
  match remaining with
  | O => ret false
  | S remaining' =>
      let variant := Nth variants i in
      text <- observe (textContent variant) ;;
      if match text with Some t => includes t size | None => false end
      then safeClick variant ;; ret true
      else clickVariantWithText variants size remaining' (S i)
  end.

(** 'button, select option' under the variant selector *)
Definition genericVariants : Locator :=
  Within variantSelector [tag "button"; [[Tag "select"]; [Tag "option"]]].

Definition selectSize (size : string) : Async (Session W) unit :=
  selected <- clickFirstExisting (sizeSelectors size) ;;
  selected <- (if negb selected then
                 hasSelector <- elementExists variantSelector ;;
                 if hasSelector then
                   variantCount <- observe (count genericVariants) ;;
                   clickVariantWithText genericVariants size variantCount 0
                 else ret false
               else ret true) ;;
  if negb selected then
    let firstVariant := First sizeOptions in
    found <- elementExists firstVariant ;;
    when found (safeClick firstVariant)
  else ret tt.

Definition setQuantity (quantity : string) : Async (Session W) unit :=
  found <- elementExists quantitySelector ;;
  when found (safeFill quantitySelector quantity).

(** '.success, .added, [data-success]' *)
Definition successIndicator : SelectorList :=
  [class "success"; class "added"; [[AttrPresent "data-success"]]].

Definition clickAddToCart : Async (Session W) unit :=
  tryCatch
    (safeClick addToCartButton)
    (fun _ =>
       consoleLog (Text "Normal click failed, trying force click...") ;;
       act (Clicked addToCartButton true) (click addToCartButton true)) ;;
  orElse
    (observe (waitForSelector successIndicator 3000%Z))
    (consoleLog (Text "No success indicator found, continuing...")).

(** The patterns of [selectAnyVariant], in the order of the source array. *)
Definition variantSelectors : list Complex :=
  [ [[Tag "button"; AttrContains "data-testid" "variant"]];
    [[Tag "button"; AttrPresent "data-variant"]];
    [[Class "variant-option"]; [Tag "button"]];
    [[Class "product-variants"]; [Tag "button"]];
    [[AttrEq "role" "radiogroup"]; [Tag "button"]];
    [[Tag "fieldset"]; [Tag "button"]] ].

(** [for (const selector of variantSelectors)]; a successful click
    returns from [selectAnyVariant], a failed one goes on with the next
    pattern. *)
Fixpoint selectAnyVariantFrom (selectors : list Complex) : Async (Session W) unit :=
  match selectors with
  | [] => consoleLog (Text "No variants found to select")
  | selector :: rest =>
      let variants := Css [selector] in
      n <- observe (count variants) ;;
      if (0 <? n)%nat then
        let firstVariant := First variants in
        found <- elementExists firstVariant ;;
        if found then
          clicked <- tryCatch
                       (safeClick firstVariant ;;
                        consoleLog (SelectedVariant selector) ;;
                        ret true)
                       (fun error =>
                          consoleLog (FailedVariant selector error) ;;
                          ret false) ;;
          if clicked then ret tt else selectAnyVariantFrom rest
        else selectAnyVariantFrom rest
      else selectAnyVariantFrom rest
  end.

Definition selectAnyVariant : Async (Session W) unit :=
  selectAnyVariantFrom variantSelectors.

(** The function handed to [page.waitForFunction]:
    [button && !button.hasAttribute('disabled') &&
     button.getAttribute('aria-disabled') !== 'true'] on
    [document.querySelector] of the add-to-cart selector. *)
Definition addToCartEnabled : PageFunction :=
  {| queried := addToCartSelectors;
     truthy := fun button =>
       match button with
       | None => false
       | Some b =>
           negb (hasAttribute b "disabled") &&
           negb (match getAttribute b "aria-disabled" with
                 | Some v => String.eqb v "true"
                 | None => false
                 end)
       end |}.

Definition waitForAddToCartEnabled : Async (Session W) unit :=
  tryCatch
    (observe (waitFor addToCartButton visible 5000%Z) ;;
     observe (waitForFunction addToCartEnabled 5000%Z))
    (fun _ =>
       consoleLog (Text "Add to cart button may still be disabled, trying anyway...")).

(** [addToCartWithSpecs(size?, quantity = 1)]; [quantity] is passed as the
    text [quantity.toString()] that [setQuantity] fills in. *)
Definition addToCartWithSpecs (size : option string) (quantity : option string)
  : Async (Session W) unit :=
  let quantity := match quantity with Some q => q | None => "1" end in
  selectAnyVariant ;;
  match size with
  | Some (String c sz) =>
      hasSizes <- elementExists sizeOptions ;;
      when hasSizes (selectSize (String c sz))
  | _ => ret tt
  end ;;
  hasQuantity <- elementExists quantitySelector ;;
  when hasQuantity (setQuantity quantity) ;;
  waitForAddToCartEnabled ;;
  clickAddToCart.

End ProductPage.
End ProductPage.

(** The locators the HomePage and ProductPage constructors initialise
    (HomePage.ts, lines 23-30; ProductPage.ts, lines 27-38), in the order of
    the source. *)
Definition constructorLocators : list Locator :=
  [HomePage.logo; HomePage.navigation; HomePage.productList; HomePage.productCards;
   HomePage.searchInput; HomePage.cartIcon; HomePage.cartBadge; HomePage.footer;
   ProductPage.productTitle; ProductPage.productPrice; ProductPage.productDescription;
   ProductPage.productImage; ProductPage.variantSelector; ProductPage.sizeOptions;
   ProductPage.colorOptions; ProductPage.addToCartButton; ProductPage.quantitySelector;
   ProductPage.breadcrumb; ProductPage.backButton; ProductPage.productGallery].

(* ===================================================================== *)
(** * page-objects/CartPage.ts and page-objects/CheckoutPage.ts          *)
(* ===================================================================== *)

Module CartPage.
Section CartPage.
Context {W : Type} `{Browser W}.
Import BasePage.

(** '[data-testid="cart-item"], .cart-item, .cart-line-item' *)
Definition cartItems : Locator :=
  Css [testid "cart-item"; class "cart-item"; class "cart-line-item"].
(** '[data-testid="empty-cart"], .empty-cart, :has-text("empty"),
     :has-text("no items")' *)
Definition emptyCartMessage : Locator :=
  Css [testid "empty-cart"; class "empty-cart"; [[HasText "empty"]]; [[HasText "no items"]]].

Definition verifyCartPageLoaded : Async (Session W) unit :=
  observe (toHaveURL (Containing "/cart")) ;;
  waitForPageLoad.

Definition getCartItemsCount : Async (Session W) nat :=
  tryCatch
    (observe (count cartItems))
    (fun _ => ret 0).

Definition isCartEmpty : Async (Session W) bool :=
  hasMessage <- elementExists emptyCartMessage ;;
  if hasMessage then ret true
  else
    itemCount <- getCartItemsCount ;;
    ret (itemCount =? 0)%nat.

End CartPage.
End CartPage.

Module CheckoutPage.
Section CheckoutPage.
Context {W : Type} `{Browser W}.
Import BasePage.

Definition verifyCheckoutPageLoaded : Async (Session W) unit :=
  observe (toHaveURL (Containing "/checkout")) ;;
  waitForPageLoad.

End CheckoutPage.
End CheckoutPage.

(* ===================================================================== *)
(** * A browser over a static document                                   *)
(* ===================================================================== *)

(** A page that does not change by itself: a URL, whether the document has
  been parsed, and the element tree.  Waits succeed exactly when their
  condition holds; actions succeed or fail and leave the page as it is.
  Selector lists follow CSS: a list matches the union of what its entries
  match, and matches come in document order. *)
Module StaticBrowser.

Record Element : Type := mkElement {
  tagName : string;
  classes : list string;
  attributes : list (string * string);
  ownText : string;
  shown : bool
}.

#[warnings="-register-all"]
Inductive Node : Type := Nd (e : Element) (children : list Node).

Definition element (n : Node) : Element := match n with Nd e _ => e end.

Fixpoint innerText (n : Node) : string :=
  match n with
  | Nd e children => (ownText e ++ String.concat EmptyString (map innerText children))%string
  end.

(** A node in its place: the child indices leading to it (innermost
    first) and its ancestors (nearest first). *)
Record Position : Type := mkPosition {
  path : list nat;
  above : list Node;
  here : Node
}.

(** The positions of a subtree, in document order. *)
Fixpoint positions (path : list nat) (above : list Node) (n : Node) : list Position :=
  match n with
  | Nd e children =>
      mkPosition path above n ::
      (fix siblings (i : nat) (l : list Node) : list Position :=
         match l with
         | [] => []
         | c :: l' => positions (i :: path) (n :: above) c ++ siblings (S i) l'
         end) 0 children
  end.

Fixpoint forest (i : nat) (roots : list Node) : list Position :=
  match roots with
  | [] => []
  | r :: roots' => positions [i] [] r ++ forest (S i) roots'
  end.

Definition lowerChar (c : ascii) : ascii :=
  let n := nat_of_ascii c in
  if ((65 <=? n) && (n <=? 90))%nat then ascii_of_nat (n + 32) else c.

Fixpoint lower (s : string) : string :=
  match s with
  | EmptyString => EmptyString
  | String c s' => String (lowerChar c) (lower s')
  end.

Definition attribute (e : Element) (name : string) : option string :=
  option_map snd (find (fun kv => String.eqb (fst kv) name) (attributes e)).

Definition matchSimple (n : Node) (s : Simple) : bool :=
  let e := element n in
  match s with
  | Tag t => String.eqb (tagName e) t
  | Class c => existsb (String.eqb c) (classes e)
  | AttrPresent a => match attribute e a with Some _ => true | None => false end
  | AttrEq a v => match attribute e a with Some x => String.eqb x v | None => false end
  | AttrContains a v =>
      match attribute e a, v with
      | Some x, String _ _ => JsString.includes x v
      | _, _ => false
      end
  | HasText t => JsString.includes (lower (innerText n)) (lower t)
  end.

Definition matchCompound (n : Node) (c : Compound) : bool :=
  forallb (matchSimple n) c.

(** The outer compounds of a descendant chain (innermost first) against
    the ancestors (nearest first): each compound takes the nearest
    ancestor that fits. *)
Fixpoint matchAncestors (outer : list Compound) (ancestors : list Node) : bool :=
  match outer with
  | [] => true
  | c :: outer' =>
      (fix climb (l : list Node) : bool :=
         match l with
         | [] => false
         | a :: l' => if matchCompound a c then matchAncestors outer' l' else climb l'
         end) ancestors
  end.

Definition matchComplex (p : Position) (cx : Complex) : bool :=
  match rev cx with
  | [] => false
  | inner :: outer => matchCompound (here p) inner && matchAncestors outer (above p)
  end.

(** An element matches a selector list when it matches one of its entries. *)
Definition matchesAny (candidates : SelectorList) (p : Position) : bool :=
  existsb (matchComplex p) candidates.

Fixpoint eqPath (a b : list nat) : bool :=
  match a, b with
  | [], [] => true
  | x :: a', y :: b' => (x =? y)%nat && eqPath a' b'
  | _, _ => false
  end.

(** [p] lies strictly inside [scope]. *)
Definition inside (scope p : Position) : bool :=
  (List.length (path scope) <? List.length (path p))%nat &&
  eqPath (skipn (List.length (path p) - List.length (path scope)) (path p)) (path scope).

(** The elements a locator stands for, in document order. *)
Fixpoint resolve (doc : list Position) (l : Locator) : list Position :=
  match l with
  | Css candidates => filter (matchesAny candidates) doc
  | First l' => firstn 1 (resolve doc l')
  | Nth l' i => match nth_error (resolve doc l') i with Some p => [p] | None => [] end
  | Within l' candidates =>
      let scopes := resolve doc l' in
      filter (fun p => matchesAny candidates p && existsb (fun sc => inside sc p) scopes) doc
  end.

Record StaticPage : Type := mkPage {
  url : string;
  parsed : bool;
  roots : list Node
}.

Definition document (p : StaticPage) : list Position := forest 0 (roots p).

(** Locator operations are strict: they need the locator to stand for one
    element. *)
Definition single (p : StaticPage) (l : Locator) : Completion Position :=
  match resolve (document p) l with
  | [] => Throw (TimeoutError "waiting for locator")
  | [x] => Return x
  | _ :: _ :: _ => Throw (StrictModeViolation "locator resolved to several elements")
  end.

Definition isShown (x : Position) : bool := shown (element (here x)).

Definition isEnabled (x : Position) : bool :=
  match attribute (element (here x)) "disabled" with Some _ => false | None => true end.

Definition static_waitFor (l : Locator) (st : ElementState) (timeout : Z) (p : StaticPage)
  : Completion unit :=
  match single p l with
  | Throw e => Throw e
  | Return x =>
      match st with
      | attached => Return tt
      | visible => if isShown x then Return tt else Throw (TimeoutError "waiting for visible")
      end
  end.

Definition static_count (l : Locator) (p : StaticPage) : Completion nat :=
  Return (List.length (resolve (document p) l)).

Definition static_textContent (l : Locator) (p : StaticPage) : Completion (option string) :=
  match single p l with
  | Throw e => Throw e
  | Return x => Return (Some (innerText (here x)))
  end.

Definition static_toHaveURL (pat : UrlPattern) (p : StaticPage) : Completion unit :=
  match pat with
  | Containing lit =>
      if JsString.includes (url p) lit then Return tt
      else Throw (AssertionError "toHaveURL")
  end.

Definition static_toBeVisible (l : Locator) (p : StaticPage) : Completion unit :=
  match single p l with
  | Throw (StrictModeViolation w) => Throw (StrictModeViolation w)
  | Throw _ => Throw (AssertionError "toBeVisible")
  | Return x => if isShown x then Return tt else Throw (AssertionError "toBeVisible")
  end.

Definition static_waitForLoadState (st : LoadState) (p : StaticPage) : Completion unit :=
  if parsed p then Return tt else Throw (TimeoutError "waitForLoadState").

(** [page.waitForSelector] takes the first match and waits for it to be
    visible. *)
Definition static_waitForSelector (sels : SelectorList) (timeout : Z) (p : StaticPage)
  : Completion unit :=
  match resolve (document p) (Css sels) with
  | x :: _ => if isShown x then Return tt else Throw (TimeoutError "waitForSelector")
  | [] => Throw (TimeoutError "waitForSelector")
  end.

Definition isNative (s : Simple) : bool :=
  match s with HasText _ => false | _ => true end.

(** [document.querySelector] is the page's own selector engine: it rejects
    a list with an entry it cannot parse, and [:has-text] is not CSS. *)
Definition querySelector (sels : SelectorList) (p : StaticPage)
  : Completion (option ElementHandle) :=
  if forallb (forallb (forallb isNative)) sels then
    match resolve (document p) (Css sels) with
    | x :: _ => Return (Some {| handleAttrs := attributes (element (here x)) |})
    | [] => Return None
    end
  else Throw (SyntaxError "not a valid selector").

(** [page.waitForFunction]: an error of the function rejects the wait. *)
Definition static_waitForFunction (f : PageFunction) (timeout : Z) (p : StaticPage)
  : Completion unit :=
  match querySelector (queried f) p with
  | Throw e => Throw e
  | Return h => if truthy f h then Return tt else Throw (TimeoutError "waitForFunction")
  end.

Definition static_click (l : Locator) (force : bool) (p : StaticPage)
  : Completion unit * StaticPage :=
  match single p l with
  | Throw e => (Throw e, p)
  | Return x =>
      if force || (isShown x && isEnabled x) then (Return tt, p)
      else (Throw (TimeoutError "click"), p)
  end.

Definition static_fill (l : Locator) (text : string) (p : StaticPage)
  : Completion unit * StaticPage :=
  match single p l with
  | Throw e => (Throw e, p)
  | Return x =>
      if isShown x && isEnabled x then (Return tt, p)
      else (Throw (TimeoutError "fill"), p)
  end.

#[export] Instance staticBrowser : Browser StaticPage := {|
  waitFor := static_waitFor;
  count := static_count;
  textContent := static_textContent;
  toHaveURL := static_toHaveURL;
  toBeVisible := static_toBeVisible;
  waitForLoadState := static_waitForLoadState;
  waitForSelector := static_waitForSelector;
  waitForFunction := static_waitForFunction;
  click := static_click;
  fill := static_fill
|}.

Definition open (p : StaticPage) : Session StaticPage := mkSession p [].

(** Resolution as section 4.1 of the design describes it: the first entry
    of the candidate list that matches anything, and of that entry the
    first match. *)
Fixpoint firstEntryThatMatches (doc : list Position) (candidates : SelectorList)
  : option Position :=
  match candidates with
  | [] => None
  | c :: rest =>
      match filter (fun p => matchComplex p c) doc with
      | p :: _ => Some p
      | [] => firstEntryThatMatches doc rest
      end
  end.

(** What the code does: [page.locator(list).first()]. *)
Definition firstOfList (doc : list Position) (candidates : SelectorList) : option Position :=
  hd_error (resolve doc (First (Css candidates))).

End StaticBrowser.


(* ===================================================================== *)
(** * The runner scripts: run-fast-smoke.sh and run-smoke-tests.sh       *)
(* ===================================================================== *)

(** A small model of [sh]: a command ends with a status, or ends the
    enclosing function ([return]), or ends the script ([exit]).  Under
    [set -e] a simple command with a non-zero status ends the script with
    that status, except where its status is being tested (the condition of
    an [if], a command under [!]), also inside functions called there. *)
Module Sh.

Inductive Outcome : Type :=
| Status (z : Z)
| Returned (z : Z)
| Exited (z : Z).

Record Run : Type := mkRun {
  outcome : Outcome;
  printed : list string
}.

(** A command, given whether [set -e] is in force where it runs. *)
Definition Command : Type := bool -> Run.

Definition finish (errexit : bool) (status : Z) : Outcome :=
  if errexit && negb (status =? 0)%Z then Exited status else Status status.

(** A program of the host that ended with [status]. *)
Definition external (status : Z) : Command :=
  fun errexit => mkRun (finish errexit status) [].

Definition echo (line : string) : Command :=
  fun _ => mkRun (Status 0) [line].

Definition exit_ (n : Z) : Command :=
  fun _ => mkRun (Exited (n mod 256)) [].

Definition return_ (n : Z) : Command :=
  fun _ => mkRun (Returned (n mod 256)) [].

Definition skip : Command := fun _ => mkRun (Status 0) [].

(** [a; k $?] *)
Definition andThen (a : Command) (k : Z -> Command) : Command :=
  fun errexit =>
    let ra := a errexit in
    match outcome ra with
    | Status z =>
        let rk := k z errexit in
        mkRun (outcome rk) (printed ra ++ printed rk)
    | _ => ra
    end.

(** [[ test ]]: status 0 when the test holds, 1 otherwise; never subject to
    [set -e] where the scripts use it (always as a condition). *)
Definition test (b : bool) : Command :=
  external (if b then 0 else 1)%Z.

(** [! c] *)
Definition not_ (c : Command) : Command :=
  fun _ =>
    let rc := c false in
    match outcome rc with
    | Status z => mkRun (Status (if (z =? 0)%Z then 1 else 0)) (printed rc)
    | _ => rc
    end.

(** [if c; then a; else b; fi] *)
Definition ifThenElse (c a b : Command) : Command :=
  fun errexit =>
    let rc := c false in
    match outcome rc with
    | Status z =>
        let rb := (if (z =? 0)%Z then a else b) errexit in
        mkRun (outcome rb) (printed rc ++ printed rb)
    | _ => rc
    end.

Definition ifThen (c a : Command) : Command := ifThenElse c a skip.

(** [c1 || c2] as a condition *)
Definition orElse (c1 c2 : Command) : Command :=
  fun _ =>
    let r1 := c1 false in
    match outcome r1 with
    | Status z =>
        if (z =? 0)%Z then r1
        else let r2 := c2 false in mkRun (outcome r2) (printed r1 ++ printed r2)
    | _ => r1
    end.

(** A call of a shell function: its [return] (or the status of its last
    command) is the status of the call. *)
Definition call (body : Command) : Command :=
  fun errexit =>
    let rb := body errexit in
    match outcome rb with
    | Status z => mkRun (finish errexit z) (printed rb)
    | Returned z => mkRun (finish errexit z) (printed rb)
    | Exited z => rb
    end.

Definition code (o : Outcome) : Z :=
  match o with
  | Status z => z
  | Returned z => z
  | Exited z => z
  end.

(** The exit code of a script that starts with [set -e]. *)
Definition exitCode (script : Command) : Z := code (outcome (script true)).

(** A command that goes on, or stops with a non-zero code. *)
Definition goesOnOrFails (o : Outcome) : Prop :=
  match o with
  | Status _ => True
  | Returned z => z <> 0%Z
  | Exited z => z <> 0%Z
  end.

End Sh.

Declare Scope sh_scope.
Delimit Scope sh_scope with sh.
Notation "x <- c1 ;; c2" := (Sh.andThen c1 (fun x => c2))
  (at level 61, c1 at next level, right associativity) : sh_scope.
Notation "c1 ;; c2" := (Sh.andThen c1 (fun _ => c2))
  (at level 61, right associativity) : sh_scope.

(** ** run-fast-smoke.sh *)
Module RunFastSmoke.
Import Sh.
Local Open Scope sh_scope.

(** The script, given the statuses of its two programs: [curl] probing
    localhost:3000 and [npx playwright test ...].  Colours and emoji of the
    messages are left out. *)
Definition script (curl npx : Z) : Command :=
  (echo "Running FAST Saleor Smoke Tests (Chrome Only)" ;;
   echo "==================================================" ;;
   ifThen (not_ (external curl))
     (echo "Saleor storefront is not running on localhost:3000" ;;
      echo "Please start Saleor first:" ;;
      echo "  cd ../storefront/saleor-storefront-installed-manually-from-fork" ;;
      echo "  npm run dev" ;;
      exit_ 1) ;;
   echo "Saleor storefront is running" ;;
   echo "Starting fast smoke tests..." ;;
   TEST_EXIT_CODE <- external npx ;;
   ifThenElse (test (TEST_EXIT_CODE =? 0)%Z)
     (echo "All smoke tests passed!" ;;
      echo "Test execution completed successfully.")
     (echo "Some smoke tests failed." ;;
      echo "Check the output above for details.") ;;
   exit_ TEST_EXIT_CODE)%sh.

End RunFastSmoke.

(** ** run-smoke-tests.sh *)
Module RunSmokeTests.
Import Sh.
Local Open Scope sh_scope.

(** What the script finds on the host. *)
Record Host : Type := mkHost {
  has_node : Z;               (* command -v node *)
  node_major : Z;             (* node --version | cut ... *)
  has_npm : Z;                (* command -v npm *)
  has_package_json : bool;    (* [ -f package.json ] *)
  npm_install : Z;
  curl_first : Z;
  read_choice : Z;            (* status of read *)
  choice : string;
  curl_second : Z;
  mkdir_results : Z;
  npm_run : string -> Z;      (* npm run <script>; npm test is npm run test *)
  has_report : bool;          (* [ -f playwright-report/index.html ] *)
  open_file : Z
}.

Definition print_status (msg : string) : Command := echo ("[INFO] " ++ msg)%string.
Definition print_success (msg : string) : Command := echo ("[SUCCESS] " ++ msg)%string.
Definition print_warning (msg : string) : Command := echo ("[WARNING] " ++ msg)%string.
Definition print_error (msg : string) : Command := echo ("[ERROR] " ++ msg)%string.

Definition check_prerequisites (h : Host) : Command :=
  (call (print_status "Checking prerequisites...") ;;
   ifThen (not_ (call (external (has_node h))))
     (call (print_error "Node.js is not installed. Please install Node.js 18+ first.") ;;
      exit_ 1) ;;
   ifThen (test (node_major h <? 18)%Z)
     (call (print_error "Node.js version must be 18 or higher.") ;;
      exit_ 1) ;;
   call (print_success "Node.js is installed") ;;
   ifThen (not_ (call (external (has_npm h))))
     (call (print_error "npm is not installed.") ;;
      exit_ 1) ;;
   call (print_success "npm is installed"))%sh.

Definition install_dependencies (h : Host) : Command :=
  (call (print_status "Installing dependencies...") ;;
   ifThen (test (negb (has_package_json h)))
     (call (print_error "package.json not found. Are you in the correct directory?") ;;
      exit_ 1) ;;
   external (npm_install h) ;;
   call (print_success "Dependencies installed successfully") ;;
   call (print_status "Installing Playwright browsers...") ;;
   external (npm_run h "test:install") ;;
   call (print_success "Playwright browsers installed"))%sh.

Definition check_saleor_status (h : Host) : Command :=
  (call (print_status "Checking if Saleor storefront is running on localhost:3000...") ;;
   ifThenElse (external (curl_first h))
     (call (print_success "Saleor storefront is running on localhost:3000") ;;
      return_ 0)
     (call (print_warning "Saleor storefront is not running on localhost:3000") ;;
      call (print_status "Please start Saleor storefront first:") ;;
      echo "  cd ../storefront/saleor-storefront-installed-manually-from-fork" ;;
      echo "  npm run dev" ;;
      external (read_choice h) ;;
      ifThen (test (String.eqb (choice h) "q"))
        (exit_ 1) ;;
      ifThenElse (external (curl_second h))
        (call (print_success "Saleor storefront is now running"))
        (call (print_error "Saleor storefront is still not accessible") ;;
         exit_ 1)))%sh.

(** The npm script [run_tests] starts for a mode: [case "${1:-basic}"]. *)
Definition scriptFor (mode : option string) : string :=
  match mode with
  | None | Some EmptyString => "test:smoke"
  | Some m =>
      if String.eqb m "basic" then "test:smoke"
      else if String.eqb m "headed" then "test:headed"
      else if String.eqb m "debug" then "test:debug"
      else if String.eqb m "ui" then "test:ui"
      else "test"
  end.

Definition run_tests (h : Host) (mode : option string) : Command :=
  (call (print_status "Running smoke tests...") ;;
   external (mkdir_results h) ;;
   TEST_EXIT_CODE <- external (npm_run h (scriptFor mode)) ;;
   ifThenElse (test (TEST_EXIT_CODE =? 0)%Z)
     (call (print_success "All smoke tests passed!"))
     (call (print_error "Some tests failed. Check the reports for details.")) ;;
   return_ TEST_EXIT_CODE)%sh.

Definition open_report (h : Host) : Command :=
  (call (print_status "Generating test report...") ;;
   external (npm_run h "test:report") ;;
   ifThen (test (has_report h))
     (call (print_success "Opening test report in browser...") ;;
      external (open_file h)))%sh.

Definition isArg (a : option string) (v : string) : bool :=
  match a with Some x => String.eqb x v | None => false end.

(** [TEST_MODE="${1:-basic}"] and [OPEN_REPORT="${2:-false}"] *)
Definition testMode (arg1 : option string) : string :=
  match arg1 with
  | None | Some EmptyString => "basic"
  | Some m => m
  end.

Definition openReport (arg2 : option string) : string :=
  match arg2 with
  | None | Some EmptyString => "false"
  | Some o => o
  end.

Definition wantsHelp (arg1 : option string) : bool :=
  isArg arg1 "--help" || isArg arg1 "-h".

(** [main "$@"] with the first two arguments of the script; of the usage
    text only the first line is kept. *)
Definition main (h : Host) (arg1 arg2 : option string) : Command :=
  let TEST_MODE := testMode arg1 in
  let OPEN_REPORT := openReport arg2 in
  (echo "Saleor Smoke Tests Runner" ;;
   echo "==============================" ;;
   ifThen (orElse (test (isArg arg1 "--help")) (test (isArg arg1 "-h")))
     (echo "Usage: $0 [test_mode] [open_report]" ;;
      exit_ 0) ;;
   call (check_prerequisites h) ;;
   call (install_dependencies h) ;;
   call (check_saleor_status h) ;;
   ifThenElse (call (run_tests h (Some TEST_MODE)))
     (ifThen (test (String.eqb OPEN_REPORT "true"))
        (call (open_report h)) ;;
      call (print_success "Smoke tests completed successfully!") ;;
      exit_ 0)
     (call (print_error "Smoke tests failed!") ;;
      ifThen (test (negb (String.eqb OPEN_REPORT "false")))
        (call (open_report h)) ;;
      exit_ 1))%sh.

End RunSmokeTests.

(* ===================================================================== *)
(** * Repeating a check; what size selection is meant to pick            *)
(* ===================================================================== *)

(** The outcomes of running [check] [n] times in a row, each run starting
    where the previous one stopped. *)
Fixpoint repeatedly {S : Type} (check : Async S unit) (n : nat) (s : S)
  : list (Completion unit) :=
  match n with
  | O => []
  | Datatypes.S n' => let (r, s') := check s in r :: repeatedly check n' s'
  end.

(** The cascade of [selectSize] as the design states it: an explicit size
    match, else a generic variant whose text contains the size, else the
    first available variant. *)
Module SizeCascade.
Section SizeCascade.
Context {W : Type} `{Browser W}.
Import ProductPage.

Inductive Choice : Type :=
| Target (l : Locator)       (* the element to click *)
| NoMatch                    (* no pattern matched *)
| ReadFailed (e : Error).    (* counting or reading the variants threw *)

(** The existence probe on a page state. *)
Definition targetExists (w : W) (l : Locator) : bool :=
  isReturn (waitFor l attached 2000%Z w).

(** The first of the six explicit patterns, in list order, whose target
    exists. *)
Definition explicitSizeMatch (w : W) (size : string) : option Locator :=
  option_map (fun selector => Css [selector])
             (find (fun selector => targetExists w (Css [selector])) (sizeSelectors size)).

(** The first generic variant, by index, whose text contains the size. *)
Fixpoint variantWithText (w : W) (size : string) (remaining i : nat) : Choice :=
  match remaining with
  | O => NoMatch
  | S remaining' =>
      match textContent (Nth genericVariants i) w with
      | Throw e => ReadFailed e
      | Return (Some t) =>
          if JsString.includes t size then Target (Nth genericVariants i)
          else variantWithText w size remaining' (S i)
      | Return None => variantWithText w size remaining' (S i)
      end
  end.

Definition genericVariantMatch (w : W) (size : string) : Choice :=
  if targetExists w variantSelector then
    match count genericVariants w with
    | Throw e => ReadFailed e
    | Return n => variantWithText w size n 0
    end
  else NoMatch.

(** The first available size option, if there is one. *)
Definition firstAvailableVariant (w : W) : option Locator :=
  if targetExists w (First sizeOptions) then Some (First sizeOptions) else None.

(** One click on [l] in Playwright's own calls: the wait for the element
    to be visible (5000 ms), then the click, which is recorded. *)
Definition waitThenClick (l : Locator) (s : Session W) : Completion unit * Session W :=
  match waitFor l visible 5000%Z (page s) with
  | Throw e => (Throw e, s)
  | Return _ =>
      (fst (click l false (page s)),
       mkSession (snd (click l false (page s))) (events s ++ [Clicked l false]))
  end.

End SizeCascade.
End SizeCascade.

(** The line waitForAddToCartEnabled prints when one of its waits fails. *)
Definition readinessWarning : Event :=
  ConsoleLog (Text "Add to cart button may still be disabled, trying anyway...").

(* ===================================================================== *)
(** * Sample pages of the storefront                                     *)
(* ===================================================================== *)

Module Storefront.
Import StaticBrowser.

Definition el (tag : string) (classes : list string) (attrs : list (string * string))
           (text : string) : Element :=
  mkElement tag classes attrs text true.

Definition leaf (e : Element) : Node := Nd e [].

(** A home page whose first product is a plain link and whose second is
    a card with a test id:
    <main> <a href="/products/tee">Monospace Tee</a>
           <div data-testid="product-card">Classic Tee</div> </main> *)
Definition teeLink : Node :=
  leaf (el "a" [] [("href", "/products/tee")] "Monospace Tee").
Definition teeCard : Node :=
  leaf (el "div" [] [("data-testid", "product-card")] "Classic Tee").
Definition home : StaticPage :=
  mkPage "http://localhost:3000/" true [Nd (el "main" [] [] EmptyString) [teeLink; teeCard]].

(** The same two products with the card first. *)
Definition homeCardFirst : StaticPage :=
  mkPage "http://localhost:3000/" true [Nd (el "main" [] [] EmptyString) [teeCard; teeLink]].

(** A cart without lines and a cart with one line. *)
Definition emptyCart : StaticPage :=
  mkPage "http://localhost:3000/cart" true
         [Nd (el "main" [] [] EmptyString) [leaf (el "p" ["empty-cart"] [] "Your cart is empty")]].
Definition cartWithTee : StaticPage :=
  mkPage "http://localhost:3000/cart" true
         [Nd (el "main" [] [] EmptyString) [leaf (el "div" ["cart-item"] [] "Monospace Tee")]].

(** A product page with one size option, a badge and an add-to-cart
    button; the button is enabled or carries [disabled]. *)
Definition productDocument (buttonAttrs : list (string * string)) : list Node :=
  [Nd (el "main" [] [] EmptyString)
      [leaf (el "h1" [] [] "Monospace Tee");
       leaf (el "span" ["cart-badge"] [] " 3 ");
       leaf (el "button" [] [("data-testid", "size-option")] "S");
       leaf (el "button" ["add-to-cart"] buttonAttrs "Add to Cart")]].
Definition product : StaticPage :=
  mkPage "http://localhost:3000/products/monospace-tee" true (productDocument []).
Definition productDisabled : StaticPage :=
  mkPage "http://localhost:3000/products/monospace-tee" true
         (productDocument [("disabled", EmptyString)]).

(** A product page whose variants are the options of a select. *)
Definition productWithSelect : StaticPage :=
  mkPage "http://localhost:3000/products/mug" true
         [Nd (el "main" [] [] EmptyString)
             [Nd (el "div" ["product-variants"] [] EmptyString)
                 [Nd (el "select" [] [] EmptyString)
                     [leaf (el "option" [] [] "Small"); leaf (el "option" [] [] "Medium")]]]].

(** A product page with a single size option that names no size. *)
Definition productOneSize : StaticPage :=
  mkPage "http://localhost:3000/products/cap" true
         [Nd (el "main" [] [] EmptyString) [leaf (el "div" ["size-option"] [] "One size")]].

(** A product page without any size or variant markup. *)
Definition productPlain : StaticPage :=
  mkPage "http://localhost:3000/products/mug" true
         [Nd (el "main" [] [] EmptyString) [leaf (el "h1" [] [] "Mug")]].

(** An async function that throws twice and then returns how often it had
    been called before. *)
Definition flaky : Async nat nat :=
  fun n => (if (n <? 2)%nat then Throw (PlainError "not yet") else Return n, S n).

(** A host with everything in place whose test run ends with 1. *)
Definition hostWithFailingTests : RunSmokeTests.Host :=
  RunSmokeTests.mkHost 0 20 0 true 0 0 0 EmptyString 0 0
    (fun script => if String.eqb script "test:smoke" then 1%Z else 0%Z) true 0.

(** A host with everything in place whose test run ends with [tests] and
    whose report script ends with [report]. *)
Definition hostWithStatus (tests report : Z) : RunSmokeTests.Host :=
  RunSmokeTests.mkHost 0 20 0 true 0 0 0 EmptyString 0 0
    (fun script => if String.eqb script "test:smoke" then tests
                   else if String.eqb script "test:report" then report
                   else 0%Z) true 0.

(** An HTML document: [html] with an empty [head] and a [body]. *)
Definition htmlDocument (content : list Node) : list Node :=
  [Nd (el "html" [] [] EmptyString)
      [Nd (el "head" [] [] EmptyString) [];
       Nd (el "body" [] [] EmptyString) content]].

(** A product page offering the sizes XS, S and M:
    <main> <h1>Monospace Tee</h1>
           <button data-testid="size-option">XS</button>
           <button data-testid="size-option">S</button>
           <button data-testid="size-option">M</button>
           <button class="add-to-cart">Add to Cart</button> </main> *)
Definition productSizes : StaticPage :=
  mkPage "http://localhost:3000/products/monospace-tee" true
         (htmlDocument
            [Nd (el "main" [] [] EmptyString)
                [leaf (el "h1" [] [] "Monospace Tee");
                 leaf (el "button" [] [("data-testid", "size-option")] "XS");
                 leaf (el "button" [] [("data-testid", "size-option")] "S");
                 leaf (el "button" [] [("data-testid", "size-option")] "M");
                 leaf (el "button" ["add-to-cart"] [] "Add to Cart")]]).

(** A product page whose variants are two buttons:
    <div class="product-variants"> <button>Small</button>
                                   <button>Medium</button> </div> *)
Definition productSmallMedium : StaticPage :=
  mkPage "http://localhost:3000/products/mug" true
         (htmlDocument
            [Nd (el "main" [] [] EmptyString)
                [Nd (el "div" ["product-variants"] [] EmptyString)
                    [leaf (el "button" [] [] "Small");
                     leaf (el "button" [] [] "Medium")]]]).

(** A cart page that shows the empty-cart message and nothing else. *)
Definition emptyCartDocument : StaticPage :=
  mkPage "http://localhost:3000/cart" true
         (htmlDocument
            [Nd (el "main" [] [] EmptyString)
                [leaf (el "p" ["empty-cart"] [] "Your cart is empty")]]).

(** A cart page that carries the empty-cart message and a cart line. *)
Definition cartMessageAndLine : StaticPage :=
  mkPage "http://localhost:3000/cart" true
         (htmlDocument
            [Nd (el "main" [] [] EmptyString)
                [leaf (el "p" ["empty-cart"] [] "Your cart is empty");
                 leaf (el "div" ["cart-item"] [] "Monospace Tee")]]).

End Storefront.

From Stdlib Require Import DecimalString.


(* ===================================================================== *)
(** * utils/test-helpers.ts: the other helpers                           *)
(* ===================================================================== *)

Module JsText.

(** [s.length] *)
Definition length (s : string) : Z := Z.of_nat (String.length s).

(** [s.substring(start, end)]: both indices are clamped to [0 .. s.length]
    and swapped when the first exceeds the second. *)
Definition substring (s : string) (start finish : Z) : string :=
  let clamp (i : Z) := Z.max 0 (Z.min i (length s)) in
  let from := Z.min (clamp start) (clamp finish) in
  let to := Z.max (clamp start) (clamp finish) in
  String.substring (Z.to_nat from) (Z.to_nat (to - from)) s.

(** [s.replace(/[^...]/g, '')] for a character class: the characters of the
    class stay, in their order. *)
Fixpoint keepOnly (class : ascii -> bool) (s : string) : string :=
  match s with
  | EmptyString => EmptyString
  | String c s' => if class c then String c (keepOnly class s') else keepOnly class s'
  end.

(** [\d] *)
Definition isDigit (c : ascii) : bool :=
  let n := nat_of_ascii c in ((48 <=? n) && (n <=? 57))%nat.

(** [\w] *)
Definition isWordChar (c : ascii) : bool :=
  let n := nat_of_ascii c in
  (((48 <=? n) && (n <=? 57)) || ((65 <=? n) && (n <=? 90)) ||
   ((97 <=? n) && (n <=? 122)) || (n =? 95))%nat.

(** [s.toLowerCase()] on ASCII letters *)
Fixpoint toLowerCase (s : string) : string :=
  match s with
  | EmptyString => EmptyString
  | String c s' =>
      let n := nat_of_ascii c in
      String (if ((65 <=? n) && (n <=? 90))%nat then ascii_of_nat (n + 32) else c)
             (toLowerCase s')
  end.

Fixpoint chars (s : string) : list ascii :=
  match s with
  | EmptyString => []
  | String c s' => c :: chars s'
  end.

End JsText.

Module GlobalUtils.
Import JsText JsString.

(** [\d.,]: what [formatCurrency] keeps. *)
Definition isAmountChar (c : ascii) : bool :=
  isDigit c || Ascii.eqb c "." || Ascii.eqb c ",".

(** [amount.replace(/[^\d.,]/g, '').trim()] *)
Definition formatCurrency (amount : string) : string :=
  trim (keepOnly isAmountChar amount).

(** [generateRandomString(length = 8)], given the text
    [Math.random().toString(36)] the call drew. *)
Definition generateRandomString (random36 : string) (length : option Z) : string :=
  let length := match length with Some n => n | None => 8%Z end in
  substring random36 2 (length + 2).

End GlobalUtils.


(* ===================================================================== *)
(** * More of the browser                                                *)
(* ===================================================================== *)

(** The further calls of Playwright the remaining code makes.  Taking a
    screenshot leaves the page as it is (the file it writes is not part of
    the page state); a pause lets time pass, after which the page may be in
    another state. *)
Class FullBrowser (W : Type) : Type := {
  coreBrowser :: Browser W;
  (* locator.waitFor({ state }) with the default timeout *)
  waitForDefault : Locator -> ElementState -> W -> Completion unit;
  toBeEnabled : Locator -> W -> Completion unit;
  toContainText : Locator -> string -> W -> Completion unit;
  screenshot : string -> W -> Completion unit;
  pageGoto : string -> W -> Completion unit * W;
  waitForTimeout : Z -> W -> W
}.

Section MoreSessionCalls.
Context {W : Type}.

(** A call that moves the page on and is not among the recorded events. *)
Definition step (f : W -> Completion unit * W) : Async (Session W) unit :=
  fun s =>
    let (r, w') := f (page s) in
    (r, mkSession w' (events s)).

(** [error.message] *)
Definition message (e : Error) : string :=
  match e with
  | TimeoutError m => m
  | StrictModeViolation m => m
  | AssertionError m => m
  | SyntaxError m => m
  | PlainError m => m
  end.

End MoreSessionCalls.

(** ** BasePage.ts, HomePage.ts: navigation, screenshots, the cart badge *)
Module HomePageRest.
Section HomePageRest.
Context {W : Type} `{FullBrowser W}.
Import BasePage HomePage.

(** [takeScreenshot(name)]; the file name also carries [Date.now()]. *)
Definition takeScreenshot (name : string) : Async (Session W) unit :=
  observe (screenshot name).

(** [HomePage.goto()] *)
Definition goto : Async (Session W) unit :=
  step (pageGoto "/") ;;
  waitForPageLoad.

(** '[data-testid="cart-badge"], .cart-badge, .cart-count' *)
Definition cartBadgeSelector : SelectorList :=
  [testid "cart-badge"; class "cart-badge"; class "cart-count"].

(** [waitForCartBadge(timeout = 3000)] *)
Definition waitForCartBadge (timeout : option Z) : Async (Session W) bool :=
  let timeout := match timeout with Some t => t | None => 3000%Z end in
  tryCatch
    (observe (waitForSelector cartBadgeSelector timeout) ;;
     ret true)
    (fun _ =>
       consoleLog (Text "Cart badge not found - this is acceptable for smoke test") ;;
       ret false).

(** [expectedCount.toString()] for a whole number *)
Definition toString (n : Z) : string :=
  DecimalString.NilZero.string_of_int (Z.to_int n).

Definition verifyCartBadgeCount (expectedCount : Z) : Async (Session W) unit :=
  if (0 <? expectedCount)%Z then
    observe (toBeVisible cartBadge) ;;
    observe (toContainText cartBadge (toString expectedCount))
  else ret tt.

End HomePageRest.
End HomePageRest.

(** ** CartPage.ts: the rest *)
Module CartPageRest.
Section CartPageRest.
Context {W : Type} `{FullBrowser W}.
Import BasePage CartPage JsString.

(** [CartPage.goto()] *)
Definition goto : Async (Session W) unit :=
  step (pageGoto "/cart") ;;
  waitForPageLoad.

Definition verifyCartHasItems : Async (Session W) unit :=
  isEmpty <- isCartEmpty ;;
  expectTrue (negb isEmpty) ;;
  observe (toBeVisible (First cartItems)).

(** '[data-testid="cart-item-name"], .cart-item-name, .item-name, h3, h4'
    under one cart item, then [.first()] *)
Definition nameElement (item : Locator) : Locator :=
  First (Within item [testid "cart-item-name"; class "cart-item-name"; class "item-name";
                      tag "h3"; tag "h4"]).

(** [for (let i = 0; i < itemCount; i++)] from index [i] on, with
    [remaining = itemCount - i] and the names pushed so far. *)
Fixpoint collectNames (remaining i : nat) (items : list string)
  : Async (Session W) (list string) :=
  match remaining with
  | O => ret items
  | S remaining' =>
      let item := Nth cartItems i in
      found <- elementExists (nameElement item) ;;
      if found then
        name <- observe (textContent (nameElement item)) ;;
        match name with
        | Some text =>
            match trim text with
            | EmptyString => collectNames remaining' (S i) items
            | String c t => collectNames remaining' (S i) (items ++ [String c t])
            end
        | None => collectNames remaining' (S i) items
        end
      else collectNames remaining' (S i) items
  end.

Definition getCartItemNames : Async (Session W) (list string) :=
  itemCount <- observe (count cartItems) ;;
  collectNames itemCount 0 [].

End CartPageRest.
End CartPageRest.


(** ** CheckoutPage.ts: the rest *)
Module CheckoutPageRest.
Section CheckoutPageRest.
Context {W : Type} `{FullBrowser W}.
Import BasePage JsText.

(** '[data-testid="email"], input[type="email"], input[name="email"]' *)
Definition emailInput : Locator :=
  Css [testid "email"; [[Tag "input"; AttrEq "type" "email"]];
       [[Tag "input"; AttrEq "name" "email"]]].
(** '[data-testid="password"], input[type="password"], input[name="password"]' *)
Definition passwordInput : Locator :=
  Css [testid "password"; [[Tag "input"; AttrEq "type" "password"]];
       [[Tag "input"; AttrEq "name" "password"]]].
(** '[data-testid="login-button"], .login-button, button:has-text("Login"),
     button[type="submit"]' *)
Definition loginButton : Locator :=
  Css [testid "login-button"; class "login-button"; tagText "button" "Login";
       [[Tag "button"; AttrEq "type" "submit"]]].
(** '[data-testid="shipping-address"], .shipping-address,
     :has-text("Shipping address")' *)
Definition shippingAddressSection : Locator :=
  Css [testid "shipping-address"; class "shipping-address"; [[HasText "Shipping address"]]].
(** '[data-testid="delivery-methods"], .delivery-methods, :has-text("Delivery")' *)
Definition deliveryMethodsSection : Locator :=
  Css [testid "delivery-methods"; class "delivery-methods"; [[HasText "Delivery"]]].
(** '[data-testid="order-summary"], .order-summary, .summary' *)
Definition orderSummary : Locator :=
  Css [testid "order-summary"; class "order-summary"; class "summary"].
(** '[data-testid="make-payment"], .make-payment,
     button:has-text("Make payment"), button:has-text("Place order")' *)
Definition makePaymentButton : Locator :=
  Css [testid "make-payment"; class "make-payment"; tagText "button" "Make payment";
       tagText "button" "Place order"].
(** '[data-testid="order-confirmation"], .order-confirmation,
     :has-text("confirmed"), :has-text("Order")' *)
Definition orderConfirmation : Locator :=
  Css [testid "order-confirmation"; class "order-confirmation"; [[HasText "confirmed"]];
       [[HasText "Order"]]].

Definition login (email password : string) : Async (Session W) unit :=
  safeFill emailInput email ;;
  safeFill passwordInput password ;;
  safeClick loginButton ;;
  waitForPageLoad.

Definition verifyShippingAddressSection : Async (Session W) unit :=
  found <- elementExists shippingAddressSection ;;
  when found (observe (toBeVisible shippingAddressSection)).

Definition verifyDeliveryMethodsSection : Async (Session W) unit :=
  found <- elementExists deliveryMethodsSection ;;
  when found (observe (toBeVisible deliveryMethodsSection)).

Definition verifyOrderSummary : Async (Session W) unit :=
  observe (toBeVisible orderSummary).

Definition verifyMakePaymentButtonAvailable : Async (Session W) unit :=
  observe (toBeVisible makePaymentButton) ;;
  observe (toBeEnabled makePaymentButton).

Definition verifyCheckoutFormForLoggedInUser : Async (Session W) unit :=
  verifyOrderSummary ;;
  hasShipping <- elementExists shippingAddressSection ;;
  when hasShipping verifyShippingAddressSection ;;
  hasDelivery <- elementExists deliveryMethodsSection ;;
  when hasDelivery verifyDeliveryMethodsSection ;;
  verifyMakePaymentButtonAvailable.

(** [for (const section of sectionsToCheck)] *)
Fixpoint verifySections (sections : list (Locator * Async (Session W) unit))
  : Async (Session W) unit :=
  match sections with
  | [] => ret tt
  | (element, verify) :: rest =>
      found <- elementExists element ;;
      when found verify ;;
      verifySections rest
  end.

Definition verifyCheckoutElements : Async (Session W) unit :=
  verifyOrderSummary ;;
  let sectionsToCheck :=
    [ (shippingAddressSection, verifyShippingAddressSection);
      (deliveryMethodsSection, verifyDeliveryMethodsSection);
      (makePaymentButton, verifyMakePaymentButtonAvailable) ] in
  verifySections sectionsToCheck.

(** The outcomes the checkout checks are made of, on a page state: an
    optional section, the payment button, one check after another. *)
Definition optional (w : W) (section : Locator) : Completion unit :=
  if SizeCascade.targetExists w section then toBeVisible section w else Return tt.

Definition payable (w : W) : Completion unit :=
  match toBeVisible makePaymentButton w with
  | Return _ => toBeEnabled makePaymentButton w
  | Throw e => Throw e
  end.

Definition andThen_ (a b : Completion unit) : Completion unit :=
  match a with Return _ => b | Throw e => Throw e end.

(** The pattern [/Order #?(\w+)/i] tried at the start of [s]: the word
    "Order" in any case, a space, an optional [#], then word characters, as
    many as there are and at least one; the result is the group. *)
Fixpoint takeWord (s : string) : string :=
  match s with
  | EmptyString => EmptyString
  | String c s' => if isWordChar c then String c (takeWord s') else EmptyString
  end.

Definition nonEmpty (s : string) : option string :=
  match s with EmptyString => None | String _ _ => Some s end.

Definition matchOrderAt (s : string) : option string :=
  if String.eqb (toLowerCase (String.substring 0 6 s)) "order " then
    match String.substring 6 (String.length s - 6) s with
    | String "#" rest =>
        (* [#?] takes the [#] when word characters follow it; without them the
           group would have to start at the [#], which is no word character *)
        nonEmpty (takeWord rest)
    | rest => nonEmpty (takeWord rest)
    end
  else None.

(** [text.match(re)]: the leftmost position where the pattern matches. *)
Fixpoint matchOrder (s : string) : option string :=
  match matchOrderAt s with
  | Some group => Some group
  | None =>
      match s with
      | EmptyString => None
      | String _ s' => matchOrder s'
      end
  end.

Definition getOrderNumber : Async (Session W) string :=
  confirmationText <- observe (textContent orderConfirmation) ;;
  ret (match confirmationText with
       | Some text => match matchOrder text with Some group => group | None => EmptyString end
       | None => EmptyString
       end).

End CheckoutPageRest.
End CheckoutPageRest.

(** ** test-helpers.ts: safeClick with retries *)
Module TestHelpersClick.
Section TestHelpersClick.
Context {W : Type} `{FullBrowser W}.

(** The run of [safeClick]: the page, the pauses taken so far (oldest
    first) and how many rounds of the loop have started. *)
Record Clicking : Type := mkClicking {
  tab : W;
  pauses : list Z;
  rounds : nat
}.

(** One wait for visibility followed by one click, on a page state. *)
Definition clickOnce (selector : SelectorList) (w : W) : Completion unit * W :=
  match waitForDefault (Css selector) visible w with
  | Throw e => (Throw e, w)
  | Return _ => click (Css selector) false w
  end.

(** The body of the [try] in one round of the loop. *)
Definition round (selector : SelectorList) : Async Clicking unit :=
  fun c =>
    let (r, w') := clickOnce selector (tab c) in
    (r, mkClicking w' (pauses c) (S (rounds c))).

(** [await this.page.waitForTimeout(ms)] *)
Definition pause (ms : Z) : Async Clicking unit :=
  fun c => (Return tt, mkClicking (waitForTimeout ms (tab c)) (pauses c ++ [ms]) (rounds c)).

(** [for (let i = 0; i < retries; i++)] from index [i] on, with
    [remaining = retries - i]; after the loop the function returns. *)
Fixpoint safeClickFrom (selector : SelectorList) (retries : Z) (remaining : nat) (i : Z)
  : Async Clicking unit :=
  match remaining with
  | O => ret tt
  | S remaining' =>
      tryCatch
        (round selector)
        (fun error =>
           if (i =? retries - 1)%Z then throw error
           else
             pause 1000%Z ;;
             safeClickFrom selector retries remaining' (i + 1)%Z)
  end.

(** [safeClick(selector, retries = 3)] *)
Definition safeClick (selector : SelectorList) (retries : option Z) : Async Clicking unit :=
  let retries := match retries with Some r => r | None => 3%Z end in
  safeClickFrom selector retries (Z.to_nat retries) 0%Z.

(** The [j]-th round (from 0) when every round before it failed and was
    followed by the pause. *)
Fixpoint nthRound (selector : SelectorList) (w : W) (j : nat) : Completion unit * W :=
  match j with
  | O => clickOnce selector w
  | S j' => clickOnce selector (waitForTimeout 1000%Z (snd (nthRound selector w j')))
  end.

End TestHelpersClick.
Arguments Clicking W : clear implicits.
End TestHelpersClick.

(** ** test-helpers.ts: checkConsoleErrors *)
Module ConsoleErrors.

Record ConsoleMessage : Type := mkMessage {
  msgType : string;
  msgText : string
}.

(** The arrays the test holds, by reference, and the console listeners of
    the page.  The only listener the helpers register pushes the text of
    error messages to one array. *)
Inductive Listener : Type := PushErrorsTo (errors : nat).

Record Runtime : Type := mkRuntime {
  arrays : list (list string);
  listeners : list Listener
}.

(** [a.push(x)] on the array behind a reference *)
Fixpoint push (r : nat) (x : string) (heap : list (list string)) : list (list string) :=
  match heap, r with
  | [], _ => []
  | a :: heap', O => (a ++ [x]) :: heap'
  | a :: heap', S r' => a :: push r' x heap'
  end.

(** [msg => { if (msg.type() === 'error') errors.push(msg.text()) }] *)
Definition notify (msg : ConsoleMessage) (heap : list (list string)) (l : Listener)
  : list (list string) :=
  match l with
  | PushErrorsTo errors =>
      if String.eqb (msgType msg) "error" then push errors (msgText msg) heap else heap
  end.

(** The page prints a message: every listener is called, in the order of
    registration. *)
Definition emit (rt : Runtime) (msg : ConsoleMessage) : Runtime :=
  mkRuntime (fold_left (notify msg) (listeners rt) (arrays rt)) (listeners rt).

(** [checkConsoleErrors()]: a new array, a new listener, and the array is
    returned at once. *)
Definition checkConsoleErrors (rt : Runtime) : nat * Runtime :=
  let errors := List.length (arrays rt) in
  (errors, mkRuntime (arrays rt ++ [[]]) (listeners rt ++ [PushErrorsTo errors])).

Definition read (rt : Runtime) (r : nat) : option (list string) :=
  nth_error (arrays rt) r.

(** Every listener pushes to an array that exists. *)
Definition wellFormed (rt : Runtime) : Prop :=
  Forall (fun l => match l with PushErrorsTo r => (r < List.length (arrays rt))%nat end)
         (listeners rt).

Definition isError (msg : ConsoleMessage) : bool := String.eqb (msgType msg) "error".

End ConsoleErrors.

(** ** run-smoke-tests.sh: a host on which the set-up steps succeed *)
Definition healthyHost (h : RunSmokeTests.Host) : Prop :=
  RunSmokeTests.has_node h = 0%Z /\ (18 <= RunSmokeTests.node_major h)%Z /\
  RunSmokeTests.has_npm h = 0%Z /\ RunSmokeTests.has_package_json h = true /\
  RunSmokeTests.npm_install h = 0%Z /\ RunSmokeTests.npm_run h "test:install" = 0%Z.


(* ===================================================================== *)
(** * system-basics.smoke.spec.ts: the scenarios TC-003 and TC-004       *)
(* ===================================================================== *)

Module Scenarios.

(** How the body of a test ends when it does not throw: at its end, or at a
    [test.skip(true, ...)]. *)
Inductive Ending : Type := Done | Skip.

(** What the runner reports for a test.  A test that is still running
    when its time limit is reached is reported as timed out, which counts
    as a failure. *)
Inductive Verdict : Type :=
| Passed
| Skipped
| Failed (e : Error)
| TimedOut.

(** [test.setTimeout(30000)] in [beforeEach] *)
Definition testTimeout : Z := 30000.

Section Scenarios.
Context {W : Type} `{FullBrowser W}.
Import HomePage HomePageRest.

(** The report for a test whose body needs [elapsed] ms on the page it
    meets: past the time limit the runner stops the test, whatever its
    body would have completed with; within the limit the completion of the
    body decides. *)
Definition verdict (body : Async (Session W) Ending) (elapsed : Z) (s : Session W)
  : Verdict :=
  if (testTimeout <? elapsed)%Z then TimedOut
  else
    match fst (body s) with
    | Return Done => Passed
    | Return Skip => Skipped
    | Throw e => Failed e
    end.

(** [test.skip(condition, description)] as the last statement of a body *)
Definition testSkip (condition : bool) : Async (Session W) Ending :=
  ret (if condition then Skip else Done).

(** TC-003, "Given": the user is on a product detail page. *)
Definition TC_003_given : Async (Session W) unit :=
  goto ;;
  clickFirstProduct ;;
  ProductPage.verifyProductPageLoaded.

(** TC-003, the [try] block: add to cart, go back home, look for the badge,
    take a screenshot. *)
Definition TC_003_try : Async (Session W) Ending :=
  ProductPage.addToCartWithSpecs (Some "S") (Some "1") ;;
  goto ;;
  waitForCartBadge (Some 3000%Z) ;;
  takeScreenshot "cart-updated" ;;
  ret Done.

(** TC-003, the [catch] block; a caught error is an object, so [!!error]
    is true. *)
Definition TC_003_catch (error : Error) : Async (Session W) Ending :=
  consoleLog (Text ("Add to cart failed (acceptable for smoke test): " ++ message error)) ;;
  takeScreenshot "add-to-cart-failed" ;;
  testSkip true.

Definition TC_003 : Async (Session W) Ending :=
  TC_003_given ;;
  tryCatch TC_003_try TC_003_catch.

(** TC-004: the cart page is reachable. *)
Definition TC_004 : Async (Session W) Ending :=
  CartPageRest.goto ;;
  CartPage.verifyCartPageLoaded ;;
  isEmpty <- CartPage.isCartEmpty ;;
  consoleLog (Text ("Cart is " ++ (if isEmpty then "empty" else "not empty")
                    ++ " - both states are acceptable for smoke test")) ;;
  takeScreenshot "cart-page-loaded" ;;
  ret Done.

End Scenarios.
End Scenarios.

(* ===================================================================== *)
(** * A static site                                                      *)
(* ===================================================================== *)

(** A site whose routes lead to static pages; the tab shows one of them.
    Navigation to a route the site does not have ends on its not-found
    page.  Pauses change nothing and screenshots always succeed. *)
Module StaticSite.
Import StaticBrowser.

Record Site : Type := mkSite {
  routes : list (string * StaticPage);
  notFound : StaticPage;
  tab : StaticPage
}.

Definition show (site : Site) (p : StaticPage) : Site :=
  mkSite (routes site) (notFound site) p.

Definition acting (f : StaticPage -> Completion unit * StaticPage) (site : Site)
  : Completion unit * Site :=
  let (r, p) := f (tab site) in (r, show site p).

#[export] Instance siteBrowser : Browser Site := {|
  waitFor := fun l st t site => static_waitFor l st t (tab site);
  count := fun l site => static_count l (tab site);
  textContent := fun l site => static_textContent l (tab site);
  toHaveURL := fun pat site => static_toHaveURL pat (tab site);
  toBeVisible := fun l site => static_toBeVisible l (tab site);
  waitForLoadState := fun st site => static_waitForLoadState st (tab site);
  waitForSelector := fun sels t site => static_waitForSelector sels t (tab site);
  waitForFunction := fun f t site => static_waitForFunction f t (tab site);
  click := fun l force => acting (static_click l force);
  fill := fun l text => acting (static_fill l text)
|}.

Definition site_toBeEnabled (l : Locator) (site : Site) : Completion unit :=
  match single (tab site) l with
  | Return x => if isEnabled x then Return tt else Throw (AssertionError "toBeEnabled")
  | Throw (StrictModeViolation w) => Throw (StrictModeViolation w)
  | Throw _ => Throw (AssertionError "toBeEnabled")
  end.

Definition site_toContainText (l : Locator) (text : string) (site : Site) : Completion unit :=
  match single (tab site) l with
  | Return x =>
      if JsString.includes (innerText (here x)) text then Return tt
      else Throw (AssertionError "toContainText")
  | Throw (StrictModeViolation w) => Throw (StrictModeViolation w)
  | Throw _ => Throw (AssertionError "toContainText")
  end.

Definition site_goto (path : string) (site : Site) : Completion unit * Site :=
  match find (fun route => String.eqb (fst route) path) (routes site) with
  | Some route => (Return tt, show site (snd route))
  | None => (Return tt, show site (notFound site))
  end.

#[export] Instance siteFullBrowser : FullBrowser Site := {|
  coreBrowser := siteBrowser;
  waitForDefault := fun l st site => static_waitFor l st 30000%Z (tab site);
  toBeEnabled := site_toBeEnabled;
  toContainText := site_toContainText;
  screenshot := fun _ _ => Return tt;
  pageGoto := site_goto;
  waitForTimeout := fun _ site => site
|}.

End StaticSite.

(* ===================================================================== *)
(** * More sample pages                                                  *)
(* ===================================================================== *)

Module MoreSamples.
Import StaticBrowser StaticSite Storefront.

Definition notFoundPage : StaticPage :=
  mkPage "http://localhost:3000/404" true
         [Nd (el "main" [] [] EmptyString) [leaf (el "h1" [] [] "404")]].

(** A checkout page with an order summary and a payment button. *)
Definition checkout : StaticPage :=
  mkPage "http://localhost:3000/checkout" true
         [Nd (el "main" [] [] EmptyString)
             [leaf (el "div" ["order-summary"] [] "Monospace Tee");
              leaf (el "button" ["make-payment"] [] "Pay now")]].

(** A confirmation page that names the order. *)
Definition confirmation : StaticPage :=
  mkPage "http://localhost:3000/checkout/done" true
         (htmlDocument
            [Nd (el "main" [] [] EmptyString)
                [leaf (el "p" ["order-confirmation"] []
                          "Thanks! Order #12345 is on its way")]]).

(** A confirmation page whose text holds neither "order" nor "confirmed". *)
Definition confirmationWithoutNumber : StaticPage :=
  mkPage "http://localhost:3000/checkout/done" true
         (htmlDocument
            [Nd (el "main" [] [] EmptyString)
                [leaf (el "p" ["order-confirmation"] [] "Thank you for your purchase")]]).

(** A cart whose one line carries its name in a heading. *)
Definition cartWithNamedTee : StaticPage :=
  mkPage "http://localhost:3000/cart" true
         [Nd (el "main" [] [] EmptyString)
             [Nd (el "div" ["cart-item"] [] EmptyString)
                 [leaf (el "h3" [] [] "  Monospace Tee ")]]].

(** A page under a product URL with a product link, a title and a price,
    and no add-to-cart button. *)
Definition landing : StaticPage :=
  mkPage "http://localhost:3000/products/monospace-tee" true
         [Nd (el "main" [] [] EmptyString)
             [leaf (el "a" [] [("href", "/products/monospace-tee")] "Monospace Tee");
              leaf (el "h1" [] [] "Monospace Tee");
              leaf (el "span" ["price"] [] "19.99")]].

(** A storefront whose root shows that page. *)
Definition oneProductShop : Site :=
  mkSite [("/", landing)] notFoundPage notFoundPage.

(** A host whose set-up steps succeed and whose storefront never answers. *)
Definition hostWithoutStorefront : RunSmokeTests.Host :=
  RunSmokeTests.mkHost 0 20 0 true 0 7 0 EmptyString 7 0 (fun _ => 0%Z) true 0.

(** A login form. *)
Definition loginForm : StaticPage :=
  mkPage "http://localhost:3000/checkout" true
         [Nd (el "form" [] [] EmptyString)
             [leaf (el "input" [] [("type", "email")] EmptyString);
              leaf (el "input" [] [("type", "password")] EmptyString);
              leaf (el "button" ["login-button"] [] "Go")]].

(** The storefront: home, one product, the cart. *)
Definition shop (start : StaticPage) : Site :=
  mkSite [("/", home); ("/cart", cartWithTee)] notFoundPage start.

Definition visit (site : Site) : Session Site := mkSession site [].

End MoreSamples.

(* ===================================================================== *)
(** * Properties                                                         *)
(* ===================================================================== *)

Section AsyncFacts.
Context {S : Type}.

Lemma bind_ret_l {A B} (a : A) (k : A -> Async S B) (s : S) :
  bind (ret a) k s = k a s.
Proof. reflexivity. Qed.

Lemma bind_Return {A B} (c : Async S A) (k : A -> Async S B) (s s' : S) (a : A) :
  c s = (Return a, s') -> bind c k s = k a s'.
Proof. intros E. unfold bind. rewrite E. reflexivity. Qed.

Lemma bind_Throw {A B} (c : Async S A) (k : A -> Async S B) (s s' : S) (e : Error) :
  c s = (Throw e, s') -> bind c k s = (Throw e, s').
Proof. intros E. unfold bind. rewrite E. reflexivity. Qed.

Lemma repeatedly_fixed (check : Async S unit) (s : S) (n : nat) :
  snd (check s) = s -> repeatedly check n s = repeat (fst (check s)) n.
Proof.
  intros Fix. induction n as [|n IH]; simpl.
  - reflexivity.
  - destruct (check s) as [r s'] eqn:E. simpl in *. subst s'.
    rewrite IH. reflexivity.
Qed.

End AsyncFacts.

Section PageFacts.
Context {W : Type} `{Browser W}.

(** The probe always returns, with the page and the log as they were; its
    answer is whether the wait for [attached] succeeded. *)
Lemma elementExists_run (l : Locator) (s : Session W) :
  BasePage.elementExists l s = (Return (SizeCascade.targetExists (page s) l), s).
Proof.
  unfold BasePage.elementExists, SizeCascade.targetExists, tryCatch, bind, observe, ret.
  destruct (waitFor l attached 2000 (page s)); reflexivity.
Qed.

Lemma isReturn_unit (c : Completion unit) : isReturn c = true <-> c = Return tt.
Proof.
  destruct c as [[]|e]; simpl; split; intros E; try reflexivity; discriminate.
Qed.

(** C1: the existence probes of BasePage and TestHelpers return a boolean
    for every locator and page state and never throw; the boolean is true
    exactly when the bounded wait for the element to be attached succeeded
    (2000 ms in BasePage, the given timeout or 5000 ms in TestHelpers), and
    false when that wait timed out or failed.  The session is left as it
    was. *)
Theorem elementExists_absorbs_failures
        (locator : Locator) (selector : SelectorList) (timeout : option Z) (s : Session W) :
  (exists b : bool,
      BasePage.elementExists locator s = (Return b, s) /\
      (b = true <-> waitFor locator attached 2000%Z (page s) = Return tt) /\
      (b = false <-> exists e, waitFor locator attached 2000%Z (page s) = Throw e)) /\
  (exists b : bool,
      TestHelpers.elementExists selector timeout s = (Return b, s) /\
      let t := match timeout with Some t => t | None => 5000%Z end in
      (b = true <-> waitFor (Css selector) attached t (page s) = Return tt) /\
      (b = false <-> exists e, waitFor (Css selector) attached t (page s) = Throw e)).
Proof.
  split.
  - unfold BasePage.elementExists, tryCatch, bind, observe, ret.
    destruct (waitFor locator attached 2000 (page s)) as [[]|e] eqn:E.
    + exists true. repeat split; auto; try discriminate.
      intros [e' E']. discriminate.
    + exists false. repeat split; auto; try discriminate. eauto.
  - unfold TestHelpers.elementExists, tryCatch, bind, observe, ret. cbv zeta.
    destruct (waitFor (Css selector) attached _ (page s)) as [[]|e] eqn:E.
    + exists true. repeat split; auto; try discriminate.
      intros [e' E']. discriminate.
    + exists false. repeat split; auto; try discriminate. eauto.
Qed.

End PageFacts.

Section CartFacts.
Context {W : Type} `{Browser W}.
Import CartPage.

Lemma getCartItemsCount_run (s : Session W) :
  getCartItemsCount s =
  (Return (match count cartItems (page s) with Return n => n | Throw _ => 0 end), s).
Proof.
  unfold getCartItemsCount, tryCatch, observe, ret.
  destruct (count cartItems (page s)); reflexivity.
Qed.

Lemma isCartEmpty_run (s : Session W) :
  isCartEmpty s =
  (Return (SizeCascade.targetExists (page s) emptyCartMessage
           || (match count cartItems (page s) with Return n => n | Throw _ => 0 end =? 0)%nat),
   s).
Proof.
  unfold isCartEmpty.
  rewrite (bind_Return _ _ _ _ _ (elementExists_run emptyCartMessage s)).
  destruct (SizeCascade.targetExists (page s) emptyCartMessage); simpl.
  - reflexivity.
  - rewrite (bind_Return _ _ _ _ _ (getCartItemsCount_run s)). reflexivity.
Qed.

(** isCartEmpty returns a boolean for every page state, never throws and
    leaves the session as it was.  The boolean is true exactly when the
    wait for the empty-cart locator to be attached (2000 ms) succeeds, or
    the cart-item locator counts no element, or counting throws. *)
Theorem isCartEmpty_probe_or_no_items (s : Session W) :
  exists b : bool,
    isCartEmpty s = (Return b, s) /\
    (b = true <->
       waitFor emptyCartMessage attached 2000%Z (page s) = Return tt \/
       count cartItems (page s) = Return 0%nat \/
       exists e, count cartItems (page s) = Throw e).
Proof.
  rewrite isCartEmpty_run. eexists. split; [reflexivity|].
  unfold SizeCascade.targetExists.
  rewrite orb_true_iff, isReturn_unit, Nat.eqb_eq.
  destruct (count cartItems (page s)) as [n|e]; split.
  - intros [Found|Zero]; [left; exact Found | right; left; congruence].
  - intros [Found|[Zero|[e Thrown]]];
      [left; exact Found | right; congruence | discriminate].
  - intros _. right. right. exists e. reflexivity.
  - intros _. right. reflexivity.
Qed.

Lemma verifyCartPageLoaded_run (s : Session W) :
  verifyCartPageLoaded s =
  (match toHaveURL (Containing "/cart") (page s) with
   | Return _ => waitForLoadState domcontentloaded (page s)
   | Throw e => Throw e
   end, s).
Proof.
  unfold verifyCartPageLoaded, BasePage.waitForPageLoad, bind, observe.
  destruct (toHaveURL (Containing "/cart") (page s)); reflexivity.
Qed.

(** C4: verifyCartPageLoaded passes exactly when the URL assertion for
    /cart and the wait for the loaded state both succeed.  It consults
    nothing else: two page states on which these two agree (a cart with
    items and an empty one, say) get the same outcome, and the count of
    cart items plays no part. *)
Theorem verifyCartPageLoaded_url_and_load_only (s : Session W) :
  (fst (verifyCartPageLoaded s) = Return tt <->
     toHaveURL (Containing "/cart") (page s) = Return tt /\
     waitForLoadState domcontentloaded (page s) = Return tt) /\
  (forall s' : Session W,
      toHaveURL (Containing "/cart") (page s') = toHaveURL (Containing "/cart") (page s) ->
      waitForLoadState domcontentloaded (page s') = waitForLoadState domcontentloaded (page s) ->
      fst (verifyCartPageLoaded s') = fst (verifyCartPageLoaded s)).
Proof.
  split.
  - rewrite verifyCartPageLoaded_run. simpl.
    destruct (toHaveURL (Containing "/cart") (page s)) as [[]|e]; split.
    + intros E. split; [reflexivity | exact E].
    + intros [_ E]. exact E.
    + discriminate.
    + intros [E _]. discriminate.
  - intros s' Eurl Eload. rewrite !verifyCartPageLoaded_run. simpl.
    rewrite Eurl, Eload. reflexivity.
Qed.

End CartFacts.

Section BadgeFacts.
Context {W : Type} `{Browser W}.
Import HomePage JsString.

(** C9: getCartBadgeCount never throws.  When reading the badge text throws,
    or the text is null or empty, it returns 0; otherwise it returns
    parseInt of the trimmed text.  The session is left as it was. *)
Theorem getCartBadgeCount_never_throws (s : Session W) :
  exists n : Number,
    getCartBadgeCount s = (Return n, s) /\
    (forall e, textContent cartBadge (page s) = Throw e -> n = Int 0) /\
    (textContent cartBadge (page s) = Return None -> n = Int 0) /\
    (textContent cartBadge (page s) = Return (Some EmptyString) -> n = Int 0) /\
    (forall t, textContent cartBadge (page s) = Return (Some t) ->
               t <> EmptyString -> n = parseInt (trim t)).
Proof.
  unfold getCartBadgeCount, tryCatch, bind, observe, ret.
  destruct (textContent cartBadge (page s)) as [[[|c t]|]|e] eqn:E;
    eexists; (split; [reflexivity|]); repeat split; intros; congruence.
Qed.

End BadgeFacts.

Section LoadedFacts.
Context {W : Type} `{Browser W}.

Lemma verifyHomepageLoaded_fixed (s : Session W) :
  snd (HomePage.verifyHomepageLoaded s) = s.
Proof.
  unfold HomePage.verifyHomepageLoaded, bind, observe.
  destruct (toHaveURL _ (page s)); [|reflexivity].
  destruct (toBeVisible _ (page s)); [|reflexivity].
  rewrite !elementExists_run.
  unfold expectTrue, ret, throw.
  destruct (_ || _); reflexivity.
Qed.

Lemma verifyProductPageLoaded_fixed (s : Session W) :
  snd (ProductPage.verifyProductPageLoaded s) = s.
Proof.
  unfold ProductPage.verifyProductPageLoaded, bind, observe.
  destruct (toHaveURL _ (page s)); [|reflexivity].
  destruct (toBeVisible _ (page s)); [|reflexivity].
  rewrite elementExists_run.
  destruct (SizeCascade.targetExists (page s) ProductPage.productPrice).
  - reflexivity.
  - rewrite elementExists_run. unfold expectTrue, ret, throw.
    destruct (SizeCascade.targetExists _ _); reflexivity.
Qed.

Lemma verifyCheckoutPageLoaded_fixed (s : Session W) :
  snd (CheckoutPage.verifyCheckoutPageLoaded s) = s.
Proof.
  unfold CheckoutPage.verifyCheckoutPageLoaded, BasePage.waitForPageLoad, bind, observe.
  destruct (toHaveURL _ (page s)); reflexivity.
Qed.

(** C7: on a fixed page state, with no navigation in between, a page's
    verify-loaded check gives the same outcome however often it is
    repeated: the check leaves the session as it found it, and [n] runs in a
    row all end like the first.  This holds for the home, product, cart and
    checkout pages. *)
Theorem verify_loaded_idempotent (s : Session W) (n : nat) :
  let same (check : Async (Session W) unit) :=
    snd (check s) = s /\ repeatedly check n s = repeat (fst (check s)) n in
  same HomePage.verifyHomepageLoaded /\
  same ProductPage.verifyProductPageLoaded /\
  same CartPage.verifyCartPageLoaded /\
  same CheckoutPage.verifyCheckoutPageLoaded.
Proof.
  cbv zeta.
  assert (C : snd (CartPage.verifyCartPageLoaded s) = s)
    by (rewrite verifyCartPageLoaded_run; reflexivity).
  pose proof (verifyHomepageLoaded_fixed s) as Hh.
  pose proof (verifyProductPageLoaded_fixed s) as Hp.
  pose proof (verifyCheckoutPageLoaded_fixed s) as Hc.
  repeat split; auto using repeatedly_fixed.
Qed.

End LoadedFacts.

Section SizeFacts.
Context {W : Type} `{Browser W}.
Import ProductPage SizeCascade BasePage.

Lemma clickFirstExisting_run (selectors : list Complex) (s : Session W) :
  clickFirstExisting selectors s =
  match find (fun selector => targetExists (page s) (Css [selector])) selectors with
  | Some selector => (safeClick (Css [selector]) ;; ret true) s
  | None => (Return false, s)
  end.
Proof.
  induction selectors as [|selector rest IH]; simpl.
  - reflexivity.
  - rewrite (bind_Return _ _ _ _ _ (elementExists_run (Css [selector]) s)).
    destruct (targetExists (page s) (Css [selector])).
    + reflexivity.
    + exact IH.
Qed.

Lemma clickVariantWithText_run (size : string) (remaining i : nat) (s : Session W) :
  clickVariantWithText genericVariants size remaining i s =
  match variantWithText (page s) size remaining i with
  | Target l => (safeClick l ;; ret true) s
  | NoMatch => (Return false, s)
  | ReadFailed e => (Throw e, s)
  end.
Proof.
  revert i. induction remaining as [|remaining IH]; intros i; simpl.
  - reflexivity.
  - unfold bind at 1, observe at 1.
    destruct (textContent (Nth genericVariants i) (page s)) as [[t|]|e].
    + destruct (JsString.includes t size); [reflexivity | apply IH].
    + apply IH.
    + reflexivity.
Qed.

Lemma safeClick_then_true (l : Locator) (s : Session W) :
  (safeClick l ;; ret true) s =
  (match fst (safeClick l s) with Return _ => Return true | Throw e => Throw e end,
   snd (safeClick l s)).
Proof.
  unfold bind at 1. destruct (safeClick l s) as [[[]|e] s']; reflexivity.
Qed.

Lemma bind_run {S A B} (c : Async S A) (k : A -> Async S B) (s : S) :
  bind c k s =
  match c s with
  | (Return a, s') => k a s'
  | (Throw e, s') => (Throw e, s')
  end.
Proof. reflexivity. Qed.

(** selectSize clicks the target the cascade picks, and only that. *)
Lemma selectSize_run (size : string) (s : Session W) :
  selectSize size s =
  match explicitSizeMatch (page s) size with
  | Some l => safeClick l s
  | None =>
      match genericVariantMatch (page s) size with
      | Target l => safeClick l s
      | ReadFailed e => (Throw e, s)
      | NoMatch =>
          match firstAvailableVariant (page s) with
          | Some l => safeClick l s
          | None => (Return tt, s)
          end
      end
  end.
Proof.
  assert (Last : forall s0 : Session W,
             (found <- elementExists (First sizeOptions) ;;
              when found (safeClick (First sizeOptions))) s0 =
             match firstAvailableVariant (page s0) with
             | Some l => safeClick l s0
             | None => (Return tt, s0)
             end).
  { intros s0. rewrite bind_run, elementExists_run. unfold firstAvailableVariant.
    destruct (targetExists (page s0) (First sizeOptions)); reflexivity. }
  unfold selectSize, explicitSizeMatch.
  rewrite bind_run, clickFirstExisting_run.
  destruct (find _ (sizeSelectors size)) as [selector|]; cbn [option_map].
  - rewrite safeClick_then_true.
    destruct (safeClick (Css [selector]) s) as [[[]|e] s1]; reflexivity.
  - cbn [negb]. rewrite bind_run, bind_run, elementExists_run.
    unfold genericVariantMatch.
    destruct (targetExists (page s) variantSelector).
    + rewrite bind_run. unfold observe at 1.
      destruct (count genericVariants (page s)) as [n|e]; [|reflexivity].
      rewrite clickVariantWithText_run.
      destruct (variantWithText (page s) size n 0) as [l| |e].
      * rewrite safeClick_then_true.
        destruct (safeClick l s) as [[[]|e] s1]; reflexivity.
      * cbn [negb]. apply Last.
      * reflexivity.
    + unfold ret at 1. cbn [negb]. apply Last.
Qed.

Lemma find_first {A} (f : A -> bool) (pre : list A) (x : A) (post : list A) :
  (forall y, In y pre -> f y = false) -> f x = true ->
  find f (pre ++ x :: post) = Some x.
Proof.
  induction pre as [|y pre IH]; cbn; intros Hpre Hx.
  - rewrite Hx. reflexivity.
  - rewrite (Hpre y) by auto. apply IH; auto.
Qed.


(** No explicit match means that none of the six selectors has a target. *)
Lemma explicitSizeMatch_None (w : W) (size : string) :
  explicitSizeMatch w size = None <->
  forall selector, In selector (sizeSelectors size) -> targetExists w (Css [selector]) = false.
Proof.
  unfold explicitSizeMatch.
  destruct (find _ (sizeSelectors size)) as [c|] eqn:F; cbn [option_map]; split.
  - discriminate.
  - intros None_. apply find_some in F. destruct F as [In_c Ex].
    rewrite (None_ c In_c) in Ex. discriminate.
  - intros _ selector In_s.
    exact (find_none _ _ F selector In_s).
  - reflexivity.
Qed.

Lemma safeClick_steps (l : Locator) (s : Session W) :
  safeClick l s = waitThenClick l s.
Proof.
  unfold safeClick, waitThenClick, bind, waitForElement, observe, act.
  destruct (waitFor l visible 5000 (page s)); [|reflexivity].
  destruct (click l false (page s)); reflexivity.
Qed.

(** selectSize walks its patterns in a fixed order, for every size, and
    issues at most one click.  (1) When the wait for [attached] succeeds on
    one of the six explicit selectors and fails on every selector before it
    in the list, that selector is waited for and clicked, and nothing else
    is tried.  (2) When it fails on all six, and a generic variant under
    the variant selector has a text containing the size, the first such
    variant is clicked; an error in counting or reading the variants is
    thrown on.  (3) When that finds nothing either, the first size option
    is clicked if there is one.  (4) When no pattern matches at all,
    selectSize returns without an error and without having acted. *)
Theorem selectSize_cascade (size : string) (s : Session W) :
  (forall before selector after,
      sizeSelectors size = before ++ selector :: after ->
      (forall earlier, In earlier before ->
                       exists e, waitFor (Css [earlier]) attached 2000%Z (page s) = Throw e) ->
      waitFor (Css [selector]) attached 2000%Z (page s) = Return tt ->
      selectSize size s = waitThenClick (Css [selector]) s) /\
  ((forall selector, In selector (sizeSelectors size) ->
                     exists e, waitFor (Css [selector]) attached 2000%Z (page s) = Throw e) ->
   match genericVariantMatch (page s) size with
   | Target l => selectSize size s = waitThenClick l s
   | ReadFailed e => selectSize size s = (Throw e, s)
   | NoMatch =>
       match waitFor (First sizeOptions) attached 2000%Z (page s) with
       | Return _ => selectSize size s = waitThenClick (First sizeOptions) s
       | Throw _ => selectSize size s = (Return tt, s)
       end
   end).
Proof.
  assert (Failed : forall l, (exists e, waitFor l attached 2000%Z (page s) = Throw e) ->
                             targetExists (page s) l = false).
  { intros l [e E]. unfold targetExists. rewrite E. reflexivity. }
  rewrite selectSize_run. split.
  - intros before selector after Split Earlier Found.
    unfold explicitSizeMatch. rewrite Split.
    rewrite (find_first (fun c => targetExists (page s) (Css [c])) before selector after).
    + apply safeClick_steps.
    + intros earlier In_e. apply Failed, Earlier, In_e.
    + unfold targetExists. rewrite Found. reflexivity.
  - intros None_.
    assert (E : explicitSizeMatch (page s) size = None).
    { apply explicitSizeMatch_None. intros selector In_s. apply Failed, None_, In_s. }
    rewrite E.
    destruct (genericVariantMatch (page s) size) as [l| |e].
    + apply safeClick_steps.
    + unfold firstAvailableVariant, targetExists.
      destruct (waitFor (First sizeOptions) attached 2000 (page s)) as [[]|e]; cbn [isReturn].
      * apply safeClick_steps.
      * reflexivity.
    + reflexivity.
Qed.

End SizeFacts.

Section AddToCartFacts.
Context {W : Type} `{Browser W}.
Import ProductPage BasePage.

Lemma waitForAddToCartEnabled_run (s : Session W) :
  waitForAddToCartEnabled s =
  match waitFor addToCartButton visible 5000%Z (page s) with
  | Return _ =>
      match waitForFunction addToCartEnabled 5000%Z (page s) with
      | Return _ => (Return tt, s)
      | Throw _ => (Return tt, mkSession (page s) (events s ++ [readinessWarning]))
      end
  | Throw _ => (Return tt, mkSession (page s) (events s ++ [readinessWarning]))
  end.
Proof.
  unfold waitForAddToCartEnabled, tryCatch, bind, observe, consoleLog.
  destruct (waitFor addToCartButton visible 5000 (page s)) as [[]|e]; [|reflexivity].
  destruct (waitForFunction addToCartEnabled 5000 (page s)) as [[]|e]; reflexivity.
Qed.

Lemma addToCartEnabled_truthy (button : option ElementHandle) :
  truthy addToCartEnabled button = true <->
  exists b, button = Some b /\
            hasAttribute b "disabled" = false /\
            getAttribute b "aria-disabled" <> Some "true".
Proof.
  destruct button as [b|]; simpl.
  - rewrite andb_true_iff, !negb_true_iff. split.
    + intros [D A]. exists b. repeat split; [exact D|].
      destruct (getAttribute b "aria-disabled") as [v|]; [|discriminate].
      intros [= ->]. discriminate.
    + intros (b' & [= <-] & D & A). split; [exact D|].
      destruct (getAttribute b "aria-disabled") as [v|]; [|reflexivity].
      destruct (String.eqb_spec v "true") as [->|]; [contradiction | reflexivity].
  - split; [discriminate|]. intros (b & E & _). discriminate.
Qed.

(** What [clickAddToCart] does once the click is behind it: wait for a
    success indicator and carry on without one. *)
Lemma clickAddToCart_run (s : Session W) :
  clickAddToCart s =
  let settle (s' : Session W) :=
    match waitForSelector successIndicator 3000%Z (page s') with
    | Return _ => (Return tt, s')
    | Throw _ =>
        (Return tt,
         mkSession (page s')
                   (events s' ++ [ConsoleLog (Text "No success indicator found, continuing...")]))
    end in
  match safeClick addToCartButton s with
  | (Return _, s1) => settle s1
  | (Throw _, s1) =>
      let logged := events s1 ++ [ConsoleLog (Text "Normal click failed, trying force click...")] in
      match click addToCartButton true (page s1) with
      | (Return _, w') => settle (mkSession w' (logged ++ [Clicked addToCartButton true]))
      | (Throw e', w') => (Throw e', mkSession w' (logged ++ [Clicked addToCartButton true]))
      end
  end.
Proof.
  unfold clickAddToCart, bind, tryCatch, orElse, observe, consoleLog, act. cbv zeta.
  destruct (safeClick addToCartButton s) as [[[]|e] s1]; cbn [page events].
  - destruct (waitForSelector successIndicator 3000 (page s1)); reflexivity.
  - destruct (click addToCartButton true (page s1)) as [[[]|e'] w']; cbn [page events].
    + destruct (waitForSelector successIndicator 3000 w'); reflexivity.
    + reflexivity.
Qed.

Lemma safeClick_events (l : Locator) (s s1 : Session W) (r : Completion unit) :
  safeClick l s = (r, s1) ->
  events s1 = events s \/ events s1 = events s ++ [Clicked l false].
Proof.
  unfold safeClick, bind, waitForElement, observe, act.
  destruct (waitFor l visible 5000 (page s)) as [[]|e].
  - destruct (click l false (page s)) as [r' w']. intros [= _ <-]. right. reflexivity.
  - intros [= _ <-]. left. reflexivity.
Qed.

(** What holds of the add-to-cart readiness wait and the click behind it
    for every browser.
    (1) The in-page test is "found, not disabled, aria-disabled not true".
    (2) When the wait for visibility and the wait on the in-page test both
    succeed (each bounded by 5000 ms), waitForAddToCartEnabled returns
    silently.  (3) Whatever the waits do, it returns without an error and
    leaves the page as it was, at most printing one warning, so the click
    that follows is attempted in any case.  (4) When the normal click
    throws, clickAddToCart does not rethrow: it issues a forced click on the
    control, and ends as that forced click ends.  (5) When the normal click
    succeeds, clickAddToCart returns and issues no further action, forced
    or not. *)
Theorem addToCart_readiness_never_blocks (s : Session W) :
  (forall button, truthy addToCartEnabled button = true <->
                  exists b, button = Some b /\
                            hasAttribute b "disabled" = false /\
                            getAttribute b "aria-disabled" <> Some "true") /\
  (waitFor addToCartButton visible 5000%Z (page s) = Return tt ->
   waitForFunction addToCartEnabled 5000%Z (page s) = Return tt ->
   waitForAddToCartEnabled s = (Return tt, s)) /\
  (exists s', waitForAddToCartEnabled s = (Return tt, s') /\
              page s' = page s /\
              (events s' = events s \/ events s' = events s ++ [readinessWarning]) /\
              (waitForAddToCartEnabled ;; clickAddToCart) s = clickAddToCart s') /\
  (forall e s1, safeClick addToCartButton s = (Throw e, s1) ->
     In (Clicked addToCartButton true) (events (snd (clickAddToCart s))) /\
     match fst (click addToCartButton true (page s1)) with
     | Return _ => fst (clickAddToCart s) = Return tt
     | Throw e' => fst (clickAddToCart s) = Throw e'
     end) /\
  (forall s1, safeClick addToCartButton s = (Return tt, s1) ->
     fst (clickAddToCart s) = Return tt /\
     page (snd (clickAddToCart s)) = page s1 /\
     (events (snd (clickAddToCart s)) = events s1 \/
      events (snd (clickAddToCart s)) =
      events s1 ++ [ConsoleLog (Text "No success indicator found, continuing...")])).
Proof.
  split; [exact addToCartEnabled_truthy|].
  split.
  { intros V F. rewrite waitForAddToCartEnabled_run, V, F. reflexivity. }
  split.
  { rewrite bind_run, waitForAddToCartEnabled_run.
    destruct (waitFor addToCartButton visible 5000 (page s)) as [[]|e].
    - destruct (waitForFunction addToCartEnabled 5000 (page s)) as [[]|e];
        eexists; repeat split; auto.
    - eexists; repeat split; auto. }
  split.
  - intros e s1 E. rewrite clickAddToCart_run, E. cbv beta zeta iota.
    destruct (click addToCartButton true (page s1)) as [[[]|e'] w']; cbn [fst page events].
    + destruct (waitForSelector successIndicator 3000 w'); cbn [fst snd events];
        (split; [|reflexivity]); rewrite ?in_app_iff; cbn [In]; auto.
    + cbn [fst snd events]. split; [|reflexivity].
      rewrite in_app_iff; cbn [In]; auto.
  - intros s1 E. rewrite clickAddToCart_run, E. cbv beta zeta iota.
    destruct (waitForSelector successIndicator 3000 (page s1)); cbn [fst snd page events];
      (split; [reflexivity|]); (split; [reflexivity|]); [left | right]; reflexivity.
Qed.

End AddToCartFacts.

Section RetryFacts.
Context {S T : Type}.
Import GlobalTestUtils.

Lemma attempt_shift (fn : Async S T) (s : S) (j : nat) :
  attempt fn s (Datatypes.S j) = attempt fn (snd (fn s)) j.
Proof.
  induction j as [|j IH].
  - reflexivity.
  - change (attempt fn s (Datatypes.S (Datatypes.S j)))
      with (fn (snd (attempt fn s (Datatypes.S j)))).
    rewrite IH. reflexivity.
Qed.

(** The loop from index [i] on, with [remaining] iterations left. *)
Lemma retryFrom_run (fn : Async S T) (maxRetries baseDelay : Z) (remaining i : nat) (r0 : Run S) :
  (1 <= remaining)%nat ->
  maxRetries = Z.of_nat (i + remaining) ->
  exists k : nat,
    (1 <= k <= remaining)%nat /\
    let (r, run) := retryFrom fn maxRetries baseDelay remaining (Z.of_nat i) r0 in
    calls run = (calls r0 + k)%nat /\
    slept run = slept r0 ++ map (fun j => (baseDelay * 2 ^ Z.of_nat j)%Z) (seq i (k - 1)) /\
    r = fst (attempt fn (env r0) (k - 1)) /\
    env run = snd (attempt fn (env r0) (k - 1)) /\
    (forall j, (j < k - 1)%nat -> exists e, fst (attempt fn (env r0) j) = Throw e) /\
    (forall e, r = Throw e -> k = remaining).
Proof.
  revert i r0. induction remaining as [|remaining IH]; intros i r0 Pos Max; [lia|].
  cbn [retryFrom]. unfold tryCatch, invoke.
  destruct (fn (env r0)) as [[v|e] s'] eqn:Efn.
  - exists 1%nat. split; [lia|]. cbn [calls slept env Nat.sub seq map attempt].
    rewrite Efn, app_nil_r. repeat split; try discriminate; lia.
  - destruct (Z.eqb_spec (Z.of_nat i) (maxRetries - 1)) as [Elast|Emore].
    + unfold throw. exists 1%nat. split; [lia|].
      cbn [calls slept env Nat.sub seq map attempt].
      rewrite Efn, app_nil_r. repeat split; lia.
    + assert (Pos' : (1 <= remaining)%nat) by lia.
      assert (Max' : maxRetries = Z.of_nat (Datatypes.S i + remaining)) by lia.
      rewrite bind_run. unfold wait at 1. cbn [env slept calls].
      replace (Z.of_nat i + 1)%Z with (Z.of_nat (Datatypes.S i)) by lia.
      destruct (IH (Datatypes.S i)
                   (mkRun s' (slept r0 ++ [(baseDelay * 2 ^ Z.of_nat i)%Z]) (Datatypes.S (calls r0)))
                   Pos' Max') as (k & Hk & IHk).
      exists (Datatypes.S k). split; [lia|].
      destruct (retryFrom fn maxRetries baseDelay remaining (Z.of_nat (Datatypes.S i)) _)
        as [r run].
      cbn [env slept calls] in IHk.
      destruct IHk as (Hcalls & Hslept & Hr & Henv & Hthrows & Hlast).
      assert (Es' : s' = snd (fn (env r0))) by (rewrite Efn; reflexivity).
      replace (Datatypes.S k - 1)%nat with (Datatypes.S (k - 1)) by lia.
      rewrite attempt_shift, <- Es'.
      repeat split.
      * lia.
      * rewrite Hslept, <- app_assoc. reflexivity.
      * exact Hr.
      * exact Henv.
      * intros [|j] Hj.
        -- exists e. cbn [attempt]. rewrite Efn. reflexivity.
        -- rewrite attempt_shift, <- Es'. apply Hthrows. lia.
      * intros e' He'. rewrite (Hlast e' He'). reflexivity.
Qed.

(** C10: for every [fn], every [maxRetries >= 1] and every [baseDelay],
    retry invokes [fn] some [k] times with [1 <= k <= maxRetries]; the
    invocations before the last all threw and the last one's completion is
    the completion of retry, so retry returns the result of the first
    invocation that succeeds; the timers awaited are exactly
    [baseDelay * 2^i] after the failed attempt [i], for [i = 0 .. k-2];
    and when retry throws, all [maxRetries] invocations were made and the
    error is that of the final one. *)
Theorem retry_exponential_backoff
        (fn : Async S T) (maxRetries baseDelay : option Z) (s : S) :
  let m := match maxRetries with Some m => m | None => 3%Z end in
  let d := match baseDelay with Some d => d | None => 1000%Z end in
  (1 <= m)%Z ->
  exists k : nat,
    (1 <= k)%nat /\ (Z.of_nat k <= m)%Z /\
    let (r, run) := retry fn maxRetries baseDelay (start s) in
    calls run = k /\
    slept run = backoff d (k - 1) /\
    (forall j, (j < k - 1)%nat -> exists e, fst (attempt fn s j) = Throw e) /\
    r = fst (attempt fn s (k - 1)) /\
    env run = snd (attempt fn s (k - 1)) /\
    (forall e, r = Throw e -> Z.of_nat k = m).
Proof.
  intros m d Hm. unfold retry. fold m. fold d. cbv zeta.
  destruct (retryFrom_run fn m d (Z.to_nat m) 0 (start s)) as (k & Hk & Hrun);
    [lia | lia |].
  exists k. split; [lia|]. split; [lia|].
  change (Z.of_nat 0) with 0%Z in Hrun.
  destruct (retryFrom fn m d (Z.to_nat m) 0 (start s)) as [r run].
  cbn [start env slept calls] in Hrun.
  destruct Hrun as (Hcalls & Hslept & Hr & Henv & Hthrows & Hlast).
  repeat split; auto.
  intros e He. rewrite (Hlast e He). lia.
Qed.

End RetryFacts.

Section RunnerFacts.
Import Sh.

Lemma finish_cases (errexit : bool) (status : Z) :
  finish errexit status = Status status \/
  (finish errexit status = Exited status /\ status <> 0%Z).
Proof.
  unfold finish. destruct errexit; cbn; [|left; reflexivity].
  destruct (Z.eqb_spec status 0); cbn; [left | right]; auto.
Qed.

Ltac sh_unfold :=
  cbv [exitCode code andThen ifThen ifThenElse orElse not_ call external echo exit_ return_
       test skip finish outcome printed andb negb orb
       RunSmokeTests.print_status RunSmokeTests.print_success
       RunSmokeTests.print_warning RunSmokeTests.print_error].

Ltac sh_case :=
  match goal with
  | |- context [Z.eqb (if ?c then _ else _) _] => destruct c eqn:?; cbn [Z.eqb]
  | |- context [Z.eqb ?a ?b] => destruct (Z.eqb_spec a b)
  | |- context [Z.ltb ?a ?b] => destruct (Z.ltb_spec a b)
  | |- context [if ?b then _ else _] => destruct b eqn:?
  end; cbv beta iota.

Lemma run_fast_smoke_exit (curl npx : Z) :
  (0 <= npx < 256)%Z ->
  exitCode (RunFastSmoke.script curl npx) = if (curl =? 0)%Z then npx else 1%Z.
Proof.
  intros Range. unfold RunFastSmoke.script. sh_unfold.
  repeat sh_case; try reflexivity; try lia; try (rewrite Z.mod_small by lia; lia).
Qed.

Lemma run_tests_status (h : RunSmokeTests.Host) (mode : option string) :
  let status := RunSmokeTests.npm_run h (RunSmokeTests.scriptFor mode) in
  (0 <= status < 256)%Z ->
  outcome (call (RunSmokeTests.run_tests h mode) false) = Status status.
Proof.
  intros status Range. unfold RunSmokeTests.run_tests. fold status. sh_unfold.
  repeat sh_case; rewrite Z.mod_small by lia; reflexivity.
Qed.

Lemma andThen_outcome (P : Outcome -> Prop) (a : Command) (k : Z -> Command) (e : bool) :
  goesOnOrFails (outcome (a e)) ->
  (forall z, goesOnOrFails (Exited z) -> P (Exited z)) ->
  (forall z, goesOnOrFails (Returned z) -> P (Returned z)) ->
  (forall z, outcome (a e) = Status z -> P (outcome (k z e))) ->
  P (outcome (andThen a k e)).
Proof.
  intros Ha Pe Pr Pk. unfold andThen.
  destruct (outcome (a e)) as [z|z|z] eqn:E; cbn [outcome]; auto;
    rewrite E; auto.
Qed.

Lemma check_prerequisites_fails (h : RunSmokeTests.Host) :
  goesOnOrFails (outcome (call (RunSmokeTests.check_prerequisites h) true)).
Proof.
  unfold RunSmokeTests.check_prerequisites. sh_unfold. cbn [Z.eqb].
  repeat sh_case; cbn; auto; discriminate.
Qed.

Lemma install_dependencies_fails (h : RunSmokeTests.Host) :
  goesOnOrFails (outcome (call (RunSmokeTests.install_dependencies h) true)).
Proof.
  unfold RunSmokeTests.install_dependencies. sh_unfold. cbn [Z.eqb].
  repeat sh_case; cbn; auto; discriminate.
Qed.

Lemma check_saleor_status_fails (h : RunSmokeTests.Host) :
  goesOnOrFails (outcome (call (RunSmokeTests.check_saleor_status h) true)).
Proof.
  unfold RunSmokeTests.check_saleor_status. sh_unfold. cbn [Z.eqb].
  repeat sh_case; cbn; auto; discriminate.
Qed.

Lemma open_report_fails (h : RunSmokeTests.Host) :
  goesOnOrFails (outcome (call (RunSmokeTests.open_report h) true)).
Proof.
  unfold RunSmokeTests.open_report. sh_unfold. cbn [Z.eqb].
  repeat sh_case; cbn; auto; discriminate.
Qed.

(** The full runner ends with 0 only when the tests it started ended
    with 0. *)
Lemma run_smoke_tests_exit (h : RunSmokeTests.Host) (arg1 arg2 : option string) :
  let status := RunSmokeTests.npm_run h (RunSmokeTests.scriptFor (Some (RunSmokeTests.testMode arg1))) in
  RunSmokeTests.wantsHelp arg1 = false ->
  (0 <= status < 256)%Z ->
  exitCode (RunSmokeTests.main h arg1 arg2) = 0%Z ->
  status = 0%Z.
Proof.
  intros status Help Range.
  unfold RunSmokeTests.wantsHelp in Help. apply orb_false_iff in Help. destruct Help as [H1 H2].
  unfold exitCode, RunSmokeTests.main. cbv zeta. rewrite H1, H2.
  set (P := fun o : Outcome => code o = 0%Z -> status = 0%Z).
  assert (Pe : forall z, goesOnOrFails (Exited z) -> P (Exited z))
    by (intros z Hz Ez; cbn in *; contradiction).
  assert (Pr : forall z, goesOnOrFails (Returned z) -> P (Returned z))
    by (intros z Hz Ez; cbn in *; contradiction).
  change (P (outcome
    ((echo "Saleor Smoke Tests Runner" ;;
      echo "==============================" ;;
      ifThen (orElse (test false) (test false))
        (echo "Usage: $0 [test_mode] [open_report]" ;; exit_ 0) ;;
      call (RunSmokeTests.check_prerequisites h) ;;
      call (RunSmokeTests.install_dependencies h) ;;
      call (RunSmokeTests.check_saleor_status h) ;;
      ifThenElse (call (RunSmokeTests.run_tests h (Some (RunSmokeTests.testMode arg1))))
        (ifThen (test (String.eqb (RunSmokeTests.openReport arg2) "true"))
           (call (RunSmokeTests.open_report h)) ;;
         call (RunSmokeTests.print_success "Smoke tests completed successfully!") ;;
         exit_ 0)
        (call (RunSmokeTests.print_error "Smoke tests failed!") ;;
         ifThen (test (negb (String.eqb (RunSmokeTests.openReport arg2) "false")))
           (call (RunSmokeTests.open_report h)) ;;
         exit_ 1))%sh true))).
  apply andThen_outcome; auto; [exact I | intros _ _].
  apply andThen_outcome; auto; [exact I | intros _ _].
  apply andThen_outcome; auto; [exact I | intros _ _].
  apply andThen_outcome; auto using check_prerequisites_fails; intros _ _.
  apply andThen_outcome; auto using install_dependencies_fails; intros _ _.
  apply andThen_outcome; auto using check_saleor_status_fails; intros _ _.
  unfold ifThenElse at 1.
  rewrite (run_tests_status h (Some (RunSmokeTests.testMode arg1)) Range). fold status.
  destruct (Z.eqb_spec status 0) as [E|E]; cbn [outcome]; [intros _; exact E|].
  apply andThen_outcome; auto; [exact I | intros _ _].
  apply andThen_outcome; auto.
  - unfold ifThen, ifThenElse, test, external, skip, finish. cbn [outcome andb].
    destruct (negb _); cbn [Z.eqb outcome]; [apply open_report_fails | exact I].
  - intros z _. intros C. cbn in C. discriminate.
Qed.

End RunnerFacts.


Section ResolutionFacts.
Import StaticBrowser.

Lemma first_of_filter {A} (f : A -> bool) (l : list A) :
  hd_error (firstn 1 (filter f l)) = find f l.
Proof.
  induction l as [|a l IH]; cbn.
  - reflexivity.
  - destruct (f a); [reflexivity | exact IH].
Qed.

Lemma firstOfList_find (doc : list Position) (candidates : SelectorList) :
  firstOfList doc candidates = find (matchesAny candidates) doc.
Proof. unfold firstOfList. cbn [resolve]. apply first_of_filter. Qed.

Lemma matchesAny_perm (c1 c2 : SelectorList) (p : Position) :
  Permutation c1 c2 -> matchesAny c1 p = matchesAny c2 p.
Proof.
  intros Perm. unfold matchesAny.
  apply eq_true_iff_eq. rewrite !existsb_exists.
  split; intros (c & In_c & M); exists c; split; auto.
  - eapply Permutation_in; eauto.
  - eapply Permutation_in; [apply Permutation_sym|]; eauto.
Qed.

Lemma filter_none {A} (f : A -> bool) (l : list A) :
  (forall a, In a l -> f a = false) -> filter f l = [].
Proof.
  induction l as [|a l IH]; cbn; intros Hf; [reflexivity|].
  rewrite (Hf a) by auto. apply IH. auto.
Qed.

Lemma firstEntryThatMatches_skip (doc : list Position) (pre rest : SelectorList) :
  (forall c q, In c pre -> In q doc -> matchComplex q c = false) ->
  firstEntryThatMatches doc (pre ++ rest) = firstEntryThatMatches doc rest.
Proof.
  induction pre as [|c pre IH]; cbn [app firstEntryThatMatches]; intros Hpre.
  - reflexivity.
  - rewrite filter_none by (intros q Hq; apply (Hpre c q); cbn; auto).
    apply IH. intros c' q Hc' Hq. apply Hpre; cbn; auto.
Qed.

Lemma find_none_all {A} (f : A -> bool) (l : list A) :
  (forall a, In a l -> f a = false) -> find f l = None.
Proof.
  induction l as [|a l IH]; cbn; intros Hf; [reflexivity|].
  rewrite (Hf a) by auto. apply IH. auto.
Qed.

Lemma hd_filter_find {A} (f : A -> bool) (l : list A) :
  hd_error (filter f l) = find f l.
Proof.
  induction l as [|a l IH]; cbn; [reflexivity|].
  destruct (f a); [reflexivity | exact IH].
Qed.

Lemma find_ext_in {A} (f g : A -> bool) (l : list A) :
  (forall a, In a l -> f a = g a) -> find f l = find g l.
Proof.
  induction l as [|a l IH]; cbn; intros E; [reflexivity|].
  rewrite (E a) by auto. destruct (g a); [reflexivity|]. apply IH. auto.
Qed.

Lemma find_narrowed {A} (f g : A -> bool) (l : list A) (x : A) :
  (forall a, g a = true -> f a = true) ->
  find f l = Some x -> g x = true -> find g l = Some x.
Proof.
  intros Narrow. induction l as [|a l IH]; cbn; [discriminate|].
  destruct (f a) eqn:Fa.
  - intros [= ->] Gx. rewrite Gx. reflexivity.
  - intros Found Gx. destruct (g a) eqn:Ga.
    + rewrite (Narrow a Ga) in Fa. discriminate.
    + apply IH; assumption.
Qed.

Lemma single_first (p : StaticPage) (candidates : SelectorList) :
  single p (First (Css candidates))
  = match find (matchesAny candidates) (document p) with
    | Some x => Return x
    | None => Throw (TimeoutError "waiting for locator")
    end.
Proof.
  unfold single. cbn [resolve]. rewrite <- hd_filter_find.
  destruct (filter (matchesAny candidates) (document p)) as [|x [|y l]]; reflexivity.
Qed.

(** C6, as the code has it.  The page objects write the candidates of a
    logical element as one selector list: every locator of the HomePage and
    ProductPage constructors is one, and so are the lists behind
    getFirstProduct and getProductByName, which add [.first()].  A selector
    list with [.first()] stands for the first element in document order
    that matches any of its entries, whichever entry that is; this is the
    element clickFirstProduct acts on.  The order of the entries has no
    influence on the element.  With [c] the first entry of the list that
    matches anything, the element is the first match of [c] exactly when
    it matches [c]. *)
Theorem first_takes_document_order (p : StaticPage) (candidates : SelectorList) :
  let doc := document p in
  let cards := [testid "product-card"; class "product-card";
                [[AttrContains "href" "/products/"]]] in
  (Forall (fun l => exists list, l = Css list) constructorLocators /\
   HomePage.getFirstProduct = First (Css cards) /\
   forall name, exists list, HomePage.getProductByName name = First (Css list)) /\
  (firstOfList doc candidates = find (matchesAny candidates) doc /\
   single p (First (Css candidates))
   = match find (matchesAny candidates) doc with
     | Some x => Return x
     | None => Throw (TimeoutError "waiting for locator")
     end) /\
  fst (HomePage.clickFirstProduct (open p))
  = match find (matchesAny cards) doc with
    | Some x =>
        if isShown x then
          if isEnabled x then Return tt else Throw (TimeoutError "click")
        else Throw (TimeoutError "waiting for visible")
    | None => Throw (TimeoutError "waiting for locator")
    end /\
  (forall reordered,
      Permutation candidates reordered ->
      firstOfList doc reordered = firstOfList doc candidates /\
      single p (First (Css reordered)) = single p (First (Css candidates))) /\
  (forall pre c post,
      candidates = pre ++ c :: post ->
      (forall c' q, In c' pre -> In q doc -> matchComplex q c' = false) ->
      (exists q, In q doc /\ matchComplex q c = true) ->
      (firstEntryThatMatches doc candidates = firstOfList doc candidates <->
       exists x, firstOfList doc candidates = Some x /\ matchComplex x c = true)).
Proof.
  cbv zeta. split; [|split; [|split; [|split]]].
  - split; [|split].
    + repeat constructor; eexists; reflexivity.
    + reflexivity.
    + intros name. eexists. reflexivity.
  - split; [apply firstOfList_find | apply single_first].
  - unfold HomePage.clickFirstProduct, HomePage.clickProduct, HomePage.getFirstProduct,
      HomePage.productCards, BasePage.safeClick, BasePage.waitForElement, bind, observe, act, open.
    cbn [page events waitFor click staticBrowser]. unfold static_waitFor, static_click.
    rewrite single_first.
    destruct (find _ (document p)) as [x|]; [|reflexivity].
    destruct (isShown x); [|reflexivity].
    cbn [orb andb fst]. destruct (isEnabled x); reflexivity.
  - intros reordered Perm.
    assert (Same : find (matchesAny reordered) (document p)
                   = find (matchesAny candidates) (document p)).
    { apply find_ext_in. intros q _. symmetry. apply matchesAny_perm. exact Perm. }
    split.
    + rewrite !firstOfList_find. exact Same.
    + rewrite !single_first, Same. reflexivity.
  - intros pre c post -> Hpre (q & Hq & Mq).
    rewrite firstEntryThatMatches_skip by exact Hpre.
    cbn [firstEntryThatMatches]. rewrite firstOfList_find.
    assert (First_c : exists y, find (fun r => matchComplex r c) (document p) = Some y).
    { destruct (find (fun r => matchComplex r c) (document p)) as [y|] eqn:F; [eauto|].
      rewrite (find_none _ _ F q Hq) in Mq. discriminate. }
    destruct First_c as (y & Fy).
    assert (Head : match filter (fun r => matchComplex r c) (document p) with
                   | r :: _ => Some r
                   | [] => firstEntryThatMatches (document p) post
                   end = Some y).
    { rewrite <- hd_filter_find in Fy.
      destruct (filter (fun r => matchComplex r c) (document p)); [discriminate | exact Fy]. }
    rewrite Head.
    assert (Any : forall r, matchComplex r c = true -> matchesAny (pre ++ c :: post) r = true).
    { intros r Mr. apply existsb_exists. exists c. split; [|exact Mr].
      apply in_or_app. right. left. reflexivity. }
    split.
    + intros E. exists y. split; [symmetry; exact E|].
      apply find_some in Fy. apply Fy.
    + intros (x & Fx & Mx). rewrite Fx. f_equal.
      pose proof (find_narrowed _ _ _ _ Any Fx Mx) as Fx'.
      rewrite Fy in Fx'. injection Fx' as ->. reflexivity.
Qed.

End ResolutionFacts.

(* ===================================================================== *)
(** * Runs on the sample pages                                           *)
(* ===================================================================== *)

Section Runs.
Import StaticBrowser Storefront.

(** On the home page whose link comes before its card, the product-card
    locator followed by [.first()] (as in getFirstProduct and
    getProductByName) resolves to the link, which matches the third entry
    of the list; the first entry of the list that matches anything is the
    first one, and its first match is the card. *)
Lemma first_list_entry_not_taken :
  let candidates :=
    [testid "product-card"; class "product-card"; [[AttrContains "href" "/products/"]]] in
  HomePage.getFirstProduct = First (Css candidates) /\
  option_map here (firstOfList (document home) candidates) = Some teeLink /\
  option_map here (hd_error (resolve (document home) (HomePage.getProductByName "Tee")))
  = Some teeLink /\
  option_map here (firstEntryThatMatches (document home) candidates) = Some teeCard /\
  firstOfList (document home) candidates <> firstEntryThatMatches (document home) candidates.
Proof.
  cbv zeta. repeat split; try reflexivity.
  intros E. vm_compute in E. discriminate.
Qed.

Lemma first_takes_document_order_witness :
  let cards := [testid "product-card"; class "product-card";
                [[AttrContains "href" "/products/"]]] in
  firstOfList (document home)
    [[[AttrContains "href" "/products/"]]; class "product-card"; testid "product-card"]
  = firstOfList (document home) cards /\
  option_map here (firstOfList (document homeCardFirst) cards) = Some teeCard /\
  firstEntryThatMatches (document homeCardFirst) cards
  = firstOfList (document homeCardFirst) cards.
Proof.
  cbv zeta. split; [|split].
  - apply (proj1 (proj2 (proj2 (proj2 (first_takes_document_order home _))))).
    apply Permutation_rev.
  - reflexivity.
  - apply (proj2 (proj2 (proj2 (proj2 (first_takes_document_order homeCardFirst _))))
                 [] (testid "product-card")
                 [class "product-card"; [[AttrContains "href" "/products/"]]]).
    + reflexivity.
    + intros c' q [].
    + eexists. split; [vm_compute; right; left; reflexivity | reflexivity].
    + eexists. split; reflexivity.
Defined.

(** C3: before adding to cart the harness is to wait until the control is
    visible and neither disabled nor aria-disabled.  On a product page whose
    add-to-cart button is visible and enabled the button passes the
    readiness test and the wait for visibility succeeds, yet the wait on the
    in-page test is rejected: the selector it hands to
    [document.querySelector] contains [:has-text], which the page's own
    selector engine does not know.  waitForAddToCartEnabled catches the
    error, prints its warning and returns; whether the control is enabled is
    never looked at. *)
Lemma readiness_check_rejected_on_enabled_button :
  truthy ProductPage.addToCartEnabled (Some {| handleAttrs := [] |}) = true /\
  waitFor ProductPage.addToCartButton visible 5000%Z product = Return tt /\
  waitForFunction ProductPage.addToCartEnabled 5000%Z product
  = Throw (SyntaxError "not a valid selector") /\
  ProductPage.waitForAddToCartEnabled (open product)
  = (Return tt, mkSession product [readinessWarning]).
Proof. repeat split; reflexivity. Qed.

(** On every static page the in-page readiness test is rejected. *)
Remark readiness_test_rejected (p : StaticPage) (timeout : Z) :
  waitForFunction ProductPage.addToCartEnabled timeout p
  = Throw (SyntaxError "not a valid selector").
Proof. reflexivity. Qed.

(** C2: selectSize is to click the first of its six explicit selectors
    whose target exists.  On a product page that offers the sizes XS, S and
    M, the first selector for the size S,
    [data-testid="size-option"]:has-text("S"), has targets: it matches the
    options XS and S, since [:has-text] looks for the text anywhere in the
    element and in any case.  The existence probe is a strict wait, which
    throws on a locator that stands for more than one element, so the
    probe answers false.  The same happens to button:has-text("S"), the
    other four selectors match nothing, and the page has no variant
    selector.  selectSize then falls back to the first size option and
    clicks XS, not the size asked for. *)
Lemma selectSize_clicks_another_size :
  let wanted := Css [[[AttrEq "data-testid" "size-option"; HasText "S"]]] in
  hd_error (ProductPage.sizeSelectors "S")
  = Some [[AttrEq "data-testid" "size-option"; HasText "S"]] /\
  map (fun x => innerText (here x)) (resolve (document productSizes) wanted) = ["XS"; "S"] /\
  count wanted productSizes = Return 2%nat /\
  textContent (Nth wanted 1) productSizes = Return (Some "S") /\
  BasePage.elementExists wanted (open productSizes) = (Return false, open productSizes) /\
  ProductPage.selectSize "S" (open productSizes)
  = (Return tt, mkSession productSizes [Clicked (First ProductPage.sizeOptions) false]) /\
  textContent (First ProductPage.sizeOptions) productSizes = Return (Some "XS").
Proof. cbv zeta. repeat split; reflexivity. Qed.

(** C5: isCartEmpty is to return true when the empty-cart message exists,
    whatever the count of cart items.  On a cart page that carries the
    message <p class="empty-cart">Your cart is empty</p> next to a cart
    line the message exists, yet isCartEmpty returns false.  The empty-cart
    locator also has the entry :has-text("empty"), which matches every
    element around the message (html, body, main) along with it; the
    existence probe is a strict wait, which throws on a locator that stands
    for several elements, so the probe answers false whenever the message
    is a text, also on a cart page that shows nothing but the message.  The
    result then rests on the count of cart items alone. *)
Lemma isCartEmpty_misses_shown_message :
  map (fun x => innerText (here x))
      (resolve (document cartMessageAndLine) (Css [class "empty-cart"]))
  = ["Your cart is empty"] /\
  map (fun x => tagName (element (here x)))
      (resolve (document cartMessageAndLine) CartPage.emptyCartMessage)
  = ["html"; "body"; "main"; "p"] /\
  waitFor CartPage.emptyCartMessage attached 2000%Z cartMessageAndLine
  = Throw (StrictModeViolation "locator resolved to several elements") /\
  count CartPage.cartItems cartMessageAndLine = Return 1%nat /\
  CartPage.isCartEmpty (open cartMessageAndLine) = (Return false, open cartMessageAndLine) /\
  BasePage.elementExists CartPage.emptyCartMessage (open emptyCartDocument)
  = (Return false, open emptyCartDocument) /\
  CartPage.isCartEmpty (open emptyCartDocument) = (Return true, open emptyCartDocument).
Proof. repeat split; reflexivity. Qed.

Lemma selectSize_cascade_witness :
  ProductPage.selectSize "S" (open product)
  = (Return tt,
     mkSession product [Clicked (Css [[[AttrEq "data-testid" "size-option"; HasText "S"]]])
                                false]) /\
  ProductPage.selectSize "M" (open productSmallMedium)
  = (Return tt,
     mkSession productSmallMedium [Clicked (Nth ProductPage.genericVariants 1) false]) /\
  ProductPage.selectSize "Large" (open productOneSize)
  = (Return tt, mkSession productOneSize [Clicked (First ProductPage.sizeOptions) false]) /\
  ProductPage.selectSize "S" (open productPlain) = (Return tt, open productPlain).
Proof.
  assert (Nothing : forall (p : StaticPage) (size : string),
             forallb (fun selector =>
                        negb (isReturn (waitFor (Css [selector]) attached 2000%Z p)))
                     (ProductPage.sizeSelectors size) = true ->
             forall selector, In selector (ProductPage.sizeSelectors size) ->
                              exists e, waitFor (Css [selector]) attached 2000%Z p = Throw e).
  { intros p size All selector In_s.
    rewrite forallb_forall in All. specialize (All selector In_s).
    destruct (waitFor (Css [selector]) attached 2000%Z p) as [[]|e]; [discriminate | eauto]. }
  split; [|split; [|split]].
  - rewrite (proj1 (selectSize_cascade "S" (open product)) []
                   [[AttrEq "data-testid" "size-option"; HasText "S"]]
                   (tl (ProductPage.sizeSelectors "S")));
      [reflexivity | reflexivity | intros earlier [] | reflexivity].
  - pose proof (proj2 (selectSize_cascade "M" (open productSmallMedium))
                      (Nothing productSmallMedium "M" eq_refl)) as Generic.
    rewrite Generic. reflexivity.
  - pose proof (proj2 (selectSize_cascade "Large" (open productOneSize))
                      (Nothing productOneSize "Large" eq_refl)) as Fallback.
    rewrite Fallback. reflexivity.
  - exact (proj2 (selectSize_cascade "S" (open productPlain))
                 (Nothing productPlain "S" eq_refl)).
Defined.

Lemma addToCart_readiness_never_blocks_witness :
  fst (BasePage.safeClick ProductPage.addToCartButton (open productDisabled))
  = Throw (TimeoutError "click") /\
  In (Clicked ProductPage.addToCartButton true)
     (events (snd (ProductPage.clickAddToCart (open productDisabled)))).
Proof.
  split; [reflexivity|].
  eapply (proj1 (proj2 (proj2 (proj2 (addToCart_readiness_never_blocks (open productDisabled)))))).
  vm_compute. reflexivity.
Defined.

Lemma verifyCartPageLoaded_witness :
  fst (CartPage.verifyCartPageLoaded (open cartWithTee))
  = fst (CartPage.verifyCartPageLoaded (open emptyCart)) /\
  fst (CartPage.verifyCartPageLoaded (open emptyCart)) = Return tt.
Proof.
  split.
  - apply (proj2 (verifyCartPageLoaded_url_and_load_only (open emptyCart))); reflexivity.
  - apply (proj1 (verifyCartPageLoaded_url_and_load_only (open emptyCart))).
    split; reflexivity.
Defined.

Lemma getCartBadgeCount_witness :
  textContent HomePage.cartBadge product = Return (Some " 3 ") /\
  fst (HomePage.getCartBadgeCount (open product)) = Return (JsString.Int 3).
Proof.
  split; [reflexivity|].
  destruct (getCartBadgeCount_never_throws (open product)) as (n & Run & _ & _ & _ & Parsed).
  rewrite Run. cbn [fst].
  rewrite (Parsed " 3 " eq_refl ltac:(discriminate)). reflexivity.
Defined.

Lemma retry_exponential_backoff_witness :
  (1 <= 3)%Z /\
  exists k : nat,
    (1 <= k)%nat /\ (Z.of_nat k <= 3)%Z /\
    GlobalTestUtils.calls (snd (GlobalTestUtils.retry flaky (Some 3%Z) (Some 1000%Z)
                                                      (GlobalTestUtils.start 0))) = k.
Proof.
  split; [lia|].
  destruct (retry_exponential_backoff flaky (Some 3%Z) (Some 1000%Z) 0 ltac:(cbv; discriminate))
    as (k & Lo & Hi & Run).
  exists k. split; [exact Lo|]. split; [exact Hi|].
  destruct (GlobalTestUtils.retry flaky (Some 3%Z) (Some 1000%Z) (GlobalTestUtils.start 0))
    as [r run].
  exact (proj1 Run).
Defined.


End Runs.

(* ===================================================================== *)
(** * Properties of the other helpers                                    *)
(* ===================================================================== *)

Section TextFacts.
Import JsText JsString GlobalUtils.

Lemma keepOnly_class (class : ascii -> bool) (s : string) :
  Forall (fun c => class c = true) (chars (keepOnly class s)).
Proof.
  induction s as [|c s IH]; cbn; [constructor|].
  destruct (class c) eqn:E; cbn; [constructor; assumption | exact IH].
Qed.

Lemma keepOnly_fixed (class : ascii -> bool) (s : string) :
  Forall (fun c => class c = true) (chars s) -> keepOnly class s = s.
Proof.
  induction s as [|c s IH]; cbn; intros All; [reflexivity|].
  inversion All as [|? ? Hc Hs]; subst. rewrite Hc, IH by assumption. reflexivity.
Qed.

Lemma keepOnly_length (class : ascii -> bool) (s : string) :
  (String.length (keepOnly class s) <= String.length s)%nat.
Proof.
  induction s as [|c s IH]; cbn; [lia|].
  destruct (class c); cbn; lia.
Qed.

Lemma trimStart_fixed (s : string) :
  Forall (fun c => isWhiteSpace c = false) (chars s) -> trimStart s = s.
Proof.
  destruct s as [|c s]; cbn; intros All; [reflexivity|].
  inversion All as [|? ? Hc Hs]; subst. rewrite Hc. reflexivity.
Qed.

Lemma trimEnd_fixed (s : string) :
  Forall (fun c => isWhiteSpace c = false) (chars s) -> trimEnd s = s.
Proof.
  induction s as [|c s IH]; cbn; intros All; [reflexivity|].
  inversion All as [|? ? Hc Hs]; subst. rewrite IH by assumption.
  destruct s; [rewrite Hc|]; reflexivity.
Qed.

Lemma amount_char_not_space (c : ascii) :
  isAmountChar c = true -> isWhiteSpace c = false.
Proof.
  destruct c as [[] [] [] [] [] [] [] []]; cbv; intros E; congruence.
Qed.

(** formatCurrency keeps exactly the digits, dots and commas of its
    argument, in their order: nothing else is in the result, the final trim
    removes nothing, a second pass changes nothing, and the result is never
    longer than the argument. *)
Theorem formatCurrency_keeps_digits_dots_commas (amount : string) :
  formatCurrency amount = keepOnly isAmountChar amount /\
  Forall (fun c => isDigit c = true \/ c = "."%char \/ c = ","%char)
         (chars (formatCurrency amount)) /\
  formatCurrency (formatCurrency amount) = formatCurrency amount /\
  (String.length (formatCurrency amount) <= String.length amount)%nat.
Proof.
  assert (Kept := keepOnly_class isAmountChar amount).
  assert (Clean : Forall (fun c => isWhiteSpace c = false)
                         (chars (keepOnly isAmountChar amount))).
  { eapply Forall_impl; [|exact Kept]. exact amount_char_not_space. }
  assert (Same : formatCurrency amount = keepOnly isAmountChar amount).
  { unfold formatCurrency, trim. rewrite trimStart_fixed, trimEnd_fixed by exact Clean.
    reflexivity. }
  split; [exact Same|]. rewrite Same. split; [|split].
  - eapply Forall_impl; [|exact Kept]. intros c. unfold isAmountChar.
    rewrite !orb_true_iff. intros [[D|E]|E]; auto.
    + right. left. symmetry. apply Ascii.eqb_eq. rewrite Ascii.eqb_sym. exact E.
    + right. right. symmetry. apply Ascii.eqb_eq. rewrite Ascii.eqb_sym. exact E.
  - unfold formatCurrency, trim.
    rewrite (keepOnly_fixed _ _ Kept).
    rewrite trimStart_fixed, trimEnd_fixed by exact Clean. reflexivity.
  - apply keepOnly_length.
Qed.

Lemma substring_length_le (n m : nat) (s : string) :
  (String.length (String.substring n m s) <= m)%nat.
Proof.
  revert n m. induction s as [|c s IH]; intros [|n] [|m]; cbn; try lia.
  - specialize (IH 0%nat m). lia.
  - apply (IH n 0%nat).
  - apply (IH n (S m)).
Qed.

Lemma substring_zero (n : nat) (s : string) :
  String.substring n 0 s = EmptyString.
Proof.
  revert n. induction s as [|c s IH]; intros [|n]; cbn; auto.
Qed.

Lemma substring_truncated (n m : nat) (s : string) :
  String.substring n m s = String.substring n (Nat.min m (String.length s - n)) s.
Proof.
  revert n m. induction s as [|c s IH]; intros n m.
  - destruct n, m; reflexivity.
  - destruct n as [|n].
    + destruct m as [|m]; [reflexivity|].
      cbn [String.substring String.length]. rewrite (IH 0%nat m).
      rewrite !Nat.sub_0_r. cbn [Nat.min]. reflexivity.
    + cbn [String.substring String.length]. rewrite (IH n m).
      replace (S (String.length s) - S n)%nat with (String.length s - n)%nat by lia.
      reflexivity.
Qed.

(** generateRandomString: for a length that is not negative the result is
    the characters of the drawn text after its first two, at most [length]
    of them, so it is shorter than asked for when the text has fewer; for a
    length of -2 or less it is the first two characters of the drawn text,
    not the empty string. *)
Theorem generateRandomString_length (random36 : string) (length : Z) :
  ((0 <= length)%Z ->
   generateRandomString random36 (Some length)
   = String.substring 2 (Z.to_nat length) random36 /\
   (Z.of_nat (String.length (generateRandomString random36 (Some length))) <= length)%Z) /\
  ((length <= -2)%Z ->
   generateRandomString random36 (Some length) = String.substring 0 2 random36).
Proof.
  unfold generateRandomString, substring, JsText.length.
  set (len := String.length random36). cbv zeta.
  split.
  - intros Pos.
    assert (E : String.substring
                  (Z.to_nat (Z.min (Z.max 0 (Z.min 2 (Z.of_nat len)))
                                   (Z.max 0 (Z.min (length + 2) (Z.of_nat len)))))
                  (Z.to_nat (Z.max (Z.max 0 (Z.min 2 (Z.of_nat len)))
                                   (Z.max 0 (Z.min (length + 2) (Z.of_nat len)))
                             - Z.min (Z.max 0 (Z.min 2 (Z.of_nat len)))
                                     (Z.max 0 (Z.min (length + 2) (Z.of_nat len)))))
                  random36
                = String.substring 2 (Z.to_nat length) random36).
    { destruct (Nat.le_gt_cases 2 len) as [Long|Short].
      - rewrite (substring_truncated 2 (Z.to_nat length)). fold len.
        f_equal; lia.
      - rewrite (substring_truncated 2 (Z.to_nat length)). fold len.
        replace (Nat.min (Z.to_nat length) (len - 2)) with 0%nat by lia.
        rewrite (substring_truncated _ _ random36). fold len.
        rewrite (substring_truncated 2 0 random36). fold len.
        replace (Nat.min 0 (len - 2)) with 0%nat by lia.
        match goal with |- String.substring ?a ?b _ = _ =>
          replace b with 0%nat by lia; replace a with len by lia end.
        rewrite !substring_zero. reflexivity. }
    rewrite E. split; [reflexivity|].
    pose proof (substring_length_le 2 (Z.to_nat length) random36). lia.
  - intros Neg.
    rewrite (substring_truncated 0 2 random36). fold len.
    rewrite (substring_truncated _ _ random36). fold len.
    f_equal; lia.
Qed.

End TextFacts.

Section RetryEdgeFacts.
Context {S T : Type}.
Import GlobalTestUtils.

(** With maxRetries of 0 or less retry never invokes [fn] and awaits no
    timer: it throws Error('Max retries exceeded') at once. *)
Theorem retry_without_attempts (fn : Async S T) (maxRetries : Z) (baseDelay : option Z) (s : S) :
  (maxRetries <= 0)%Z ->
  retry fn (Some maxRetries) baseDelay (start s)
  = (Throw (PlainError "Max retries exceeded"), start s).
Proof.
  intros NonPos. unfold retry.
  replace (Z.to_nat maxRetries) with 0%nat by lia. reflexivity.
Qed.

Lemma backoff_sum (d : Z) (n : nat) :
  fold_right Z.add 0%Z (backoff d n) = (d * (2 ^ Z.of_nat n - 1))%Z.
Proof.
  unfold backoff. induction n as [|n IH].
  - cbn. lia.
  - rewrite seq_S, map_app, fold_right_app. cbn [map fold_right Nat.add].
    assert (Shift : forall l a, fold_right Z.add a l = (fold_right Z.add 0 l + a)%Z).
    { induction l as [|x l IHl]; intros a; cbn; [lia|]. rewrite IHl. lia. }
    rewrite Shift, IH.
    rewrite Nat2Z.inj_succ, Z.pow_succ_r by lia. lia.
Qed.

(** The time retry spends waiting: after [k] invocations it has slept
    [baseDelay * (2^(k-1) - 1)] in all, which for a delay that is not
    negative is at most [baseDelay * (2^(maxRetries-1) - 1)]. *)
Theorem retry_total_delay (fn : Async S T) (maxRetries baseDelay : option Z) (s : S) :
  let m := match maxRetries with Some m => m | None => 3%Z end in
  let d := match baseDelay with Some d => d | None => 1000%Z end in
  (1 <= m)%Z ->
  let run := snd (retry fn maxRetries baseDelay (start s)) in
  fold_right Z.add 0%Z (slept run) = (d * (2 ^ (Z.of_nat (calls run) - 1) - 1))%Z /\
  ((0 <= d)%Z -> (fold_right Z.add 0 (slept run) <= d * (2 ^ (m - 1) - 1))%Z).
Proof.
  intros m d Hm run. subst run. unfold retry. fold m. fold d.
  destruct (retryFrom_run fn m d (Z.to_nat m) 0 (start s)) as (k & Hk & Hrun);
    [lia | lia |].
  change (Z.of_nat 0) with 0%Z in Hrun.
  destruct (retryFrom fn m d (Z.to_nat m) 0 (start s)) as [r run].
  cbn [start env slept calls snd] in *.
  destruct Hrun as (Hcalls & Hslept & _).
  cbn [app Nat.add] in Hcalls, Hslept. subst k.
  change (map (fun j : nat => (d * 2 ^ Z.of_nat j)%Z) (seq 0 (calls run - 1)))
    with (backoff d (calls run - 1)) in Hslept.
  rewrite Hslept, backoff_sum.
  replace (Z.of_nat (calls run - 1)) with (Z.of_nat (calls run) - 1)%Z by lia.
  split; [reflexivity|].
  intros Hd. apply Z.mul_le_mono_nonneg_l; [exact Hd|].
  apply Z.sub_le_mono_r. apply Z.pow_le_mono_r; lia.
Qed.

End RetryEdgeFacts.

Section BadgeAndHomeFacts.
Context {W : Type} `{FullBrowser W}.
Import HomePage HomePageRest.

(** waitForCartBadge never throws: it returns true when the wait for a
    visible badge succeeds, and when that wait fails it prints one line and
    returns false.  The page is left as it was. *)
Theorem waitForCartBadge_never_throws (timeout : option Z) (s : Session W) :
  let t := match timeout with Some t => t | None => 3000%Z end in
  exists b : bool,
    fst (waitForCartBadge timeout s) = Return b /\
    page (snd (waitForCartBadge timeout s)) = page s /\
    (b = true <-> waitForSelector cartBadgeSelector t (page s) = Return tt) /\
    events (snd (waitForCartBadge timeout s))
    = events s ++
      (if b then []
       else [ConsoleLog (Text "Cart badge not found - this is acceptable for smoke test")]).
Proof.
  unfold waitForCartBadge, tryCatch, bind, observe, consoleLog, ret. cbv zeta.
  destruct (waitForSelector cartBadgeSelector _ (page s)) as [[]|e];
    cbn [fst snd page events].
  - exists true. rewrite app_nil_r. repeat split; auto.
  - exists false. repeat split; auto; discriminate.
Qed.

(** verifyCartBadgeCount checks nothing for an expected count of 0 or less:
    it passes whatever the badge shows, or whether it is there at all.  For
    a positive count it asks for a visible badge whose text contains the
    decimal digits of the count. *)
Theorem verifyCartBadgeCount_skips_zero (expectedCount : Z) (s : Session W) :
  ((expectedCount <= 0)%Z -> verifyCartBadgeCount expectedCount s = (Return tt, s)) /\
  ((0 < expectedCount)%Z ->
   snd (verifyCartBadgeCount expectedCount s) = s /\
   (fst (verifyCartBadgeCount expectedCount s) = Return tt <->
    toBeVisible cartBadge (page s) = Return tt /\
    toContainText cartBadge (toString expectedCount) (page s) = Return tt)).
Proof.
  unfold verifyCartBadgeCount. split; intros Sign.
  - destruct (Z.ltb_spec 0 expectedCount); [lia | reflexivity].
  - destruct (Z.ltb_spec 0 expectedCount); [|lia].
    unfold bind, observe.
    destruct (toBeVisible cartBadge (page s)) as [[]|e]; cbn [fst snd].
    + destruct (toContainText cartBadge _ (page s)) as [[]|e]; cbn [fst snd];
        split; auto; split; auto; try discriminate; intros [_ E]; discriminate.
    + split; auto. split; [discriminate | intros [E _]; discriminate].
Qed.

End BadgeAndHomeFacts.

Section HomeLoadedFacts.
Context {W : Type} `{Browser W}.
Import HomePage.

(** In a browser where an element that is visible is also attached, the
    outcome of verifyHomepageLoaded is that of its URL assertion followed by
    the visibility assertion on the product list: the closing expectation
    on "products or main content" never fails, and whether there are
    product cards has no influence. *)
Theorem verifyHomepageLoaded_decided_by_url_and_list (s : Session W) :
  (forall l w, toBeVisible l w = Return tt -> waitFor l attached 2000%Z w = Return tt) ->
  fst (verifyHomepageLoaded s)
  = match toHaveURL (Containing "localhost:3000") (page s) with
    | Return _ => toBeVisible productList (page s)
    | Throw e => Throw e
    end.
Proof.
  intros Attached. unfold verifyHomepageLoaded.
  rewrite bind_run. unfold observe at 1.
  destruct (toHaveURL (Containing "localhost:3000") (page s)) as [[]|e]; [|reflexivity].
  rewrite bind_run. unfold observe at 1.
  destruct (toBeVisible productList (page s)) as [[]|e] eqn:V; [|reflexivity].
  rewrite bind_run, elementExists_run, bind_run, elementExists_run.
  unfold SizeCascade.targetExists at 2. rewrite (Attached _ _ V). cbn [isReturn].
  rewrite orb_true_r. reflexivity.
Qed.

(** selectAnyVariant does not throw as long as counting elements does not:
    a failed click is caught and the next pattern is tried, and when no
    pattern leads to a click the function returns. *)
Theorem selectAnyVariant_never_throws :
  (forall l w, exists n, count l w = Return n) ->
  forall s : Session W, fst (ProductPage.selectAnyVariant s) = Return tt.
Proof.
  intros Counts. unfold ProductPage.selectAnyVariant.
  induction ProductPage.variantSelectors as [|selector rest IH]; intros s.
  - reflexivity.
  - cbn [ProductPage.selectAnyVariantFrom].
    rewrite bind_run. unfold observe at 1.
    destruct (Counts (Css [selector]) (page s)) as [n ->].
    destruct (0 <? n)%nat; [|apply IH].
    rewrite bind_run, elementExists_run.
    destruct (SizeCascade.targetExists (page s) (First (Css [selector]))); [|apply IH].
    rewrite bind_run. unfold tryCatch at 1.
    rewrite bind_run.
    destruct (BasePage.safeClick (First (Css [selector])) s) as [[[]|e] s1].
    + reflexivity.
    + rewrite bind_run. unfold consoleLog at 1. apply IH.
Qed.

End HomeLoadedFacts.

Section TrimFacts.
Import JsString.

Lemma trimStart_head (s : string) :
  trimStart s = EmptyString \/
  exists c t, trimStart s = String c t /\ isWhiteSpace c = false.
Proof.
  induction s as [|c s IH]; cbn; [left; reflexivity|].
  destruct (isWhiteSpace c) eqn:E; [exact IH|].
  right. exists c, s. split; [reflexivity | exact E].
Qed.

Lemma trimEnd_keeps_head (c : ascii) (t : string) :
  isWhiteSpace c = false -> exists r, trimEnd (String c t) = String c r.
Proof.
  intros E. cbn. destruct (trimEnd t); [rewrite E|]; eauto.
Qed.

Lemma trimEnd_cons (c : ascii) (s : string) :
  trimEnd (String c s)
  = match trimEnd s with
    | EmptyString => if isWhiteSpace c then EmptyString else String c EmptyString
    | rest => String c rest
    end.
Proof. reflexivity. Qed.

Lemma trimEnd_idempotent (s : string) : trimEnd (trimEnd s) = trimEnd s.
Proof.
  induction s as [|c s IH]; [reflexivity|].
  rewrite trimEnd_cons.
  destruct (trimEnd s) as [|d r] eqn:E.
  - destruct (isWhiteSpace c) eqn:Ec; [reflexivity|].
    rewrite trimEnd_cons. cbn [trimEnd]. rewrite Ec. reflexivity.
  - rewrite trimEnd_cons, IH. reflexivity.
Qed.

Lemma trim_idempotent (s : string) : trim (trim s) = trim s.
Proof.
  unfold trim.
  destruct (trimStart_head s) as [-> | (c & t & -> & Ec)]; [reflexivity|].
  destruct (trimEnd_keeps_head c t Ec) as [r Er].
  rewrite Er. cbn [trimStart]. rewrite Ec, <- Er.
  apply trimEnd_idempotent.
Qed.

End TrimFacts.

Section CartRestFacts.
Context {W : Type} `{FullBrowser W}.
Import CartPage CartPageRest JsString.

(** When verifyCartHasItems passes, the probe for the empty-cart message
    found nothing, the cart-item locator counts at least one element, and
    the first cart item is visible. *)
Theorem verifyCartHasItems_passes_only_with_items (s : Session W) :
  fst (verifyCartHasItems s) = Return tt ->
  fst (BasePage.elementExists emptyCartMessage s) = Return false /\
  (exists n, count cartItems (page s) = Return (S n)) /\
  toBeVisible (First cartItems) (page s) = Return tt.
Proof.
  unfold verifyCartHasItems.
  rewrite bind_run, isCartEmpty_run, elementExists_run. cbn [fst].
  destruct (SizeCascade.targetExists (page s) emptyCartMessage); cbn [orb negb].
  - rewrite bind_run. cbn. discriminate.
  - destruct (count cartItems (page s)) as [[|n]|e]; cbn [Nat.eqb negb].
    + rewrite bind_run. cbn. discriminate.
    + rewrite bind_run. unfold expectTrue, ret at 1, observe. cbn [fst].
      intros V. split; [reflexivity|]. split; [eauto|].
      destruct (toBeVisible (First cartItems) (page s)) as [[]|]; [reflexivity | discriminate].
    + rewrite bind_run. cbn. discriminate.
Qed.

Lemma collectNames_run (remaining i : nat) (items : list string) (s : Session W) :
  exists r, collectNames remaining i items s = (r, s) /\
  forall names, r = Return names ->
    exists more, names = items ++ more /\
                 Forall (fun name => name <> EmptyString /\ trim name = name) more /\
                 (List.length more <= remaining)%nat.
Proof.
  revert i items. induction remaining as [|remaining IH]; intros i items.
  - eexists. split; [reflexivity|]. intros names [= <-]. exists []. rewrite app_nil_r.
    repeat split; auto.
  - cbn [collectNames]. rewrite bind_run, elementExists_run.
    assert (Skip : exists r, collectNames remaining (S i) items s = (r, s) /\
                   forall names, r = Return names ->
                     exists more, names = items ++ more /\ Forall (fun name => name <> EmptyString /\ trim name = name) more /\
                                  (List.length more <= S remaining)%nat).
    { destruct (IH (S i) items) as (r & Run & Names). exists r. split; [exact Run|].
      intros names E. destruct (Names names E) as (more & -> & Clean & Len).
      exists more. repeat split; auto. }
    destruct (SizeCascade.targetExists (page s) (nameElement (Nth cartItems i))); [|exact Skip].
    rewrite bind_run. unfold observe at 1.
    destruct (textContent (nameElement (Nth cartItems i)) (page s)) as [[text|]|e].
    + destruct (trim text) as [|c t] eqn:T; [exact Skip|].
      destruct (IH (S i) (items ++ [String c t])) as (r & Run & Names).
      exists r. split; [exact Run|].
      intros names E. destruct (Names names E) as (more & -> & Clean & Len).
      exists (String c t :: more). rewrite <- app_assoc. repeat split; cbn; auto; [|lia].
      constructor; [|exact Clean]. split; [discriminate|].
      rewrite <- T. apply trim_idempotent.
    + exact Skip.
    + eexists. split; [reflexivity | discriminate].
Qed.

(** getCartItemNames reads without acting; the names it returns are never
    empty and carry no white space at either end, and there are at most as
    many of them as there are cart items: an item whose name element is
    missing or blank is left out. *)
Theorem getCartItemNames_clean (s : Session W) :
  snd (getCartItemNames s) = s /\
  forall names, fst (getCartItemNames s) = Return names ->
    Forall (fun name => name <> EmptyString /\ trim name = name) names /\
    exists itemCount, count cartItems (page s) = Return itemCount /\
                      (List.length names <= itemCount)%nat.
Proof.
  unfold getCartItemNames. rewrite bind_run. unfold observe.
  destruct (count cartItems (page s)) as [itemCount|e].
  - destruct (collectNames_run itemCount 0 [] s) as (r & Run & Names).
    rewrite Run. cbn [fst snd].
    split; [reflexivity|]. intros names E.
    destruct (Names names E) as (more & -> & Clean & Len). cbn [app].
    split; [exact Clean|]. exists itemCount. split; [reflexivity | exact Len].
  - split; [reflexivity | discriminate].
Qed.

End CartRestFacts.

Section CheckoutFacts.
Context {W : Type} `{FullBrowser W}.
Import BasePage CheckoutPageRest JsText.

Lemma safeFill_run (l : Locator) (text : string) (s : Session W) :
  safeFill l text s
  = match waitFor l visible 5000%Z (page s) with
    | Return _ =>
        (fst (fill l text (page s)),
         mkSession (snd (fill l text (page s))) (events s ++ [Filled l text]))
    | Throw e => (Throw e, s)
    end.
Proof.
  unfold safeFill, bind, waitForElement, observe, act.
  destruct (waitFor l visible 5000 (page s)); [|reflexivity].
  destruct (fill l text (page s)); reflexivity.
Qed.

Lemma safeClick_run (l : Locator) (s : Session W) :
  safeClick l s
  = match waitFor l visible 5000%Z (page s) with
    | Return _ =>
        (fst (click l false (page s)),
         mkSession (snd (click l false (page s))) (events s ++ [Clicked l false]))
    | Throw e => (Throw e, s)
    end.
Proof.
  unfold safeClick, bind, waitForElement, observe, act.
  destruct (waitFor l visible 5000 (page s)); [|reflexivity].
  destruct (click l false (page s)); reflexivity.
Qed.

(** login acts in a fixed order and stops at the first failure: the actions
    it issues are a prefix of "fill the email, fill the password, click the
    login button", and all three when it returns.  The password is never
    typed before the email field took the email, and the button is never
    clicked before both fields are filled. *)
Theorem login_acts_in_order (email password : string) (s : Session W) :
  exists n : nat,
    events (snd (login email password s))
    = events s ++ firstn n [Filled emailInput email;
                            Filled passwordInput password;
                            Clicked loginButton false] /\
    (fst (login email password s) = Return tt -> n = 3%nat).
Proof.
  unfold login.
  rewrite bind_run, safeFill_run.
  destruct (waitFor emailInput visible 5000 (page s)) as [[]|e];
    [|exists 0%nat; cbn; rewrite app_nil_r; split; [reflexivity | discriminate]].
  destruct (fill emailInput email (page s)) as [[[]|e] w1]; cbn [fst snd];
    [|exists 1%nat; split; [reflexivity | discriminate]].
  rewrite bind_run, safeFill_run. cbn [page events].
  destruct (waitFor passwordInput visible 5000 w1) as [[]|e];
    [|exists 1%nat; split; [reflexivity | discriminate]].
  destruct (fill passwordInput password w1) as [[[]|e] w2]; cbn [fst snd];
    [|exists 2%nat; cbn; rewrite <- app_assoc; split; [reflexivity | discriminate]].
  rewrite bind_run, safeClick_run. cbn [page events].
  destruct (waitFor loginButton visible 5000 w2) as [[]|e];
    [|exists 2%nat; cbn; rewrite <- app_assoc; split; [reflexivity | discriminate]].
  destruct (click loginButton false w2) as [[[]|e] w3]; cbn [fst snd];
    exists 3%nat; cbn; rewrite <- !app_assoc; split; auto.
Qed.

Lemma optional_section_run (section : Locator) (s : Session W) :
  (found <- elementExists section ;;
   when found (observe (toBeVisible section))) s
  = (if SizeCascade.targetExists (page s) section then toBeVisible section (page s)
     else Return tt, s).
Proof.
  rewrite bind_run, elementExists_run.
  destruct (SizeCascade.targetExists (page s) section); reflexivity.
Qed.

Lemma verifyMakePaymentButtonAvailable_run (s : Session W) :
  verifyMakePaymentButtonAvailable s
  = (match toBeVisible makePaymentButton (page s) with
     | Return _ => toBeEnabled makePaymentButton (page s)
     | Throw e => Throw e
     end, s).
Proof.
  unfold verifyMakePaymentButtonAvailable, bind, observe.
  destruct (toBeVisible makePaymentButton (page s)); reflexivity.
Qed.

Lemma verifyShippingAddressSection_run (s : Session W) :
  verifyShippingAddressSection s
  = (if SizeCascade.targetExists (page s) shippingAddressSection
     then toBeVisible shippingAddressSection (page s) else Return tt, s).
Proof. apply optional_section_run. Qed.

Lemma verifyDeliveryMethodsSection_run (s : Session W) :
  verifyDeliveryMethodsSection s
  = (if SizeCascade.targetExists (page s) deliveryMethodsSection
     then toBeVisible deliveryMethodsSection (page s) else Return tt, s).
Proof. apply optional_section_run. Qed.

(** The outcome of two checks in a row when the first leaves the session as
    it was. *)
Lemma then_run {A} (c : Async (Session W) A) (k : Async (Session W) unit)
      (r : Completion A) (s : Session W) :
  c s = (r, s) ->
  (c ;; k) s = match r with Return _ => k s | Throw e => (Throw e, s) end.
Proof. intros E. rewrite bind_run, E. destruct r; reflexivity. Qed.

Lemma verifyCheckoutFormForLoggedInUser_run (s : Session W) :
  verifyCheckoutFormForLoggedInUser s
  = (andThen_ (toBeVisible orderSummary (page s))
       (andThen_ (optional (page s) shippingAddressSection)
          (andThen_ (optional (page s) deliveryMethodsSection)
             (payable (page s)))), s).
Proof.
  unfold verifyCheckoutFormForLoggedInUser, verifyOrderSummary, andThen_, optional, payable.
  rewrite (then_run (observe (toBeVisible orderSummary)) _ _ s eq_refl).
  destruct (toBeVisible orderSummary (page s)) as [[]|e]; [|reflexivity].
  rewrite bind_run, elementExists_run.
  rewrite (then_run _ _
             (if SizeCascade.targetExists (page s) shippingAddressSection
              then toBeVisible shippingAddressSection (page s) else Return tt) s)
    by (destruct (SizeCascade.targetExists (page s) shippingAddressSection) eqn:E;
        [cbn [when]; rewrite verifyShippingAddressSection_run, E|]; reflexivity).
  destruct (if SizeCascade.targetExists (page s) shippingAddressSection then _ else _)
    as [[]|e]; [|reflexivity].
  rewrite bind_run, elementExists_run.
  rewrite (then_run _ _
             (if SizeCascade.targetExists (page s) deliveryMethodsSection
              then toBeVisible deliveryMethodsSection (page s) else Return tt) s)
    by (destruct (SizeCascade.targetExists (page s) deliveryMethodsSection) eqn:E;
        [cbn [when]; rewrite verifyDeliveryMethodsSection_run, E|]; reflexivity).
  destruct (if SizeCascade.targetExists (page s) deliveryMethodsSection then _ else _)
    as [[]|e]; [|reflexivity].
  apply verifyMakePaymentButtonAvailable_run.
Qed.

Lemma verifyCheckoutElements_run (s : Session W) :
  verifyCheckoutElements s
  = (andThen_ (toBeVisible orderSummary (page s))
       (andThen_ (optional (page s) shippingAddressSection)
          (andThen_ (optional (page s) deliveryMethodsSection)
             (if SizeCascade.targetExists (page s) makePaymentButton
              then payable (page s) else Return tt))), s).
Proof.
  unfold verifyCheckoutElements, verifyOrderSummary, andThen_, optional, payable.
  cbv zeta. cbn [verifySections].
  rewrite (then_run (observe (toBeVisible orderSummary)) _ _ s eq_refl).
  destruct (toBeVisible orderSummary (page s)) as [[]|e]; [|reflexivity].
  rewrite bind_run, elementExists_run.
  rewrite (then_run _ _
             (if SizeCascade.targetExists (page s) shippingAddressSection
              then toBeVisible shippingAddressSection (page s) else Return tt) s)
    by (destruct (SizeCascade.targetExists (page s) shippingAddressSection) eqn:E;
        [cbn [when]; rewrite verifyShippingAddressSection_run, E|]; reflexivity).
  destruct (if SizeCascade.targetExists (page s) shippingAddressSection then _ else _)
    as [[]|e]; [|reflexivity].
  rewrite bind_run, elementExists_run.
  rewrite (then_run _ _
             (if SizeCascade.targetExists (page s) deliveryMethodsSection
              then toBeVisible deliveryMethodsSection (page s) else Return tt) s)
    by (destruct (SizeCascade.targetExists (page s) deliveryMethodsSection) eqn:E;
        [cbn [when]; rewrite verifyDeliveryMethodsSection_run, E|]; reflexivity).
  destruct (if SizeCascade.targetExists (page s) deliveryMethodsSection then _ else _)
    as [[]|e]; [|reflexivity].
  rewrite bind_run, elementExists_run.
  destruct (SizeCascade.targetExists (page s) makePaymentButton); cbn [when].
  - rewrite (then_run _ _ _ s (verifyMakePaymentButtonAvailable_run s)).
    destruct (match toBeVisible makePaymentButton (page s) with
              | Return _ => _ | Throw e => _ end) as [[]|e]; reflexivity.
  - reflexivity.
Qed.

(** On one page state, whenever verifyCheckoutFormForLoggedInUser passes,
    verifyCheckoutElements passes too: the latter asks for the same things
    and for the payment button only when it is there.  Neither acts on the
    page. *)
Theorem checkout_form_implies_elements (s : Session W) :
  snd (verifyCheckoutFormForLoggedInUser s) = s /\
  snd (verifyCheckoutElements s) = s /\
  (fst (verifyCheckoutFormForLoggedInUser s) = Return tt ->
   fst (verifyCheckoutElements s) = Return tt).
Proof.
  rewrite verifyCheckoutFormForLoggedInUser_run, verifyCheckoutElements_run.
  cbn [fst snd]. split; [reflexivity|]. split; [reflexivity|].
  unfold andThen_.
  destruct (toBeVisible orderSummary (page s)) as [[]|e]; [|discriminate].
  destruct (optional (page s) shippingAddressSection) as [[]|e]; [|discriminate].
  destruct (optional (page s) deliveryMethodsSection) as [[]|e]; [|discriminate].
  intros Pay. rewrite Pay. destruct (SizeCascade.targetExists _ _); reflexivity.
Qed.

End CheckoutFacts.

Section OrderNumberFacts.
Import JsText JsString CheckoutPageRest StaticBrowser StaticSite.

Lemma includes_prefix (s t : string) : prefix t s = true -> includes s t = true.
Proof. intros P. destruct s; cbn [includes]; rewrite P; reflexivity. Qed.

Lemma includes_tail (c : ascii) (s t : string) :
  includes s t = true -> includes (String c s) t = true.
Proof. intros I. cbn [includes]. rewrite I. destruct (prefix t (String c s)); reflexivity. Qed.

Lemma node_induction (P : Node -> Prop) :
  (forall e children, Forall P children -> P (Nd e children)) -> forall n, P n.
Proof.
  intros Step. fix IH 1. intros [e children]. apply Step.
  induction children as [|c children IHc]; constructor; [apply IH | exact IHc].
Qed.

Lemma string_app_assoc (a b c : string) : ((a ++ b) ++ c = a ++ (b ++ c))%string.
Proof. induction a as [|x a IH]; cbn; [reflexivity | rewrite IH; reflexivity]. Qed.

Lemma string_app_nil_r (a : string) : (a ++ EmptyString = a)%string.
Proof. induction a as [|x a IH]; cbn; [reflexivity | rewrite IH; reflexivity]. Qed.

Lemma prefix_app (t s b : string) : prefix t s = true -> prefix t (s ++ b) = true.
Proof.
  revert t. induction s as [|c s IH]; intros [|d t]; cbn; try reflexivity; try discriminate.
  - destruct b; reflexivity.
  - destruct (ascii_dec d c); [apply IH | discriminate].
Qed.

Lemma includes_app_r (m b t : string) :
  includes m t = true -> includes (m ++ b) t = true.
Proof.
  induction m as [|c m IH].
  - cbn [includes]. destruct (prefix t EmptyString) eqn:P; [|discriminate].
    intros _. apply includes_prefix. exact (prefix_app t EmptyString b P).
  - cbn [includes]. destruct (prefix t (String c m)) eqn:P.
    + intros _. apply includes_prefix. exact (prefix_app t (String c m) b P).
    + intros Inner. cbn [append]. apply includes_tail. apply IH. exact Inner.
Qed.

Lemma includes_within (a m b t : string) :
  includes m t = true -> includes (a ++ m ++ b) t = true.
Proof.
  intros Inner. induction a as [|c a IH]; cbn [append].
  - apply includes_app_r. exact Inner.
  - apply includes_tail. exact IH.
Qed.

Lemma lower_app (a b : string) : lower (a ++ b) = (lower a ++ lower b)%string.
Proof. induction a as [|c a IH]; cbn; [reflexivity | rewrite IH; reflexivity]. Qed.

Lemma concat_member (texts : list string) (t : string) :
  In t texts -> exists a b, String.concat EmptyString texts = (a ++ t ++ b)%string.
Proof.
  induction texts as [|x xs IH]; [contradiction|].
  intros [->|Later].
  - destruct xs as [|y ys].
    + exists EmptyString, EmptyString. cbn. rewrite string_app_nil_r. reflexivity.
    + exists EmptyString, (String.concat EmptyString (y :: ys)). reflexivity.
  - destruct xs as [|y ys]; [contradiction|].
    destruct (IH Later) as (a & b & Cat).
    exists (x ++ a)%string, b.
    change (String.concat EmptyString (x :: y :: ys))
      with (x ++ String.concat EmptyString (y :: ys))%string.
    rewrite Cat, string_app_assoc. reflexivity.
Qed.

(** The text of an element lies within the text of every element around
    it. *)
Lemma positions_text (n : Node) :
  forall path above q,
    In q (positions path above n) ->
    exists a b, innerText n = (a ++ innerText (here q) ++ b)%string.
Proof.
  induction n as [e children IH] using node_induction. intros path above q.
  cbn [positions]. intros [<-|Below].
  - exists EmptyString, EmptyString. cbn [here append].
    rewrite string_app_nil_r. reflexivity.
  - match type of Below with
    | In _ (?f 0%nat children) => set (siblings := f) in *
    end.
    assert (Sibling : forall l i,
               Forall (fun c => forall path above q,
                                  In q (positions path above c) ->
                                  exists a b, innerText c = (a ++ innerText (here q) ++ b)%string) l ->
               In q (siblings i l) ->
               exists c a b, In c l /\ innerText c = (a ++ innerText (here q) ++ b)%string).
    { induction l as [|c l IHl]; intros i All In_q; cbn in In_q; [contradiction|].
      inversion All as [|c' l' Here There]; subst.
      apply in_app_or in In_q. destruct In_q as [In_c|In_l].
      - destruct (Here _ _ _ In_c) as (a & b & Text).
        exists c, a, b. split; [left; reflexivity | exact Text].
      - destruct (IHl (S i) There In_l) as (c0 & a & b & In_c0 & Text).
        exists c0, a, b. split; [right; exact In_c0 | exact Text]. }
    destruct (Sibling children 0%nat IH Below) as (c & a & b & In_c & Text).
    destruct (concat_member (map innerText children) (innerText c)) as (a' & b' & Cat);
      [apply in_map; exact In_c|].
    exists (ownText e ++ a' ++ a)%string, (b ++ b')%string.
    cbn [innerText]. rewrite Cat, Text, !string_app_assoc. reflexivity.
Qed.

(** A child of the root element has a position in the document behind
    the root's. *)
Lemma child_position (e : Element) (children : list Node) (c : Node) :
  In c children ->
  exists q rest, positions [0%nat] [] (Nd e children) = mkPosition [0%nat] [] (Nd e children) :: rest /\
                 In q rest /\ here q = c.
Proof.
  intros In_c. cbn [positions].
  match goal with
  | |- context [?f 0%nat children] => set (siblings := f)
  end.
  assert (Found : forall l i, In c l -> exists q, In q (siblings i l) /\ here q = c).
  { induction l as [|d l IHl]; intros i In_l; [contradiction|].
    destruct In_l as [->|Later].
    - exists (mkPosition [i; 0%nat] [Nd e children] c). split; [|reflexivity].
      cbn. apply in_or_app. left. destruct c. left. reflexivity.
    - destruct (IHl (S i) Later) as (q & In_q & Here).
      exists q. split; [|exact Here]. cbn. apply in_or_app. right. exact In_q. }
  destruct (Found children 0%nat In_c) as (q & In_q & Here).
  exists q, (siblings 0%nat children). auto.
Qed.

Lemma filter_two {A} (f : A -> bool) (a b : A) (l : list A) :
  f a = true -> In b l -> f b = true ->
  exists x y rest, filter f (a :: l) = x :: y :: rest.
Proof.
  intros Fa In_b Fb. cbn [filter]. rewrite Fa.
  destruct (filter f l) as [|y rest] eqn:F.
  - assert (In b (filter f l)) as Absurd by (apply filter_In; auto).
    rewrite F in Absurd. destruct Absurd.
  - eauto.
Qed.

Lemma toLowerCase_lower (s : string) : toLowerCase s = lower s.
Proof. induction s as [|c s IH]; cbn; [reflexivity | rewrite IH; reflexivity]. Qed.

Lemma matchOrderAt_word (s g : string) :
  matchOrderAt s = Some g -> prefix "order" (lower s) = true.
Proof.
  unfold matchOrderAt. rewrite toLowerCase_lower.
  destruct (String.eqb (lower (String.substring 0 6 s)) "order ") eqn:E; [|discriminate].
  intros _. apply String.eqb_eq in E.
  destruct s as [|c1 [|c2 [|c3 [|c4 [|c5 [|c6 s]]]]]]; try discriminate E.
  cbn [String.substring lower] in E. injection E as E1 E2 E3 E4 E5 _.
  cbn [lower]. rewrite E1, E2, E3, E4, E5. reflexivity.
Qed.

Lemma matchOrder_word (s g : string) :
  matchOrder s = Some g -> includes (lower s) "order" = true.
Proof.
  induction s as [|c s IH]; cbn [matchOrder].
  - destruct (matchOrderAt EmptyString) eqn:E; [|discriminate].
    intros _. apply includes_prefix. exact (matchOrderAt_word _ _ E).
  - destruct (matchOrderAt (String c s)) eqn:E.
    + intros _. apply includes_prefix. exact (matchOrderAt_word _ _ E).
    + intros M. cbn [lower]. apply includes_tail. exact (IH M).
Qed.

(** On an HTML document, a text that holds "order" makes the confirmation
    locator ambiguous: [:has-text("Order")] matches the root element and
    the body as well as the element that carries the text. *)
Lemma order_text_is_ambiguous (p : StaticPage) (html : Element) (kids : list Node)
      (body : Node) (q : Position) :
  roots p = [Nd html kids] ->
  In body kids ->
  innerText (Nd html kids) = innerText body ->
  In q (document p) ->
  includes (lower (innerText (here q))) "order" = true ->
  exists x y rest, resolve (document p) orderConfirmation = x :: y :: rest.
Proof.
  intros Roots In_body Same In_q Order.
  unfold document in *. rewrite Roots in *. cbn [forest] in *.
  rewrite app_nil_r in *.
  assert (Whole : includes (lower (innerText (Nd html kids))) "order" = true).
  { destruct (positions_text _ _ _ _ In_q) as (a & b & Text).
    rewrite Text, !lower_app. apply includes_within. exact Order. }
  assert (Matches : forall r, includes (lower (innerText (here r))) "order" = true ->
                              matchesAny [testid "order-confirmation"; class "order-confirmation";
                                          [[HasText "confirmed"]]; [[HasText "Order"]]] r = true).
  { intros r Text. apply existsb_exists. exists [[HasText "Order"]].
    split; [cbn; auto|].
    unfold matchComplex. cbn [rev app matchCompound forallb matchAncestors matchSimple].
    change (lower "Order") with "order". rewrite Text. reflexivity. }
  destruct (child_position html kids body In_body) as (b & rest & Doc & In_b & Here).
  unfold orderConfirmation. cbn [resolve]. rewrite Doc.
  apply (filter_two _ _ b).
  - apply Matches. exact Whole.
  - exact In_b.
  - apply Matches. rewrite Here, <- Same. exact Whole.
Qed.

(** On an HTML document getOrderNumber never yields an order number.  A
    confirmation text with "Order" in it makes the locator ambiguous, so
    that reading its text throws; and when the locator does resolve to one
    element, that element's text holds no "order" for the pattern to find,
    and the result is the empty string. *)
Theorem getOrderNumber_never_finds_a_number
        (s : Session Site) (html : Element) (kids : list Node) (body : Node) :
  roots (tab (page s)) = [Nd html kids] ->
  In body kids ->
  innerText (Nd html kids) = innerText body ->
  (forall q, In q (document (tab (page s))) ->
             includes (lower (innerText (here q))) "order" = true ->
             fst (getOrderNumber s)
             = Throw (StrictModeViolation "locator resolved to several elements")) /\
  (forall number, fst (getOrderNumber s) = Return number -> number = EmptyString).
Proof.
  intros Roots In_body Same.
  unfold getOrderNumber, bind, observe.
  cbn [textContent coreBrowser siteFullBrowser siteBrowser].
  unfold static_textContent, single. split.
  - intros q In_q Order.
    destruct (order_text_is_ambiguous _ _ _ _ _ Roots In_body Same In_q Order)
      as (x & y & rest & Two).
    rewrite Two. reflexivity.
  - intros number.
    destruct (resolve (document (tab (page s))) orderConfirmation) as [|x [|y rest]] eqn:R;
      cbn [fst]; try discriminate.
    unfold ret. cbn [fst]. intros [= <-].
    destruct (matchOrder (innerText (here x))) as [g|] eqn:M; [|reflexivity].
    assert (In_x : In x (document (tab (page s)))).
    { assert (In x (resolve (document (tab (page s))) orderConfirmation)) as In_r
        by (rewrite R; left; reflexivity).
      unfold orderConfirmation in In_r. cbn [resolve] in In_r.
      apply filter_In in In_r. apply In_r. }
    destruct (order_text_is_ambiguous _ _ _ _ _ Roots In_body Same In_x (matchOrder_word _ _ M))
      as (x' & y' & rest' & Two).
    rewrite R in Two. discriminate.
Qed.

End OrderNumberFacts.

Section HelperClickFacts.
Context {W : Type} `{FullBrowser W}.
Import TestHelpersClick.

Lemma nthRound_shift (selector : SelectorList) (w : W) (j : nat) :
  nthRound selector w (S j)
  = nthRound selector (waitForTimeout 1000%Z (snd (clickOnce selector w))) j.
Proof.
  induction j as [|j IH]; [reflexivity|].
  change (nthRound selector w (S (S j)))
    with (clickOnce selector (waitForTimeout 1000%Z (snd (nthRound selector w (S j))))).
  rewrite IH. reflexivity.
Qed.

Lemma safeClickFrom_run (selector : SelectorList) (retries : Z) (remaining i : nat)
      (c : Clicking W) :
  (1 <= remaining)%nat ->
  retries = Z.of_nat (i + remaining) ->
  exists k : nat,
    (1 <= k <= remaining)%nat /\
    let (r, c') := safeClickFrom selector retries remaining (Z.of_nat i) c in
    rounds c' = (rounds c + k)%nat /\
    pauses c' = pauses c ++ repeat 1000%Z (k - 1) /\
    r = fst (nthRound selector (tab c) (k - 1)) /\
    tab c' = snd (nthRound selector (tab c) (k - 1)) /\
    (forall j, (j < k - 1)%nat -> exists e, fst (nthRound selector (tab c) j) = Throw e) /\
    (forall e, r = Throw e -> k = remaining).
Proof.
  revert i c. induction remaining as [|remaining IH]; intros i c Pos Max; [lia|].
  cbn [safeClickFrom]. unfold tryCatch, round.
  destruct (clickOnce selector (tab c)) as [[[]|e] w'] eqn:Once.
  - exists 1%nat. split; [lia|]. cbn [rounds pauses tab Nat.sub repeat nthRound].
    rewrite Once, app_nil_r. repeat split; try discriminate; lia.
  - destruct (Z.eqb_spec (Z.of_nat i) (retries - 1)) as [Last|More].
    + unfold throw. exists 1%nat. split; [lia|].
      cbn [rounds pauses tab Nat.sub repeat nthRound].
      rewrite Once, app_nil_r. repeat split; lia.
    + assert (Pos' : (1 <= remaining)%nat) by lia.
      assert (Max' : retries = Z.of_nat (S i + remaining)) by lia.
      rewrite bind_run. unfold pause at 1. cbn [tab pauses rounds].
      replace (Z.of_nat i + 1)%Z with (Z.of_nat (S i)) by lia.
      destruct (IH (S i)
                   (mkClicking (waitForTimeout 1000%Z w') (pauses c ++ [1000%Z]) (S (rounds c)))
                   Pos' Max') as (k & Hk & IHk).
      exists (S k). split; [lia|].
      destruct (safeClickFrom selector retries remaining (Z.of_nat (S i)) _) as [r c'].
      cbn [tab pauses rounds] in IHk.
      destruct IHk as (Hrounds & Hpauses & Hr & Htab & Hthrows & Hlast).
      assert (Ew : w' = snd (clickOnce selector (tab c))) by (rewrite Once; reflexivity).
      replace (S k - 1)%nat with (S (k - 1)) by lia.
      rewrite nthRound_shift, <- Ew.
      repeat split.
      * lia.
      * rewrite Hpauses, <- app_assoc. reflexivity.
      * exact Hr.
      * exact Htab.
      * intros [|j] Hj.
        -- exists e. cbn [nthRound]. rewrite Once. reflexivity.
        -- rewrite nthRound_shift, <- Ew. apply Hthrows. lia.
      * intros e' He'. rewrite (Hlast e' He'). reflexivity.
Qed.

(** TestHelpers.safeClick with [retries >= 1] makes [k] rounds of "wait for
    visible, then click" with [1 <= k <= retries]: the rounds before the last
    all threw, each followed by a pause of 1000 ms, and the last round's
    completion is the completion of safeClick; when it throws, all
    [retries] rounds were made.  With [retries <= 0] it returns at once,
    as if the click had succeeded, without touching the page. *)
Theorem helper_safeClick_rounds (selector : SelectorList) (retries : option Z)
        (c : Clicking W) :
  let n := match retries with Some n => n | None => 3%Z end in
  ((n <= 0)%Z -> safeClick selector retries c = (Return tt, c)) /\
  ((1 <= n)%Z ->
   exists k : nat,
     (1 <= k)%nat /\ (Z.of_nat k <= n)%Z /\
     let (r, c') := safeClick selector retries c in
     rounds c' = (rounds c + k)%nat /\
     pauses c' = pauses c ++ repeat 1000%Z (k - 1) /\
     (forall j, (j < k - 1)%nat -> exists e, fst (nthRound selector (tab c) j) = Throw e) /\
     r = fst (nthRound selector (tab c) (k - 1)) /\
     tab c' = snd (nthRound selector (tab c) (k - 1)) /\
     (forall e, r = Throw e -> Z.of_nat k = n)).
Proof.
  intros n. unfold safeClick. fold n. cbv zeta. split.
  - intros NonPos. replace (Z.to_nat n) with 0%nat by lia. reflexivity.
  - intros Pos.
    destruct (safeClickFrom_run selector n (Z.to_nat n) 0 c) as (k & Hk & Hrun);
      [lia | lia |].
    exists k. split; [lia|]. split; [lia|].
    change (Z.of_nat 0) with 0%Z in Hrun.
    destruct (safeClickFrom selector n (Z.to_nat n) 0 c) as [r c'].
    destruct Hrun as (Hrounds & Hpauses & Hr & Htab & Hthrows & Hlast).
    repeat split; auto.
    intros e He. rewrite (Hlast e He). lia.
Qed.

End HelperClickFacts.

Section ConsoleFacts.
Import ConsoleErrors.

Lemma push_length (r : nat) (x : string) (heap : list (list string)) :
  List.length (push r x heap) = List.length heap.
Proof.
  revert r. induction heap as [|a heap IH]; intros [|r]; cbn; auto.
Qed.

Lemma push_same (r : nat) (x : string) (heap : list (list string)) :
  nth_error (push r x heap) r = option_map (fun a => a ++ [x]) (nth_error heap r).
Proof.
  revert r. induction heap as [|a heap IH]; intros [|r]; cbn; auto.
Qed.

Lemma push_other (r r' : nat) (x : string) (heap : list (list string)) :
  r <> r' -> nth_error (push r x heap) r' = nth_error heap r'.
Proof.
  revert r r'. induction heap as [|a heap IH]; intros [|r] [|r'] Ne; cbn; auto.
  contradiction.
Qed.

Lemma notify_length (msg : ConsoleMessage) (ls : list Listener) (heap : list (list string)) :
  List.length (fold_left (notify msg) ls heap) = List.length heap.
Proof.
  revert heap. induction ls as [|[r] ls IH]; intros heap; cbn; [reflexivity|].
  rewrite IH. destruct (String.eqb (msgType msg) "error"); [apply push_length | reflexivity].
Qed.

(** Listeners that push elsewhere leave an array alone. *)
Lemma notify_others (msg : ConsoleMessage) (ls : list Listener) (heap : list (list string))
      (r : nat) :
  Forall (fun l => match l with PushErrorsTo r' => r' <> r end) ls ->
  nth_error (fold_left (notify msg) ls heap) r = nth_error heap r.
Proof.
  revert heap. induction ls as [|[r'] ls IH]; intros heap All; cbn; [reflexivity|].
  inversion All as [|? ? Ne Rest]; subst. rewrite IH by exact Rest.
  destruct (String.eqb (msgType msg) "error"); [apply push_other; exact Ne | reflexivity].
Qed.

Lemma emit_read (rt : Runtime) (msg : ConsoleMessage) (r : nat) (older : list Listener) :
  listeners rt = older ++ [PushErrorsTo r] ->
  Forall (fun l => match l with PushErrorsTo r' => r' <> r end) older ->
  read (emit rt msg) r
  = option_map (fun a => if isError msg then a ++ [msgText msg] else a) (read rt r).
Proof.
  intros Ls Older. unfold read, emit. cbn [arrays]. rewrite Ls, fold_left_app.
  cbn [fold_left notify]. unfold isError.
  destruct (String.eqb (msgType msg) "error").
  - rewrite push_same, notify_others by exact Older. reflexivity.
  - rewrite notify_others by exact Older. destruct (nth_error (arrays rt) r); reflexivity.
Qed.

(** checkConsoleErrors hands back an array that is empty at that moment,
    whatever the page printed before; the array then fills with the texts
    of the error messages the page prints afterwards, in their order, and
    with nothing else. *)
Theorem checkConsoleErrors_collects_later_errors (rt : Runtime) (later : list ConsoleMessage) :
  wellFormed rt ->
  let (errors, rt') := checkConsoleErrors rt in
  read rt' errors = Some [] /\
  read (fold_left emit later rt') errors = Some (map msgText (filter isError later)) /\
  wellFormed (fold_left emit later rt').
Proof.
  intros WF. unfold checkConsoleErrors.
  set (r := List.length (arrays rt)).
  set (rt' := mkRuntime (arrays rt ++ [[]]) (listeners rt ++ [PushErrorsTo r])).
  assert (Older : Forall (fun l => match l with PushErrorsTo r' => r' <> r end) (listeners rt)).
  { eapply Forall_impl; [|exact WF]. intros [r'] Lt. subst r. lia. }
  assert (Start : read rt' r = Some []).
  { unfold read, rt'. cbn [arrays]. subst r. rewrite nth_error_app2, Nat.sub_diag by lia.
    reflexivity. }
  assert (WF' : wellFormed rt').
  { unfold wellFormed, rt'. cbn [arrays listeners]. rewrite length_app. cbn.
    apply Forall_app. split.
    - eapply Forall_impl; [|exact WF]. intros [r'] Lt. lia.
    - constructor; [subst r; lia | constructor]. }
  split; [exact Start|].
  assert (Gen : forall msgs rt0 seen,
             listeners rt0 = listeners rt ++ [PushErrorsTo r] ->
             wellFormed rt0 ->
             read rt0 r = Some seen ->
             read (fold_left emit msgs rt0) r = Some (seen ++ map msgText (filter isError msgs)) /\
             wellFormed (fold_left emit msgs rt0)).
  { induction msgs as [|msg msgs IH]; intros rt0 seen Ls WF0 Seen; cbn [fold_left filter map].
    - rewrite app_nil_r. split; assumption.
    - assert (Ls1 : listeners (emit rt0 msg) = listeners rt ++ [PushErrorsTo r])
        by exact Ls.
      assert (WF1 : wellFormed (emit rt0 msg)).
      { unfold wellFormed, emit. cbn [arrays listeners]. rewrite notify_length. exact WF0. }
      pose proof (emit_read rt0 msg r (listeners rt) Ls Older) as Read.
      rewrite Seen in Read. cbn [option_map] in Read.
      destruct (isError msg).
      + destruct (IH (emit rt0 msg) (seen ++ [msgText msg]) Ls1 WF1 Read) as [R W1].
        split; [|exact W1]. rewrite R. cbn [map]. rewrite <- app_assoc. reflexivity.
      + exact (IH (emit rt0 msg) seen Ls1 WF1 Read). }
  exact (Gen later rt' [] eq_refl WF' Start).
Qed.

End ConsoleFacts.

Section RunnerEdgeFacts.
Import Sh.

Ltac run_script :=
  cbv [exitCode code andThen ifThen ifThenElse orElse not_ call external echo exit_ return_
       test skip finish outcome printed andb negb orb app
       RunSmokeTests.print_status RunSmokeTests.print_success
       RunSmokeTests.print_warning RunSmokeTests.print_error].

Ltac split_status :=
  match goal with
  | |- context [Z.eqb (if ?c then _ else _) _] => destruct c eqn:?; cbn [Z.eqb]
  | |- context [Z.eqb ?a ?b] => destruct (Z.eqb_spec a b)
  | |- context [Z.ltb ?a ?b] => destruct (Z.ltb_spec a b)
  | |- context [if ?b then _ else _] => destruct b eqn:?
  end; cbv beta iota.

Lemma run_fast_smoke_printed (curl npx : Z) :
  printed (RunFastSmoke.script curl npx true)
  = ["Running FAST Saleor Smoke Tests (Chrome Only)";
     "=================================================="] ++
    (if (curl =? 0)%Z then
       ["Saleor storefront is running"; "Starting fast smoke tests..."] ++
       (if (npx =? 0)%Z then
          ["All smoke tests passed!"; "Test execution completed successfully."]
        else [])
     else
       ["Saleor storefront is not running on localhost:3000";
        "Please start Saleor first:";
        "  cd ../storefront/saleor-storefront-installed-manually-from-fork";
        "  npm run dev"]).
Proof.
  unfold RunFastSmoke.script. run_script.
  destruct (Z.eqb_spec curl 0) as [Up|Down]; cbn [Z.eqb]; cbv beta iota.
  - destruct (Z.eqb_spec npx 0) as [Ok|Ko]; cbv beta iota.
    + rewrite Ok. reflexivity.
    + reflexivity.
  - reflexivity.
Qed.

(** run-fast-smoke.sh never prints its failure message: under [set -e] a
    failing test run ends the script before the status is looked at.  The
    success message is printed exactly when the storefront answered and
    the test run ended with 0. *)
Theorem run_fast_smoke_failure_message_is_dead (curl npx : Z) :
  ~ In "Some smoke tests failed." (printed (RunFastSmoke.script curl npx true)) /\
  (In "All smoke tests passed!" (printed (RunFastSmoke.script curl npx true)) <->
   curl = 0%Z /\ npx = 0%Z).
Proof.
  rewrite run_fast_smoke_printed.
  destruct (Z.eqb_spec curl 0) as [Up|Down]; [destruct (Z.eqb_spec npx 0) as [Ok|Ko]|];
    cbn [app In]; split.
  - intros F. repeat (destruct F as [F|F]; [discriminate|]). exact F.
  - split; auto 10.
  - intros F. repeat (destruct F as [F|F]; [discriminate|]). exact F.
  - split; [|intros [_ E]; contradiction].
    intros F. repeat (destruct F as [F|F]; [discriminate|]). contradiction.
  - intros F. repeat (destruct F as [F|F]; [discriminate|]). exact F.
  - split; [|intros [E _]; contradiction].
    intros F. repeat (destruct F as [F|F]; [discriminate|]). contradiction.
Qed.

(** With --help or -h as first argument run-smoke-tests.sh prints the usage
    and exits with 0 without looking at the host: nothing is checked,
    installed or run. *)
Theorem run_smoke_tests_help (h : RunSmokeTests.Host) (arg1 arg2 : option string) :
  RunSmokeTests.wantsHelp arg1 = true ->
  RunSmokeTests.main h arg1 arg2 true
  = mkRun (Exited 0)
          ["Saleor Smoke Tests Runner"; "==============================";
           "Usage: $0 [test_mode] [open_report]"].
Proof.
  unfold RunSmokeTests.wantsHelp, RunSmokeTests.main. intros Help.
  run_script. cbv zeta.
  destruct (RunSmokeTests.isArg arg1 "--help"); cbn [Z.eqb]; [reflexivity|].
  cbn in Help. rewrite Help. cbn [Z.eqb]. reflexivity.
Qed.

Lemma andThen_status (a : Command) (k : Z -> Command) (e : bool) (z : Z) :
  outcome (a e) = Status z -> outcome (andThen a k e) = outcome (k z e).
Proof. intros E. unfold andThen. rewrite E. reflexivity. Qed.

Lemma andThen_cases (a : Command) (k : Z -> Command) (e : bool) :
  outcome (andThen a k e)
  = match outcome (a e) with
    | Status z => outcome (k z e)
    | stopped => stopped
    end.
Proof. unfold andThen. destruct (outcome (a e)) eqn:E; cbn [outcome]; auto. Qed.

Lemma andThen_exit (a : Command) (k : Z -> Command) (e : bool) (z : Z) :
  outcome (a e) = Exited z -> outcome (andThen a k e) = Exited z.
Proof. intros E. unfold andThen. rewrite E. exact E. Qed.

Lemma check_prerequisites_ok (h : RunSmokeTests.Host) :
  healthyHost h ->
  outcome (call (RunSmokeTests.check_prerequisites h) true) = Status 0.
Proof.
  intros (Node & Major & Npm & _). unfold RunSmokeTests.check_prerequisites.
  run_script. rewrite Node, Npm. cbn [Z.eqb].
  destruct (Z.ltb_spec (RunSmokeTests.node_major h) 18); [lia | reflexivity].
Qed.

Lemma install_dependencies_ok (h : RunSmokeTests.Host) :
  healthyHost h ->
  outcome (call (RunSmokeTests.install_dependencies h) true) = Status 0.
Proof.
  intros (_ & _ & _ & Pkg & Install & Browsers). unfold RunSmokeTests.install_dependencies.
  run_script. rewrite Pkg, Install, Browsers. reflexivity.
Qed.

Lemma check_saleor_status_up (h : RunSmokeTests.Host) :
  RunSmokeTests.curl_first h = 0%Z ->
  outcome (call (RunSmokeTests.check_saleor_status h) true) = Status 0.
Proof.
  intros Up. unfold RunSmokeTests.check_saleor_status.
  run_script. rewrite Up. reflexivity.
Qed.

Lemma check_saleor_status_down (h : RunSmokeTests.Host) :
  RunSmokeTests.curl_first h <> 0%Z ->
  RunSmokeTests.read_choice h = 0%Z ->
  RunSmokeTests.curl_second h <> 0%Z ->
  outcome (call (RunSmokeTests.check_saleor_status h) true) = Exited 1.
Proof.
  intros Down Read Still. unfold RunSmokeTests.check_saleor_status.
  run_script. rewrite Read.
  destruct (Z.eqb_spec (RunSmokeTests.curl_first h) 0); [contradiction|]. cbn [Z.eqb].
  destruct (String.eqb (RunSmokeTests.choice h) "q"); cbn [Z.eqb]; [reflexivity|].
  destruct (Z.eqb_spec (RunSmokeTests.curl_second h) 0); [contradiction | reflexivity].
Qed.

Lemma main_reaches_tests (h : RunSmokeTests.Host) (arg1 arg2 : option string)
      (rest : Command) :
  RunSmokeTests.wantsHelp arg1 = false ->
  healthyHost h ->
  outcome
    ((echo "Saleor Smoke Tests Runner" ;;
      echo "==============================" ;;
      ifThen (orElse (test (RunSmokeTests.isArg arg1 "--help"))
                     (test (RunSmokeTests.isArg arg1 "-h")))
        (echo "Usage: $0 [test_mode] [open_report]" ;; exit_ 0) ;;
      call (RunSmokeTests.check_prerequisites h) ;;
      call (RunSmokeTests.install_dependencies h) ;;
      call (RunSmokeTests.check_saleor_status h) ;;
      rest)%sh true)
  = match outcome (call (RunSmokeTests.check_saleor_status h) true) with
    | Status _ => outcome (rest true)
    | stopped => stopped
    end.
Proof.
  intros Help Healthy.
  unfold RunSmokeTests.wantsHelp in Help. apply orb_false_iff in Help.
  destruct Help as [H1 H2]. rewrite H1, H2.
  rewrite (andThen_status _ _ true 0) by reflexivity.
  rewrite (andThen_status _ _ true 0) by reflexivity.
  rewrite (andThen_status _ _ true 0) by reflexivity.
  rewrite (andThen_status _ _ true 0) by (apply check_prerequisites_ok; exact Healthy).
  rewrite (andThen_status _ _ true 0) by (apply install_dependencies_ok; exact Healthy).
  apply andThen_cases.
Qed.

(** On a host where the set-up steps succeed and the storefront answers,
    and with no report asked for, run-smoke-tests.sh exits with 0 when the
    test run ended with 0 and with 1 otherwise, whatever the non-zero
    status of the test run was. *)
Theorem run_smoke_tests_exit_is_0_or_1 (h : RunSmokeTests.Host) (arg1 arg2 : option string) :
  let status := RunSmokeTests.npm_run h
                  (RunSmokeTests.scriptFor (Some (RunSmokeTests.testMode arg1))) in
  RunSmokeTests.wantsHelp arg1 = false ->
  healthyHost h ->
  RunSmokeTests.curl_first h = 0%Z ->
  RunSmokeTests.openReport arg2 = "false" ->
  (0 <= status < 256)%Z ->
  exitCode (RunSmokeTests.main h arg1 arg2) = if (status =? 0)%Z then 0%Z else 1%Z.
Proof.
  intros status Help Healthy Up NoReport Range.
  unfold exitCode, RunSmokeTests.main. cbv zeta.
  rewrite (main_reaches_tests h arg1 arg2 _ Help Healthy).
  rewrite (check_saleor_status_up h Up).
  unfold ifThenElse at 1.
  rewrite (run_tests_status h (Some (RunSmokeTests.testMode arg1)) Range). fold status.
  rewrite NoReport.
  destruct (Z.eqb_spec status 0); reflexivity.
Qed.

(** When the storefront does not answer, neither at first nor after the
    prompt, run-smoke-tests.sh exits with 1 whatever the test run would
    have given: the tests are not reached. *)
Theorem run_smoke_tests_stops_without_storefront
        (h : RunSmokeTests.Host) (arg1 arg2 : option string) :
  RunSmokeTests.wantsHelp arg1 = false ->
  healthyHost h ->
  RunSmokeTests.curl_first h <> 0%Z ->
  RunSmokeTests.read_choice h = 0%Z ->
  RunSmokeTests.curl_second h <> 0%Z ->
  exitCode (RunSmokeTests.main h arg1 arg2) = 1%Z.
Proof.
  intros Help Healthy Down Read Still.
  unfold exitCode, RunSmokeTests.main. cbv zeta.
  rewrite (main_reaches_tests h arg1 arg2 _ Help Healthy).
  rewrite (check_saleor_status_down h Down Read Still). reflexivity.
Qed.

(** The report step ends the script when one of its two programs fails,
    and goes on otherwise. *)
Lemma open_report_outcome (h : RunSmokeTests.Host) :
  outcome (call (RunSmokeTests.open_report h) true)
  = if (RunSmokeTests.npm_run h "test:report" =? 0)%Z then
      if RunSmokeTests.has_report h then
        if (RunSmokeTests.open_file h =? 0)%Z then Status 0
        else Exited (RunSmokeTests.open_file h)
      else Status 0
    else Exited (RunSmokeTests.npm_run h "test:report").
Proof.
  unfold RunSmokeTests.open_report. run_script.
  destruct (RunSmokeTests.has_report h);
    destruct (Z.eqb_spec (RunSmokeTests.npm_run h "test:report") 0) as [Ok|Ko];
    destruct (Z.eqb_spec (RunSmokeTests.open_file h) 0) as [Ok'|Ko'];
    cbn; rewrite ?Ok, ?Ok'; cbn;
    repeat split_status; try reflexivity; try congruence.
Qed.

Lemma ifThenElse_cases (c a b : Command) (e : bool) :
  outcome (ifThenElse c a b e)
  = match outcome (c false) with
    | Status z => outcome ((if (z =? 0)%Z then a else b) e)
    | stopped => stopped
    end.
Proof. unfold ifThenElse. destruct (outcome (c false)) eqn:E; cbn [outcome]; auto. Qed.

(** The two branches of main behind the test run: the report step, when
    it is asked for, comes before the final [exit]. *)
Lemma after_passing_tests (h : RunSmokeTests.Host) (OPEN_REPORT : string) :
  outcome
    ((ifThen (test (String.eqb OPEN_REPORT "true"))
        (call (RunSmokeTests.open_report h)) ;;
      call (RunSmokeTests.print_success "Smoke tests completed successfully!") ;;
      exit_ 0)%sh true)
  = if String.eqb OPEN_REPORT "true" then
      match outcome (call (RunSmokeTests.open_report h) true) with
      | Status _ => Exited 0
      | stopped => stopped
      end
    else Exited 0.
Proof.
  rewrite andThen_cases. unfold ifThen. rewrite ifThenElse_cases.
  unfold test, external, finish. cbn [andb outcome].
  destruct (String.eqb OPEN_REPORT "true"); cbn [Z.eqb]; [|reflexivity].
  destruct (outcome (call (RunSmokeTests.open_report h) true)); reflexivity.
Qed.

Lemma after_failing_tests (h : RunSmokeTests.Host) (OPEN_REPORT : string) :
  outcome
    ((call (RunSmokeTests.print_error "Smoke tests failed!") ;;
      ifThen (test (negb (String.eqb OPEN_REPORT "false")))
        (call (RunSmokeTests.open_report h)) ;;
      exit_ 1)%sh true)
  = if String.eqb OPEN_REPORT "false" then Exited 1
    else
      match outcome (call (RunSmokeTests.open_report h) true) with
      | Status _ => Exited 1
      | stopped => stopped
      end.
Proof.
  rewrite (andThen_status _ _ true 0) by reflexivity.
  rewrite andThen_cases. unfold ifThen. rewrite ifThenElse_cases.
  unfold test, external, finish. cbn [andb outcome].
  destruct (String.eqb OPEN_REPORT "false"); cbn [negb Z.eqb]; [reflexivity|].
  destruct (outcome (call (RunSmokeTests.open_report h) true)); reflexivity.
Qed.

(** C8, as the scripts have it.  run-fast-smoke.sh, once the storefront
    answers, exits with the very status of [npx playwright test]: with 0
    exactly when the storefront answered and the test run ended with 0 (all
    scenarios passed), and non-zero when the test run ended non-zero.
    In run-smoke-tests.sh [run_tests] returns the status of the npm script
    it started, unchanged, but [main] does not hand it on.  The script
    exits non-zero whenever that status is non-zero.  On a host whose
    set-up steps succeed and whose storefront answers it exits with 0
    exactly when the status is 0 and the report step, if asked for with
    "true", succeeds; after a failed test run it exits with 1, whatever
    the status was, when the report step is not asked for or succeeds. *)
Theorem runner_exit_code_follows_tests
        (curl npx : Z) (h : RunSmokeTests.Host) (arg1 arg2 mode : option string) :
  let started := RunSmokeTests.npm_run h (RunSmokeTests.scriptFor mode) in
  let status := RunSmokeTests.npm_run h
                  (RunSmokeTests.scriptFor (Some (RunSmokeTests.testMode arg1))) in
  let reportSucceeds :=
    RunSmokeTests.npm_run h "test:report" = 0%Z /\
    (RunSmokeTests.has_report h = true -> RunSmokeTests.open_file h = 0%Z) in
  (0 <= npx < 256)%Z ->
  (0 <= started < 256)%Z ->
  (0 <= status < 256)%Z ->
  (curl = 0%Z -> exitCode (RunFastSmoke.script curl npx) = npx) /\
  (exitCode (RunFastSmoke.script curl npx) = 0%Z <-> curl = 0%Z /\ npx = 0%Z) /\
  outcome (call (RunSmokeTests.run_tests h mode) false) = Status started /\
  (RunSmokeTests.wantsHelp arg1 = false ->
   status <> 0%Z ->
   exitCode (RunSmokeTests.main h arg1 arg2) <> 0%Z) /\
  (RunSmokeTests.wantsHelp arg1 = false ->
   healthyHost h ->
   RunSmokeTests.curl_first h = 0%Z ->
   (exitCode (RunSmokeTests.main h arg1 arg2) = 0%Z <->
    status = 0%Z /\ (RunSmokeTests.openReport arg2 = "true" -> reportSucceeds)) /\
   (status <> 0%Z ->
    RunSmokeTests.openReport arg2 = "false" \/ reportSucceeds ->
    exitCode (RunSmokeTests.main h arg1 arg2) = 1%Z)).
Proof.
  intros started status reportSucceeds Rnpx Rstarted Rstatus.
  pose proof (run_fast_smoke_exit curl npx Rnpx) as Fast.
  split; [intros ->; exact Fast|].
  split; [|split; [|split]].
  - rewrite Fast. destruct (Z.eqb_spec curl 0) as [Up|Down].
    + split; [intros Zero; split; assumption | intros [_ Zero]; exact Zero].
    + split; [discriminate | intros [Up _]; contradiction].
  - exact (run_tests_status h mode Rstarted).
  - intros Help Fails Zero. apply Fails.
    exact (run_smoke_tests_exit h arg1 arg2 Help Rstatus Zero).
  - intros Help Healthy Up.
    assert (Exit : exitCode (RunSmokeTests.main h arg1 arg2)
                   = code (if (status =? 0)%Z then
                             if String.eqb (RunSmokeTests.openReport arg2) "true" then
                               match outcome (call (RunSmokeTests.open_report h) true) with
                               | Status _ => Exited 0
                               | stopped => stopped
                               end
                             else Exited 0
                           else
                             if String.eqb (RunSmokeTests.openReport arg2) "false" then Exited 1
                             else
                               match outcome (call (RunSmokeTests.open_report h) true) with
                               | Status _ => Exited 1
                               | stopped => stopped
                               end)).
    { unfold exitCode, RunSmokeTests.main. cbv zeta.
      rewrite (main_reaches_tests h arg1 arg2 _ Help Healthy).
      rewrite (check_saleor_status_up h Up).
      rewrite ifThenElse_cases.
      rewrite (run_tests_status h (Some (RunSmokeTests.testMode arg1)) Rstatus). fold status.
      destruct (status =? 0)%Z.
      - rewrite after_passing_tests. reflexivity.
      - rewrite after_failing_tests. reflexivity. }
    rewrite Exit, open_report_outcome. unfold reportSucceeds.
    destruct (Z.eqb_spec status 0) as [Passed|Failed].
    + split; [|intros Ko; contradiction].
      destruct (String.eqb_spec (RunSmokeTests.openReport arg2) "true") as [Asked|Not].
      * destruct (Z.eqb_spec (RunSmokeTests.npm_run h "test:report") 0) as [Made|Broke].
        -- destruct (RunSmokeTests.has_report h).
           ++ destruct (Z.eqb_spec (RunSmokeTests.open_file h) 0) as [Opened|Closed]; cbn [code].
              ** split; [intros _|reflexivity]. split; [exact Passed|]. intros _.
                 split; [exact Made | intros _; exact Opened].
              ** split; [intros Zero; contradiction|].
                 intros (_ & Works). destruct (Works Asked) as (_ & Opened).
                 apply Opened. reflexivity.
           ++ cbn [code]. split; [intros _|reflexivity]. split; [exact Passed|]. intros _.
              split; [exact Made | discriminate].
        -- cbn [code]. split; [intros Zero; contradiction|].
           intros (_ & Works). destruct (Works Asked) as (Made & _). exact Made.
      * cbn [code]. split; [intros _|reflexivity]. split; [exact Passed|].
        intros Asked. contradiction.
    + split; [split; [|intros (Passed & _); contradiction]|].
      * destruct (String.eqb (RunSmokeTests.openReport arg2) "false"); [discriminate|].
        destruct (Z.eqb_spec (RunSmokeTests.npm_run h "test:report") 0) as [Made|Broke];
          [|cbn [code]; intros Zero; contradiction].
        destruct (RunSmokeTests.has_report h); [|discriminate].
        destruct (Z.eqb_spec (RunSmokeTests.open_file h) 0) as [Opened|Closed];
          [discriminate | cbn [code]; intros Zero; contradiction].
      * intros _ [NotAsked|(Made & Opened)].
        -- rewrite NotAsked. reflexivity.
        -- destruct (String.eqb (RunSmokeTests.openReport arg2) "false"); [reflexivity|].
           rewrite Made. cbn [Z.eqb].
           destruct (RunSmokeTests.has_report h); [|reflexivity].
           rewrite (Opened eq_refl). reflexivity.
Qed.

End RunnerEdgeFacts.

Section ScenarioFacts.
Context {W : Type} `{FullBrowser W}.
Import Scenarios HomePageRest.

Lemma ends_done {A} (c : Async (Session W) A) (k : Async (Session W) Ending) :
  (forall s x, fst (k s) = Return x -> x = Done) ->
  forall s x, fst ((c ;; k) s) = Return x -> x = Done.
Proof.
  intros K s x. rewrite bind_run.
  destruct (c s) as [[a|e] s1]; [apply K | discriminate].
Qed.

Lemma TC_003_try_ends_done (s : Session W) (x : Ending) :
  fst (TC_003_try s) = Return x -> x = Done.
Proof.
  revert s x. unfold TC_003_try.
  repeat (apply ends_done). intros s x [= <-]. reflexivity.
Qed.

(** After its "Given" steps TC-003 cannot fail on adding to the cart.  A
    run that finishes within the time limit passes when the [try] block
    returns and is skipped when anything in that block throws; it fails
    only when, in addition, the screenshot of the failure cannot be taken.
    A run that takes longer than the limit, as when the waits of the [try]
    block add up to more than 30 s, is reported as timed out. *)
Theorem TC_003_fails_only_late_or_on_screenshot (s s1 : Session W) (elapsed : Z) :
  TC_003_given s = (Return tt, s1) ->
  match verdict TC_003 elapsed s with
  | TimedOut => (testTimeout < elapsed)%Z
  | Passed => (elapsed <= testTimeout)%Z /\ fst (TC_003_try s1) = Return Done
  | Skipped => (elapsed <= testTimeout)%Z /\ exists e, fst (TC_003_try s1) = Throw e
  | Failed e =>
      (elapsed <= testTimeout)%Z /\
      exists e0 s2, TC_003_try s1 = (Throw e0, s2) /\
                    screenshot "add-to-cart-failed" (page s2) = Throw e
  end.
Proof.
  intros Given. unfold verdict, TC_003.
  destruct (Z.ltb_spec testTimeout elapsed) as [Late|InTime]; [exact Late|].
  rewrite bind_run, Given. unfold tryCatch.
  destruct (TC_003_try s1) as [[x|e0] s2] eqn:Try.
  - assert (x = Done) by (apply (TC_003_try_ends_done s1); rewrite Try; reflexivity).
    subst x. split; [exact InTime | reflexivity].
  - unfold TC_003_catch. rewrite bind_run. unfold consoleLog at 1.
    rewrite bind_run. unfold takeScreenshot, observe. cbn [page].
    destruct (screenshot "add-to-cart-failed" (page s2)) as [[]|e] eqn:Shot; cbn.
    + split; [exact InTime | exists e0; reflexivity].
    + split; [exact InTime|]. exists e0, s2. split; [reflexivity | exact Shot].
Qed.

(** Among runs that both finish in time, or both do not, the verdict of
    TC-004 does not depend on whether the cart is empty: it is the verdict
    of the same steps without the look at the cart, because that look
    never throws and does not act on the page. *)
Theorem TC_004_verdict_ignores_emptiness (s : Session W) (elapsed elapsed' : Z) :
  (testTimeout <? elapsed)%Z = (testTimeout <? elapsed')%Z ->
  verdict TC_004 elapsed s
  = verdict (CartPageRest.goto ;;
             CartPage.verifyCartPageLoaded ;;
             takeScreenshot "cart-page-loaded" ;;
             ret Done) elapsed' s.
Proof.
  intros Same. unfold verdict, TC_004. rewrite Same.
  destruct (testTimeout <? elapsed')%Z; [reflexivity|].
  rewrite !(bind_run CartPageRest.goto).
  destruct (CartPageRest.goto s) as [[[]|e] s1]; [|reflexivity].
  rewrite !(bind_run CartPage.verifyCartPageLoaded), verifyCartPageLoaded_run.
  destruct (match toHaveURL (Containing "/cart") (page s1) with
            | Return _ => _ | Throw e => _ end) as [[]|e]; [|reflexivity].
  rewrite bind_run, isCartEmpty_run.
  rewrite bind_run. unfold consoleLog at 1.
  rewrite !bind_run. unfold takeScreenshot, observe. cbn [page].
  destruct (screenshot "cart-page-loaded" (page s1)); reflexivity.
Qed.

End ScenarioFacts.

(* ===================================================================== *)
(** * Further runs on sample pages                                       *)
(* ===================================================================== *)

Section MoreRuns.
Import StaticBrowser StaticSite Storefront MoreSamples.

Lemma generateRandomString_length_witness :
  GlobalUtils.generateRandomString "0.4fzyo82mvyr" (Some 20%Z) = "4fzyo82mvyr" /\
  GlobalUtils.generateRandomString "0.4fzyo82mvyr" (Some (-5)%Z) = "0.".
Proof.
  split.
  - rewrite (proj1 (proj1 (generateRandomString_length "0.4fzyo82mvyr" 20) ltac:(lia))).
    reflexivity.
  - rewrite (proj2 (generateRandomString_length "0.4fzyo82mvyr" (-5)) ltac:(lia)).
    reflexivity.
Defined.

Lemma retry_without_attempts_witness :
  (0 <= 0)%Z /\
  GlobalTestUtils.retry flaky (Some 0%Z) None (GlobalTestUtils.start 0)
  = (Throw (PlainError "Max retries exceeded"), GlobalTestUtils.start 0).
Proof.
  split; [lia|]. apply retry_without_attempts. lia.
Defined.

Lemma retry_total_delay_witness :
  (1 <= 3)%Z /\
  fold_right Z.add 0%Z
    (GlobalTestUtils.slept (snd (GlobalTestUtils.retry flaky None None (GlobalTestUtils.start 0))))
  = 3000%Z.
Proof.
  split; [lia|].
  rewrite (proj1 (retry_total_delay flaky None None 0 ltac:(cbv; discriminate))).
  reflexivity.
Defined.

Lemma verifyCartBadgeCount_skips_zero_witness :
  HomePageRest.verifyCartBadgeCount 0 (visit (shop notFoundPage))
  = (Return tt, visit (shop notFoundPage)).
Proof.
  apply (proj1 (verifyCartBadgeCount_skips_zero 0 (visit (shop notFoundPage)))). lia.
Defined.

Lemma static_visible_is_attached (l : Locator) (p : StaticPage) :
  toBeVisible l p = Return tt -> waitFor l attached 2000%Z p = Return tt.
Proof.
  cbn. unfold static_toBeVisible, static_waitFor.
  destruct (single p l) as [x|[]]; try discriminate. reflexivity.
Qed.

Lemma verifyHomepageLoaded_decided_witness :
  fst (HomePage.verifyHomepageLoaded (open home)) = Return tt.
Proof.
  rewrite (verifyHomepageLoaded_decided_by_url_and_list (open home) static_visible_is_attached).
  reflexivity.
Defined.

Lemma selectAnyVariant_never_throws_witness :
  fst (ProductPage.selectAnyVariant (open productWithSelect)) = Return tt.
Proof.
  apply selectAnyVariant_never_throws.
  intros l w. exists (List.length (resolve (document w) l)). reflexivity.
Defined.

Lemma verifyCartHasItems_witness :
  fst (CartPageRest.verifyCartHasItems (visit (shop cartWithTee))) = Return tt /\
  fst (BasePage.elementExists CartPage.emptyCartMessage (visit (shop cartWithTee)))
  = Return false /\
  exists n, count CartPage.cartItems (shop cartWithTee) = Return (S n).
Proof.
  split; [reflexivity|].
  destruct (verifyCartHasItems_passes_only_with_items (visit (shop cartWithTee)))
    as (NoMessage & Items & _); [reflexivity|].
  split; [exact NoMessage | exact Items].
Defined.

Lemma getCartItemNames_clean_witness :
  fst (CartPageRest.getCartItemNames (visit (shop cartWithNamedTee)))
  = Return ["Monospace Tee"] /\
  Forall (fun name => name <> EmptyString /\ JsString.trim name = name) ["Monospace Tee"].
Proof.
  split; [reflexivity|].
  apply (proj2 (getCartItemNames_clean (visit (shop cartWithNamedTee)))). reflexivity.
Defined.

Lemma login_acts_in_order_witness :
  fst (CheckoutPageRest.login "admin@example.com" "admin" (visit (shop loginForm))) = Return tt /\
  exists n : nat,
    events (snd (CheckoutPageRest.login "admin@example.com" "admin" (visit (shop loginForm))))
    = firstn n [Filled CheckoutPageRest.emailInput "admin@example.com";
                Filled CheckoutPageRest.passwordInput "admin";
                Clicked CheckoutPageRest.loginButton false] /\
    n = 3%nat.
Proof.
  split; [reflexivity|].
  destruct (login_acts_in_order "admin@example.com" "admin" (visit (shop loginForm)))
    as (n & Acts & All).
  exists n. split; [exact Acts | apply All; reflexivity].
Defined.

Lemma checkout_form_implies_elements_witness :
  fst (CheckoutPageRest.verifyCheckoutFormForLoggedInUser (visit (shop checkout))) = Return tt /\
  fst (CheckoutPageRest.verifyCheckoutElements (visit (shop checkout))) = Return tt.
Proof.
  split; [reflexivity|].
  apply (proj2 (proj2 (checkout_form_implies_elements (visit (shop checkout))))). reflexivity.
Defined.

Lemma getOrderNumber_witness :
  fst (CheckoutPageRest.getOrderNumber (visit (shop confirmation)))
  = Throw (StrictModeViolation "locator resolved to several elements") /\
  fst (CheckoutPageRest.getOrderNumber (visit (shop confirmationWithoutNumber)))
  = Return EmptyString.
Proof.
  split.
  - eapply (proj1 (getOrderNumber_never_finds_a_number
                     (visit (shop confirmation)) _ _ _ eq_refl (or_intror (or_introl eq_refl))
                     eq_refl)).
    + left. reflexivity.
    + reflexivity.
  - assert (Returned : exists number,
               fst (CheckoutPageRest.getOrderNumber (visit (shop confirmationWithoutNumber)))
               = Return number) by (eexists; reflexivity).
    destruct Returned as (number & Returned).
    rewrite Returned. f_equal.
    eapply (proj2 (getOrderNumber_never_finds_a_number
                     (visit (shop confirmationWithoutNumber)) _ _ _ eq_refl
                     (or_intror (or_introl eq_refl)) eq_refl)).
    exact Returned.
Defined.

Lemma helper_safeClick_rounds_witness :
  let start := TestHelpersClick.mkClicking (shop landing) [] 0 in
  TestHelpersClick.safeClick ProductPage.addToCartSelectors (Some 0%Z) start
  = (Return tt, start) /\
  exists k : nat, (1 <= k)%nat /\ (Z.of_nat k <= 2)%Z /\
    TestHelpersClick.rounds
      (snd (TestHelpersClick.safeClick ProductPage.addToCartSelectors (Some 2%Z) start))
    = k.
Proof.
  cbv zeta. split.
  - apply (proj1 (helper_safeClick_rounds ProductPage.addToCartSelectors (Some 0%Z)
                    (TestHelpersClick.mkClicking (shop landing) [] 0))). lia.
  - destruct (proj2 (helper_safeClick_rounds ProductPage.addToCartSelectors (Some 2%Z)
                       (TestHelpersClick.mkClicking (shop landing) [] 0)) ltac:(lia))
      as (k & Lo & Hi & Run).
    exists k. split; [exact Lo|]. split; [exact Hi|].
    destruct (TestHelpersClick.safeClick _ _ _) as [r c'].
    exact (proj1 Run).
Defined.

Lemma checkConsoleErrors_witness :
  let later := [ConsoleErrors.mkMessage "log" "ready";
                ConsoleErrors.mkMessage "error" "boom";
                ConsoleErrors.mkMessage "warning" "slow";
                ConsoleErrors.mkMessage "error" "bang"] in
  let (errors, rt) := ConsoleErrors.checkConsoleErrors (ConsoleErrors.mkRuntime [] []) in
  ConsoleErrors.read rt errors = Some [] /\
  ConsoleErrors.read (fold_left ConsoleErrors.emit later rt) errors = Some ["boom"; "bang"].
Proof.
  cbv zeta.
  pose proof (checkConsoleErrors_collects_later_errors
                (ConsoleErrors.mkRuntime [] [])
                [ConsoleErrors.mkMessage "log" "ready";
                 ConsoleErrors.mkMessage "error" "boom";
                 ConsoleErrors.mkMessage "warning" "slow";
                 ConsoleErrors.mkMessage "error" "bang"]
                (Forall_nil _)) as Collected.
  destruct (ConsoleErrors.checkConsoleErrors (ConsoleErrors.mkRuntime [] [])) as [errors rt].
  destruct Collected as (Empty & Later & _).
  split; [exact Empty | exact Later].
Defined.

Lemma run_smoke_tests_help_witness :
  Sh.exitCode (RunSmokeTests.main hostWithoutStorefront (Some "--help") None) = 0%Z.
Proof.
  unfold Sh.exitCode.
  rewrite (run_smoke_tests_help hostWithoutStorefront (Some "--help") None eq_refl).
  reflexivity.
Defined.

Lemma run_smoke_tests_exit_is_0_or_1_witness :
  Sh.exitCode (RunSmokeTests.main hostWithFailingTests None None) = 1%Z.
Proof.
  rewrite (run_smoke_tests_exit_is_0_or_1 hostWithFailingTests None None); [reflexivity|..].
  - reflexivity.
  - cbv. repeat split; congruence.
  - reflexivity.
  - reflexivity.
  - cbn. lia.
Defined.

Lemma run_smoke_tests_stops_without_storefront_witness :
  Sh.exitCode (RunSmokeTests.main hostWithoutStorefront None None) = 1%Z.
Proof.
  apply run_smoke_tests_stops_without_storefront.
  - reflexivity.
  - cbv. repeat split; congruence.
  - discriminate.
  - reflexivity.
  - discriminate.
Defined.

Lemma TC_003_witness :
  let given := mkSession (show oneProductShop landing)
                         [Clicked HomePage.getFirstProduct false] in
  Scenarios.TC_003_given (visit oneProductShop) = (Return tt, given) /\
  Scenarios.verdict Scenarios.TC_003 20000 (visit oneProductShop) = Scenarios.Skipped /\
  (exists e, fst (Scenarios.TC_003_try given) = Throw e) /\
  Scenarios.verdict Scenarios.TC_003 31000 (visit oneProductShop) = Scenarios.TimedOut.
Proof.
  cbv zeta.
  pose proof (TC_003_fails_only_late_or_on_screenshot
                (visit oneProductShop)
                (mkSession (show oneProductShop landing)
                           [Clicked HomePage.getFirstProduct false])
                20000 eq_refl) as InTime.
  split; [reflexivity|]. split; [reflexivity|]. split; [|reflexivity].
  exact (proj2 InTime).
Defined.

Lemma TC_004_witness :
  Scenarios.verdict Scenarios.TC_004 2500 (visit (shop notFoundPage)) = Scenarios.Passed /\
  Scenarios.verdict (CartPageRest.goto ;;
                     CartPage.verifyCartPageLoaded ;;
                     HomePageRest.takeScreenshot "cart-page-loaded" ;;
                     ret Scenarios.Done) 500 (visit (shop notFoundPage))
  = Scenarios.Passed.
Proof.
  split; [reflexivity|].
  exact (eq_trans
           (eq_sym (TC_004_verdict_ignores_emptiness (visit (shop notFoundPage))
                                                      2500 500 eq_refl))
           eq_refl).
Defined.

(** run-smoke-tests.sh does not hand on the status of the test run: a test
    run that ends with 3 gives the exit code 1, and a test run that ends
    with 0, all scenarios having passed, gives the exit code 2 when the
    report asked for cannot be generated. *)
Lemma runner_exit_code_not_handed_on :
  RunSmokeTests.npm_run (hostWithStatus 3 0) (RunSmokeTests.scriptFor None) = 3%Z /\
  Sh.exitCode (RunSmokeTests.main (hostWithStatus 3 0) None None) = 1%Z /\
  RunSmokeTests.npm_run (hostWithStatus 0 2) (RunSmokeTests.scriptFor None) = 0%Z /\
  Sh.exitCode (RunSmokeTests.main (hostWithStatus 0 2) None (Some "true")) = 2%Z.
Proof. repeat split; reflexivity. Qed.

Lemma runner_exit_code_follows_tests_witness :
  Sh.exitCode (RunFastSmoke.script 0 1) = 1%Z /\
  Sh.exitCode (RunSmokeTests.main (hostWithStatus 0 0) None None) = 0%Z /\
  Sh.exitCode (RunSmokeTests.main (hostWithStatus 0 0) None (Some "true")) = 0%Z /\
  Sh.exitCode (RunSmokeTests.main hostWithFailingTests None None) = 1%Z.
Proof.
  pose proof (runner_exit_code_follows_tests 0 1 (hostWithStatus 0 0) None None None
                ltac:(lia) ltac:(cbn; lia) ltac:(cbn; lia)) as (Fast & _ & _ & _ & Passing).
  pose proof (runner_exit_code_follows_tests 0 1 (hostWithStatus 0 0) None (Some "true") None
                ltac:(lia) ltac:(cbn; lia) ltac:(cbn; lia)) as (_ & _ & _ & _ & Reported).
  pose proof (runner_exit_code_follows_tests 0 1 hostWithFailingTests None None None
                ltac:(lia) ltac:(cbn; lia) ltac:(cbn; lia)) as (_ & _ & _ & _ & Failing).
  assert (Healthy : forall a b, healthyHost (hostWithStatus a b))
    by (intros a b; cbv; repeat split; congruence).
  split; [apply Fast; reflexivity|]. split; [|split].
  - apply (proj1 (Passing eq_refl (Healthy 0%Z 0%Z) eq_refl)).
    split; [reflexivity | discriminate].
  - apply (proj1 (Reported eq_refl (Healthy 0%Z 0%Z) eq_refl)).
    split; [reflexivity|]. intros _. split; [reflexivity | reflexivity].
  - apply (proj2 (Failing eq_refl ltac:(cbv; repeat split; congruence) eq_refl)).
    + discriminate.
    + left. reflexivity.
Defined.

End MoreRuns.
